(** * ai-image-worker: a WordPress featured-image worker

    A shallow embedding of the two implementations found in the
    repository, [src/index.js] (inline base64 image payload) and
    [src/unnamed/part_000] (image delivered through a URL), together with
    the properties of the trigger listener, the content-API client, the
    image-generation client and the orchestrator.

    Conventions.
    - JavaScript values are the inductive [value]; numbers are integers
      ([Z]) printed in decimal, strings are byte strings, so [length]
      counts bytes.
    - Code runs in the monad [M]: a state transformer over a [machine]
      (the outside world, the response object being written, a log of the
      [fetch] exchanges and the console) that may end in a thrown [error].
      State changes made before a throw are kept, as in JavaScript.
    - Built-ins that are not code of the repository ([JSON.parse],
      [JSON.stringify], [new URL], [Buffer.from], [fetch], [Date.now]) are
      fields of the classes [Runtime] and [World]. *)

From Stdlib Require Import String Ascii ZArith List Bool Lia.
From Stdlib Require Import DecimalString.
From Stdlib Require DecimalZ DecimalPos.
From ExtLib Require Import Structures.Monad Structures.MonadExc.
Import ListNotations.
Import MonadNotation.
Local Open Scope string_scope.
Local Open Scope Z_scope.
Local Open Scope monad_scope.
Set Warnings "-register-all".

(** ** JavaScript values *)

Inductive value : Type :=
| VUndefined
| VNull
| VBool (b : bool)
| VNum (n : Z)
| VStr (s : string)
| VArr (xs : list value)
| VObj (fields : list (string * value)).

(** A thrown [Error] object: its class name and its [message]. *)
Record error : Type := mkError { name : string; message : string }.

Definition Error (msg : string) : error := mkError "Error" msg.
Definition TypeError (msg : string) : error := mkError "TypeError" msg.

Definition result (A : Type) : Type := (error + A)%type.

(** [String(n)] for an integer. *)
Definition string_of_Z (n : Z) : string := NilZero.string_of_int (Z.to_int n).

Fixpoint join (sep : string) (l : list string) : string :=
  match l with
  | [] => ""
  | [s] => s
  | s :: rest => s ++ sep ++ join sep rest
  end.

(** [ToString], as applied by template literals.  Exact for [undefined],
    [null], booleans, strings, integers below 10^21 and arrays of these;
    larger numbers are printed in full decimal and every object as
    [[object Object]]. *)
Fixpoint to_string (v : value) : string :=
  match v with
  | VUndefined => "undefined"
  | VNull => "null"
  | VBool true => "true"
  | VBool false => "false"
  | VNum n => string_of_Z n
  | VStr s => s
  | VArr xs =>
      join "," (map (fun x => match x with
                              | VUndefined | VNull => ""
                              | _ => to_string x
                              end) xs)
  | VObj _ => "[object Object]"
  end.

(** [ToBoolean]: what [!v], [v || w], [v && w] and [v ? a : b] test. *)
Definition to_boolean (v : value) : bool :=
  match v with
  | VUndefined | VNull => false
  | VBool b => b
  | VNum n => negb (n =? 0)
  | VStr s => negb (s =? "")%string
  | VArr _ | VObj _ => true
  end.

Definition Array_isArray (v : value) : bool :=
  match v with VArr _ => true | _ => false end.

Fixpoint lookup (k : string) (fields : list (string * value)) : value :=
  match fields with
  | [] => VUndefined
  | (k', v) :: rest => if (k =? k')%string then v else lookup k rest
  end.

Definition string_of_nat (i : nat) : string := string_of_Z (Z.of_nat i).

Definition char_at (s : string) (i : nat) : value :=
  match String.get i s with
  | Some c => VStr (String c EmptyString)
  | None => VUndefined
  end.

(** [v.k] for a property name [k] that is not an array index.  Reading a
    property of [undefined] or [null] throws. *)
Definition get_prop (v : value) (k : string) : result value :=
  match v with
  | VUndefined =>
      inl (TypeError ("Cannot read properties of undefined (reading '" ++ k ++ "')"))
  | VNull =>
      inl (TypeError ("Cannot read properties of null (reading '" ++ k ++ "')"))
  | VBool _ | VNum _ => inr VUndefined
  | VStr s =>
      if (k =? "length")%string then inr (VNum (Z.of_nat (String.length s)))
      else inr VUndefined
  | VArr xs =>
      if (k =? "length")%string then inr (VNum (Z.of_nat (List.length xs)))
      else inr VUndefined
  | VObj fields => inr (lookup k fields)
  end.

(** [v[i]] for an index [i].  A string is indexed by byte, which is
    JavaScript's indexing on ASCII text. *)
Definition get_index (v : value) (i : nat) : result value :=
  match v with
  | VUndefined =>
      inl (TypeError ("Cannot read properties of undefined (reading '"
                        ++ string_of_nat i ++ "')"))
  | VNull =>
      inl (TypeError ("Cannot read properties of null (reading '"
                        ++ string_of_nat i ++ "')"))
  | VBool _ | VNum _ => inr VUndefined
  | VStr s => inr (char_at s i)
  | VArr xs => inr (nth i xs VUndefined)
  | VObj fields => inr (lookup (string_of_nat i) fields)
  end.

(** [a === b] where [b] is a number literal. *)
Definition strict_equal_num (a : value) (n : Z) : bool :=
  match a with VNum m => m =? n | _ => false end.


(** ** HTTP data *)

Definition Buffer : Type := list Byte.byte.

(** The [body] option of a [fetch] call. *)
Inductive BodyInit : Type :=
| BodyNull
| BodyString (s : string)
| BodyBuffer (b : Buffer).

(** The second argument of [fetch]. *)
Record RequestInit : Type := mkInit {
  method : string;
  headers : list (string * string);
  body : BodyInit
}.

(** A [fetch] response: its status and what each body reader resolves to
    (or rejects with). *)
Record Response : Type := mkResponse {
  status : Z;
  text : result string;
  json : result value;
  arrayBuffer : result Buffer
}.

(** [res.ok]: the status is in the range 200-299. *)
Definition ok (r : Response) : bool := (200 <=? status r) && (status r <=? 299).

(** One call of [fetch] with what it resolved to or rejected with. *)
Record exchange : Type := mkExchange {
  ex_input : value;
  ex_init : option RequestInit;
  ex_result : result Response
}.

(** A failed exchange: the call was rejected or the response is not [ok]. *)
Definition ex_failed (x : exchange) : bool :=
  match ex_result x with
  | inl _ => true
  | inr r => negb (ok r)
  end.

(** The parts of a parsed request URL the listener reads. *)
Record URL : Type := mkURL {
  pathname : string;
  searchParams : list (string * string)
}.

(** [searchParams.get(k)]: the first value for [k], or [null]. *)
Fixpoint searchParams_get (ps : list (string * string)) (k : string) : option string :=
  match ps with
  | [] => None
  | (k', v) :: rest => if (k =? k')%string then Some v else searchParams_get rest k
  end.

(** [secret !== WORKER_SECRET], where [secret] is a string or [null]. *)
Definition strict_not_equal (secret : option string) (s : string) : bool :=
  match secret with
  | Some s' => negb (s' =? s)%string
  | None => true
  end.

Record IncomingMessage : Type := mkRequest { url : string }.

(** The response object the listener writes to. *)
Record ServerResponse : Type := mkServerResponse {
  statusCode : Z;
  sent_headers : list (string * string);
  sent_body : option string
}.

(** A fresh response: status 200, no header, not ended. *)
Definition fresh_response : ServerResponse := mkServerResponse 200 [] None.

Inductive console_entry : Type :=
| Log (s : string)
| LogError (e : error).

(** ** The process environment and the constants read from it *)

Record Env : Type := mkEnv {
  env_OPENAI_API_KEY : option string;
  env_WP_SITE_URL : option string;
  env_WP_USERNAME : option string;
  env_WP_APP_PASSWORD : option string;
  env_WORKER_SECRET : option string
}.

(** An environment variable inside a template literal. *)
Definition env_to_string (o : option string) : string :=
  match o with Some s => s | None => "undefined" end.

(** [process.env.WORKER_SECRET || 'changeme'] *)
Definition WORKER_SECRET (env : Env) : string :=
  match env_WORKER_SECRET env with
  | Some s => if (s =? "")%string then "changeme" else s
  | None => "changeme"
  end.

(** [s.replace(/\/+$/, '')]: drop the slashes at the end of [s]. *)
Fixpoint strip_trailing_slashes (s : string) : string :=
  match s with
  | EmptyString => EmptyString
  | String c s' =>
      let r := strip_trailing_slashes s' in
      if (Ascii.eqb c "/" && (r =? "")%string)%bool then EmptyString else String c r
  end.

Definition dquote : string := String "034"%char EmptyString.


(** ** Built-ins and the outside world *)

Class Runtime : Type := {
  (** [JSON.parse(txt)] *)
  JSON_parse : string -> result value;
  (** [JSON.stringify(v)] for an object [v] *)
  JSON_stringify : value -> string;
  (** [new URL(input, 'http://localhost')] *)
  URL_new : string -> result URL;
  (** [Buffer.from(v, 'base64')] *)
  Buffer_from_base64 : value -> result Buffer;
  (** [Buffer.from(s).toString('base64')] *)
  to_base64 : string -> string
}.

Class World : Type := {
  world : Type;
  (** what the network answers to [fetch(input, init)] *)
  world_fetch : value -> option RequestInit -> world -> result Response * world;
  (** [Date.now()] *)
  world_now : world -> Z * world
}.

(** ** Machine states and the monad of the code *)

Section Machine.
Context {W : World}.

Record machine : Type := mkMachine {
  ext : world;
  res : ServerResponse;
  exchanges : list exchange;
  console : list console_entry
}.

Definition M (A : Type) : Type := machine -> result A * machine.

#[global] Instance Monad_M : Monad M := {|
  ret := fun A (a : A) m => (inr a, m);
  bind := fun A B (c : M A) (k : A -> M B) m =>
    match c m with
    | (inr a, m') => k a m'
    | (inl e, m') => (inl e, m')
    end
|}.

(** [throw] and [try { } catch (e) { }] *)
#[global] Instance Exception_M : MonadExc error M := {|
  raise := fun A (e : error) m => (inl e, m);
  catch := fun A (c : M A) (h : error -> M A) m =>
    match c m with
    | (inl e, m') => h e m'
    | (inr a, m') => (inr a, m')
    end
|}.

(** A built-in that returns or throws without touching the state. *)
Definition lift {A} (r : result A) : M A := fun m => (r, m).

Definition get (v : value) (k : string) : M value := lift (get_prop v k).
Definition get_at (v : value) (i : nat) : M value := lift (get_index v i).

(** [await fetch(input, init)] *)
Definition fetch (input : value) (init : option RequestInit) : M Response :=
  fun m =>
    let (r, w') := world_fetch input init (ext m) in
    (r, mkMachine w' (res m)
          (exchanges m ++ [mkExchange input init r]) (console m)).

Definition Date_now : M Z :=
  fun m =>
    let (t, w') := world_now (ext m) in
    (inr t, mkMachine w' (res m) (exchanges m) (console m)).

Definition console_log (s : string) : M unit :=
  fun m => (inr tt, mkMachine (ext m) (res m) (exchanges m) (console m ++ [Log s])).

Definition console_error (e : error) : M unit :=
  fun m => (inr tt, mkMachine (ext m) (res m) (exchanges m) (console m ++ [LogError e])).

Definition with_res (f : ServerResponse -> ServerResponse) : M unit :=
  fun m => (inr tt, mkMachine (ext m) (f (res m)) (exchanges m) (console m)).

(** [res.statusCode = n] *)
Definition res_set_statusCode (n : Z) : M unit :=
  with_res (fun r => mkServerResponse n (sent_headers r) (sent_body r)).

(** [res.setHeader(k, v)] *)
Definition res_setHeader (k v : string) : M unit :=
  with_res (fun r => mkServerResponse (statusCode r) (sent_headers r ++ [(k, v)]) (sent_body r)).

(** [res.end(data)] *)
Definition res_end (data : string) : M unit :=
  with_res (fun r => mkServerResponse (statusCode r) (sent_headers r) (Some data)).

(** [WP_SITE_URL.replace(/\/+$/, '')]; throws when the variable is unset. *)
Definition site_base (env : Env) : M string :=
  match env_WP_SITE_URL env with
  | Some s => ret (strip_trailing_slashes s)
  | None => raise (TypeError "Cannot read properties of undefined (reading 'replace')")
  end.
End Machine.

(** [wpAuthHeader] *)
Definition wpAuthHeader {RT : Runtime} (env : Env) : string :=
  "Basic " ++ to_base64 (env_to_string (env_WP_USERNAME env) ++ ":"
                           ++ env_to_string (env_WP_APP_PASSWORD env)).

(** ** [src/index.js]: the inline-payload implementation *)

Module IndexJs.
Section Impl.
Context {RT : Runtime} {W : World}.
Variable env : Env.

Definition callOpenAIImage (prompt : string) : M Buffer :=
  res <- fetch (VStr "https://api.openai.com/v1/images/generations")
           (Some (mkInit "POST"
              [("Authorization", "Bearer " ++ env_to_string (env_OPENAI_API_KEY env));
               ("Content-Type", "application/json")]
              (BodyString (JSON_stringify (VObj
                 [("model", VStr "gpt-image-1");
                  ("prompt", VStr prompt);
                  ("size", VStr "1024x1024");
                  ("response_format", VStr "b64_json")]))))) ;;
  (if negb (ok res)
   then t <- lift (text res) ;;
        raise (Error ("OpenAI error " ++ string_of_Z (status res) ++ ": " ++ t))
   else ret tt) ;;
  data <- lift (json res) ;;
  d <- get data "data" ;;
  d0 <- get_at d 0 ;;
  b64 <- get d0 "b64_json" ;;
  lift (Buffer_from_base64 b64).

Definition wpApiJson (method endpoint : string) (body : value) : M value :=
  base <- site_base env ;;
  let url := base ++ endpoint in
  res <- fetch (VStr url)
           (Some (mkInit method
              [("Authorization", wpAuthHeader env);
               ("Content-Type", "application/json")]
              (if to_boolean body then BodyString (JSON_stringify body) else BodyNull))) ;;
  txt <- lift (text res) ;;
  (if negb (ok res)
   then raise (Error ("WP API " ++ method ++ " " ++ endpoint ++ " "
                        ++ string_of_Z (status res) ++ ": " ++ txt))
   else ret tt) ;;
  lift (JSON_parse txt).

Definition getLatestPost : M value :=
  posts <- wpApiJson "GET" "/wp-json/wp/v2/posts?per_page=1&orderby=date&order=desc" VNull ;;
  len <- get posts "length" ;;
  (if negb (to_boolean len) then raise (Error "No posts found") else ret tt) ;;
  get_at posts 0.

Definition uploadImageToWP (buffer : Buffer) (filename : string) : M value :=
  base <- site_base env ;;
  let url := base ++ "/wp-json/wp/v2/media" in
  res <- fetch (VStr url)
           (Some (mkInit "POST"
              [("Authorization", wpAuthHeader env);
               ("Content-Type", "image/png");
               ("Content-Disposition",
                "attachment; filename=" ++ dquote ++ filename ++ dquote)]
              (BodyBuffer buffer))) ;;
  txt <- lift (text res) ;;
  (if negb (ok res)
   then raise (Error ("WP media error " ++ string_of_Z (status res) ++ ": " ++ txt))
   else ret tt) ;;
  data <- lift (JSON_parse txt) ;;
  get data "id".

Definition setFeaturedImage (postId mediaId : value) : M value :=
  wpApiJson "POST" ("/wp-json/wp/v2/posts/" ++ to_string postId)
    (VObj [("featured_media", mediaId)]).

(** The prompt template of [runWorker]. *)
Definition prompt_of (title : value) : string :=
  "Photo-realistic daytime image for a blog post titled " ++ dquote
    ++ to_string title ++ dquote ++ ". "
    ++ "Show a modern private hire (PHV) saloon (Toyota Prius, Skoda Octavia, Kia Ceed), "
    ++ "RHD, on a Manchester UK street. No text, no people, no logos.".

(** [post.title.rendered || '(no title)'] *)
Definition title_of (post : value) : M value :=
  t <- get post "title" ;;
  r <- get t "rendered" ;;
  ret (if to_boolean r then r else VStr "(no title)").

Definition runWorker : M value :=
  console_log "Worker: loading latest post…" ;;
  post <- getLatestPost ;;
  title <- title_of post ;;
  postId <- get post "id" ;;
  console_log ("Post found: " ++ to_string postId ++ " - " ++ to_string title) ;;
  let prompt := prompt_of title in
  console_log "Calling OpenAI Images…" ;;
  image <- callOpenAIImage prompt ;;
  now <- Date_now ;;
  let filename := "ai-taxi-" ++ string_of_Z now ++ ".png" in
  console_log ("Uploading " ++ filename ++ " to WP…") ;;
  mediaId <- uploadImageToWP image filename ;;
  console_log ("Media uploaded: " ++ to_string mediaId ++ ". Setting featured image…") ;;
  setFeaturedImage postId mediaId ;;
  console_log "Featured image set." ;;
  ret (VObj [("ok", VBool true); ("postId", postId); ("mediaId", mediaId)]).

(** The request listener passed to [http.createServer]. *)
Definition server (req : IncomingMessage) : M unit :=
  catch
    (urlObj <- lift (URL_new (url req)) ;;
     if (pathname urlObj =? "/run")%string
     then
       let secret := searchParams_get (searchParams urlObj) "secret" in
       if strict_not_equal secret (WORKER_SECRET env)
       then res_set_statusCode 403 ;;
            res_end "Forbidden: bad secret"
       else result <- runWorker ;;
            res_setHeader "Content-Type" "application/json" ;;
            res_end (JSON_stringify result)
     else res_setHeader "Content-Type" "text/plain" ;;
          res_end "AI Image Worker running. Use /run?secret=YOUR_SECRET")
    (fun e =>
       res_set_statusCode 500 ;;
       res_end (message e)).
End Impl.
End IndexJs.

(** ** [src/unnamed/part_000]: the URL-return implementation *)

Module Part000.
Section Impl.
Context {RT : Runtime} {W : World}.
Variable env : Env.

Definition callOpenAIImage (prompt : string) : M Buffer :=
  res <- fetch (VStr "https://api.openai.com/v1/images/generations")
           (Some (mkInit "POST"
              [("Authorization", "Bearer " ++ env_to_string (env_OPENAI_API_KEY env));
               ("Content-Type", "application/json")]
              (BodyString (JSON_stringify (VObj
                 [("model", VStr "gpt-image-1");
                  ("prompt", VStr prompt);
                  ("size", VStr "1024x1024")]))))) ;;
  (if negb (ok res)
   then t <- lift (text res) ;;
        raise (Error ("OpenAI error " ++ string_of_Z (status res) ++ ": " ++ t))
   else ret tt) ;;
  data <- lift (json res) ;;
  (** [!data.data || !data.data[0] || !data.data[0].url] *)
  missing <-
    (d <- get data "data" ;;
     if negb (to_boolean d) then ret true
     else d <- get data "data" ;;
          d0 <- get_at d 0 ;;
          if negb (to_boolean d0) then ret true
          else d <- get data "data" ;;
               d0 <- get_at d 0 ;;
               u <- get d0 "url" ;;
               ret (negb (to_boolean u))) ;;
  (if missing : bool
   then raise (Error "OpenAI response missing image URL")
   else ret tt) ;;
  d <- get data "data" ;;
  d0 <- get_at d 0 ;;
  imageUrl <- get d0 "url" ;;
  imgRes <- fetch imageUrl None ;;
  (if negb (ok imgRes)
   then raise (Error ("Failed to download image from OpenAI URL: "
                        ++ string_of_Z (status imgRes)))
   else ret tt) ;;
  lift (arrayBuffer imgRes).

Definition wpApiJson (method endpoint : string) (body : value) : M value :=
  base <- site_base env ;;
  let url := base ++ endpoint in
  res <- fetch (VStr url)
           (Some (mkInit method
              [("Authorization", wpAuthHeader env);
               ("Content-Type", "application/json")]
              (if to_boolean body then BodyString (JSON_stringify body) else BodyNull))) ;;
  txt <- lift (text res) ;;
  (if negb (ok res)
   then raise (Error ("WP API " ++ method ++ " " ++ endpoint ++ " "
                        ++ string_of_Z (status res) ++ ": " ++ txt))
   else ret tt) ;;
  lift (JSON_parse txt).

Definition getLatestPost : M value :=
  posts <- wpApiJson "GET" "/wp-json/wp/v2/posts?per_page=1&orderby=date&order=desc" VNull ;;
  (** [!Array.isArray(posts) || posts.length === 0] *)
  none <-
    (if negb (Array_isArray posts) then ret true
     else len <- get posts "length" ;;
          ret (strict_equal_num len 0)) ;;
  (if none : bool then raise (Error "No posts found") else ret tt) ;;
  get_at posts 0.

Definition uploadImageToWP (buffer : Buffer) (filename : string) : M value :=
  base <- site_base env ;;
  let url := base ++ "/wp-json/wp/v2/media" in
  res <- fetch (VStr url)
           (Some (mkInit "POST"
              [("Authorization", wpAuthHeader env);
               ("Content-Type", "image/png");
               ("Content-Disposition",
                "attachment; filename=" ++ dquote ++ filename ++ dquote)]
              (BodyBuffer buffer))) ;;
  txt <- lift (text res) ;;
  (if negb (ok res)
   then raise (Error ("WP media error " ++ string_of_Z (status res) ++ ": " ++ txt))
   else ret tt) ;;
  data <- lift (JSON_parse txt) ;;
  id <- get data "id" ;;
  (if negb (to_boolean id) then raise (Error "Media upload missing id") else ret tt) ;;
  get data "id".

Definition setFeaturedImage (postId mediaId : value) : M value :=
  wpApiJson "POST" ("/wp-json/wp/v2/posts/" ++ to_string postId)
    (VObj [("featured_media", mediaId)]).

(** The prompt template of [runWorker]. *)
Definition prompt_of (title : value) : string :=
  "Photo-realistic daytime image for a blog post titled " ++ dquote
    ++ to_string title ++ dquote ++ ". "
    ++ "Show a modern private hire (PHV) saloon (Toyota Prius, Skoda Octavia, Kia Ceed), "
    ++ "right-hand drive, on a real Manchester UK street. No text, no people, no logos.".

(** [(post.title && post.title.rendered) ? post.title.rendered : '(no title)'] *)
Definition title_of (post : value) : M value :=
  t <- get post "title" ;;
  c <- (if to_boolean t
        then t <- get post "title" ;; get t "rendered"
        else ret t) ;;
  if to_boolean c
  then t <- get post "title" ;; get t "rendered"
  else ret (VStr "(no title)").

Definition runWorker : M value :=
  console_log "Worker: loading latest post…" ;;
  post <- getLatestPost ;;
  title <- title_of post ;;
  postId <- get post "id" ;;
  console_log ("Post found: " ++ to_string postId ++ " - " ++ to_string title) ;;
  let prompt := prompt_of title in
  console_log "Calling OpenAI Images…" ;;
  imageBuffer <- callOpenAIImage prompt ;;
  now <- Date_now ;;
  let filename := "ai-taxi-" ++ string_of_Z now ++ ".png" in
  console_log ("Uploading " ++ filename ++ " to WP…") ;;
  mediaId <- uploadImageToWP imageBuffer filename ;;
  console_log ("Media uploaded: " ++ to_string mediaId ++ ". Setting featured image…") ;;
  setFeaturedImage postId mediaId ;;
  console_log "Featured image set." ;;
  ret (VObj [("ok", VBool true); ("postId", postId); ("mediaId", mediaId)]).

(** The request listener passed to [http.createServer]. *)
Definition server (req : IncomingMessage) : M unit :=
  catch
    (urlObj <- lift (URL_new (url req)) ;;
     if (pathname urlObj =? "/run")%string
     then
       let secret := searchParams_get (searchParams urlObj) "secret" in
       if strict_not_equal secret (WORKER_SECRET env)
       then res_set_statusCode 403 ;;
            res_end "Forbidden: bad secret"
       else result <- runWorker ;;
            res_setHeader "Content-Type" "application/json" ;;
            res_end (JSON_stringify result)
     else res_setHeader "Content-Type" "text/plain" ;;
          res_end "AI Image Worker running. Use /run?secret=YOUR_SECRET")
    (fun e =>
       console_error e ;;
       res_set_statusCode 500 ;;
       res_end (message e)).
End Impl.
End Part000.

(** ** Vocabulary of the statements *)

Definition is_ok {A} (r : result A) : bool :=
  match r with inr _ => true | inl _ => false end.

Definition prefix_of {A} (l1 l2 : list A) : Prop :=
  exists rest, l2 = (l1 ++ rest)%list.

(** The request of an exchange: the two arguments of [fetch]. *)
Definition request : Type := (value * option RequestInit)%type.
Definition request_of (x : exchange) : request := (ex_input x, ex_init x).

(** The state after one more [fetch]: the world moved to [w'] and the
    exchange is logged. *)
Definition after_fetch {W : World} (m : machine) (input : value)
    (init : option RequestInit) (r : result Response) (w' : world) : machine :=
  mkMachine w' (res m) (exchanges m ++ [mkExchange input init r]) (console m).

(** The state after [console.log(s)]. *)
Definition logged {W : World} (m : machine) (s : string) : machine :=
  mkMachine (ext m) (res m) (exchanges m) (console m ++ [Log s]).

(** The state in which the listener leaves the machine when it answers
    [code] with [data], having added the headers [hs]. *)
Definition answered {W : World} (m : machine) (code : Z) (hs : list (string * string))
    (data : string) : machine :=
  mkMachine (ext m)
    (mkServerResponse code (sent_headers (res m) ++ hs) (Some data))
    (exchanges m) (console m).

(** The text sent on any path other than [/run]. *)
Definition banner : string := "AI Image Worker running. Use /run?secret=YOUR_SECRET".

(** The requests of the pipeline, as the clients build them. *)
Section Requests.
Context {RT : Runtime}.
Variable env : Env.

Definition wp_init (method : string) (body : BodyInit) : RequestInit :=
  mkInit method
    [("Authorization", wpAuthHeader env); ("Content-Type", "application/json")]
    body.

Definition posts_endpoint : string :=
  "/wp-json/wp/v2/posts?per_page=1&orderby=date&order=desc".

Definition posts_request (base : string) : request :=
  (VStr (base ++ posts_endpoint), Some (wp_init "GET" BodyNull)).

Definition openai_url : value := VStr "https://api.openai.com/v1/images/generations".

Definition openai_init (payload : value) : RequestInit :=
  mkInit "POST"
    [("Authorization", "Bearer " ++ env_to_string (env_OPENAI_API_KEY env));
     ("Content-Type", "application/json")]
    (BodyString (JSON_stringify payload)).

(** The generation request of [src/index.js]. *)
Definition generate_b64_request (prompt : string) : request :=
  (openai_url,
   Some (openai_init (VObj [("model", VStr "gpt-image-1"); ("prompt", VStr prompt);
                            ("size", VStr "1024x1024");
                            ("response_format", VStr "b64_json")]))).

(** The generation request of [src/unnamed/part_000]. *)
Definition generate_url_request (prompt : string) : request :=
  (openai_url,
   Some (openai_init (VObj [("model", VStr "gpt-image-1"); ("prompt", VStr prompt);
                            ("size", VStr "1024x1024")]))).

Definition download_request (imageUrl : value) : request := (imageUrl, None).

Definition upload_init (buffer : Buffer) (filename : string) : RequestInit :=
  mkInit "POST"
    [("Authorization", wpAuthHeader env); ("Content-Type", "image/png");
     ("Content-Disposition", "attachment; filename=" ++ dquote ++ filename ++ dquote)]
    (BodyBuffer buffer).

Definition upload_request (base : string) (buffer : Buffer) (filename : string) : request :=
  (VStr (base ++ "/wp-json/wp/v2/media"), Some (upload_init buffer filename)).

Definition featured_endpoint (postId : value) : string :=
  "/wp-json/wp/v2/posts/" ++ to_string postId.

Definition featured_request (base : string) (postId mediaId : value) : request :=
  (VStr (base ++ featured_endpoint postId),
   Some (wp_init "POST" (BodyString (JSON_stringify (VObj [("featured_media", mediaId)]))))).

Definition filename_at (now : Z) : string := "ai-taxi-" ++ string_of_Z now ++ ".png".

Definition run_result (postId mediaId : value) : value :=
  VObj [("ok", VBool true); ("postId", postId); ("mediaId", mediaId)].
End Requests.

(** What [fetch(imageUrl)] followed by the status check and
    [arrayBuffer()] returns in [src/unnamed/part_000]. *)
Definition download_outcome (r : result Response) : result Buffer :=
  match r with
  | inl e => inl e
  | inr imgRes =>
      if ok imgRes then arrayBuffer imgRes
      else inl (Error ("Failed to download image from OpenAI URL: "
                         ++ string_of_Z (status imgRes)))
  end.

(** The value at [data.data[0].url], [undefined] when the path stops
    before it. *)
Definition nested_url (data : value) : value :=
  match get_prop data "data" with
  | inr d =>
      match get_index d 0 with
      | inr d0 =>
          match get_prop d0 "url" with
          | inr u => u
          | inl _ => VUndefined
          end
      | inl _ => VUndefined
      end
  | inl _ => VUndefined
  end.

(** The error [callOpenAIImage] of [src/unnamed/part_000] ends with when
    the response carries no image URL: its own [Error], except that
    reading [data.data] already throws when the body is [null]. *)
Definition missing_url_error (data : value) : error :=
  match get_prop data "data" with
  | inl e => e
  | inr _ => Error "OpenAI response missing image URL"
  end.

(** ** Test doubles

    A runtime with a table in place of a JSON parser and a world that
    plays back a script of responses, for running the code on concrete
    inputs. *)

Module Mock.
Definition SyntaxError (msg : string) : error := mkError "SyntaxError" msg.

Fixpoint find_doc (docs : list (string * value)) (txt : string) : result value :=
  match docs with
  | [] => inl (SyntaxError ("Unexpected token in JSON: " ++ txt))
  | (k, v) :: rest => if (txt =? k)%string then inr v else find_doc rest txt
  end.

(** A serializer without string escapes; fields holding [undefined] are
    dropped, as [JSON.stringify] does. *)
Fixpoint stringify (v : value) : string :=
  match v with
  | VUndefined | VNull => "null"
  | VBool true => "true"
  | VBool false => "false"
  | VNum n => string_of_Z n
  | VStr s => dquote ++ s ++ dquote
  | VArr xs => "[" ++ join "," (map stringify xs) ++ "]"
  | VObj fields =>
      "{" ++ join ","
               ((fix members (fs : list (string * value)) : list string :=
                   match fs with
                   | [] => []
                   | (_, VUndefined) :: rest => members rest
                   | (k, x) :: rest =>
                       (dquote ++ k ++ dquote ++ ":" ++ stringify x) :: members rest
                   end) fields)
          ++ "}"
  end.

(** [split c s]: the pieces of [s] between occurrences of [c]. *)
Fixpoint split (c : ascii) (s : string) : list string :=
  match s with
  | EmptyString => [EmptyString]
  | String a s' =>
      if Ascii.eqb a c then EmptyString :: split c s'
      else match split c s' with
           | h :: t => String a h :: t
           | [] => [String a EmptyString]
           end
  end.

Definition key_value (kv : string) : string * string :=
  match split "=" kv with
  | k :: v :: _ => (k, v)
  | k :: [] => (k, "")
  | [] => ("", "")
  end.

(** Request targets of the form [/path?k=v&k=v], without percent
    decoding; anything that does not start with a slash is refused. *)
Definition parse_url (s : string) : result URL :=
  match s with
  | String "/" _ =>
      match split "?" s with
      | p :: q :: _ => inr (mkURL p (map key_value (split "&" q)))
      | p :: [] => inr (mkURL p [])
      | [] => inl (TypeError "Invalid URL")
      end
  | _ => inl (TypeError "Invalid URL")
  end.

Definition runtime (docs : list (string * value)) : Runtime := {|
  JSON_parse := find_doc docs;
  JSON_stringify := stringify;
  URL_new := parse_url;
  Buffer_from_base64 := fun v =>
    match v with
    | VStr s => inr (list_byte_of_string s)
    | _ => inl (TypeError "The first argument must be of type string")
    end;
  to_base64 := fun s => s
|}.

(** The world is the list of responses still to play and a clock. *)
Definition scripted : World := {|
  world := (list (result Response) * Z)%type;
  world_fetch := fun _ _ w =>
    match fst w with
    | [] => (inl (TypeError "fetch failed"), w)
    | r :: rest => (r, (rest, snd w))
    end;
  world_now := fun w => (snd w, (fst w, snd w + 1))
|}.

(** A response with status [code] whose body is [txt]. *)
Definition response (docs : list (string * value)) (code : Z) (txt : string) : Response :=
  mkResponse code (inr txt) (find_doc docs txt) (inr (list_byte_of_string txt)).

(** The machine when a request arrives. *)
Definition arriving (script : list (result Response)) (clock : Z) : @machine scripted :=
  @mkMachine scripted (script, clock) fresh_response [] [].

Definition env : Env :=
  mkEnv (Some "sk-test") (Some "https://blog.example/") (Some "bot") (Some "app pass")
    (Some "s3cret").

(** The scenario of the specification: post 42, media 900. *)
Definition docs : list (string * value) :=
  [("POSTS", VArr [VObj [("id", VNum 42);
                         ("title", VObj [("rendered", VStr "Best Cabs in Manchester")])]]);
   ("EMPTY", VArr []);
   ("STRING", VStr "abc");
   ("NULL", VNull);
   ("UNTITLED", VArr [VObj [("id", VNum 42)]]);
   ("BLANK", VArr [VObj [("id", VNum 42); ("title", VObj [("rendered", VStr "")])]]);
   ("B64", VObj [("data", VArr [VObj [("b64_json", VStr "UE5H")]])]);
   ("URL", VObj [("data", VArr [VObj [("url", VStr "https://img.example/1.png")]])]);
   ("NOURL", VObj [("data", VArr [VObj [("revised_prompt", VStr "a cab")]])]);
   ("MEDIA", VObj [("id", VNum 900)]);
   ("NOID", VObj []);
   ("POST", VObj [("id", VNum 42); ("featured_media", VNum 900)])].

Definition rt : Runtime := runtime docs.
Definition ok200 (txt : string) : result Response := inr (response docs 200 txt).
End Mock.

(** ** The clients as functions of what the network answered *)

Definition and_then {A B} (r : result A) (k : A -> result B) : result B :=
  match r with
  | inl e => inl e
  | inr a => k a
  end.

(** The checks of [getLatestPost] on the parsed body, [src/index.js]. *)
Definition IndexJs_latest (posts : value) : result value :=
  and_then (get_prop posts "length") (fun len =>
    if to_boolean len then get_index posts 0 else inl (Error "No posts found")).

(** The checks of [getLatestPost] on the parsed body, [src/unnamed/part_000]:
    a non-empty array gives its first element, anything else [No posts found]. *)
Definition Part000_latest (posts : value) : result value :=
  match posts with
  | VArr (post :: _) => inr post
  | _ => inl (Error "No posts found")
  end.

(** The text-first reading shared by [wpApiJson] and [uploadImageToWP]:
    [complain] builds the message for a response that is not [ok]. *)
Definition text_then_parse {RT : Runtime} (complain : Response -> string -> string)
    (r : result Response) : result value :=
  and_then r (fun resp =>
    and_then (text resp) (fun txt =>
      if ok resp then JSON_parse txt else inl (Error (complain resp txt)))).

Definition media_complaint (resp : Response) (txt : string) : string :=
  "WP media error " ++ string_of_Z (status resp) ++ ": " ++ txt.

Definition wp_complaint (method endpoint : string) (resp : Response) (txt : string) : string :=
  "WP API " ++ method ++ " " ++ endpoint ++ " " ++ string_of_Z (status resp) ++ ": " ++ txt.

(** What [wpApiJson] returns. *)
Definition wp_outcome {RT : Runtime} (method endpoint : string)
    (r : result Response) : result value :=
  text_then_parse (wp_complaint method endpoint) r.

(** What [uploadImageToWP] returns, [src/index.js]. *)
Definition IndexJs_upload_outcome {RT : Runtime} (r : result Response) : result value :=
  and_then (text_then_parse media_complaint r) (fun data => get_prop data "id").

(** What [uploadImageToWP] returns, [src/unnamed/part_000]. *)
Definition Part000_upload_outcome {RT : Runtime} (r : result Response) : result value :=
  and_then (text_then_parse media_complaint r) (fun data =>
    and_then (get_prop data "id") (fun id =>
      if to_boolean id then inr id else inl (Error "Media upload missing id"))).

(** The status check shared by the two [callOpenAIImage]. *)
Definition openai_checked (r : result Response) : result value :=
  and_then r (fun resp =>
    if ok resp then json resp
    else and_then (text resp) (fun t =>
           inl (Error ("OpenAI error " ++ string_of_Z (status resp) ++ ": " ++ t)))).

(** What [callOpenAIImage] returns, [src/index.js]. *)
Definition IndexJs_image_outcome {RT : Runtime} (r : result Response) : result Buffer :=
  and_then (openai_checked r) (fun data =>
    and_then (get_prop data "data") (fun d =>
      and_then (get_index d 0) (fun d0 =>
        and_then (get_prop d0 "b64_json") Buffer_from_base64))).

(** The image URL [callOpenAIImage] of [src/unnamed/part_000] goes on to
    download, or the error it stops with before that. *)
Definition Part000_image_url (r : result Response) : result value :=
  and_then (openai_checked r) (fun data =>
    if to_boolean (nested_url data) then inr (nested_url data)
    else inl (missing_url_error data)).

(** [post.title.rendered || '(no title)'] as a function. *)
Definition IndexJs_title (post : value) : result value :=
  and_then (get_prop post "title") (fun t =>
    and_then (get_prop t "rendered") (fun r =>
      inr (if to_boolean r then r else VStr "(no title)"))).

(** [(post.title && post.title.rendered) ? post.title.rendered : '(no title)']
    as a function. *)
Definition Part000_title (post : value) : result value :=
  and_then (get_prop post "title") (fun t =>
    if to_boolean t
    then and_then (get_prop t "rendered") (fun r =>
           inr (if to_boolean r then r else VStr "(no title)"))
    else inr (VStr "(no title)")).

(** A run whose exchanges follow [pipeline] in order, each one gating the
    next: the new exchanges are an initial segment of the pipeline, the
    whole of it when the run returns, and an exchange that failed is the
    last one of a run that threw. *)
Definition strictly_sequenced {W : World} {A} (pipeline : list request)
    (before : machine) (outcome : result A * machine) : Prop :=
  exists xs,
    exchanges (snd outcome) = (exchanges before ++ xs)%list
    /\ prefix_of (map request_of xs) pipeline
    /\ (is_ok (fst outcome) = true -> map request_of xs = pipeline)
    /\ (forall i x, nth_error xs i = Some x -> ex_failed x = true ->
          List.length xs = S i /\ is_ok (fst outcome) = false).

(** ** The orchestrator, over its collaborators

    [runWorker] is the same sequence in the two files; only the clients it
    calls, the title expression and the prompt wording differ.
    [orchestrate] is that sequence with those taken as parameters. *)

Section Orchestration.
Context {W : World}.
Variable getLatestPost : M value.
Variable title_of : value -> M value.
Variable prompt_of : value -> string.
Variable callOpenAIImage : string -> M Buffer.
Variable uploadImageToWP : Buffer -> string -> M value.
Variable setFeaturedImage : value -> value -> M value.

Definition orchestrate : M value :=
  console_log "Worker: loading latest post…" ;;
  post <- getLatestPost ;;
  title <- title_of post ;;
  postId <- get post "id" ;;
  console_log ("Post found: " ++ to_string postId ++ " - " ++ to_string title) ;;
  let prompt := prompt_of title in
  console_log "Calling OpenAI Images…" ;;
  image <- callOpenAIImage prompt ;;
  now <- Date_now ;;
  let filename := "ai-taxi-" ++ string_of_Z now ++ ".png" in
  console_log ("Uploading " ++ filename ++ " to WP…") ;;
  mediaId <- uploadImageToWP image filename ;;
  console_log ("Media uploaded: " ++ to_string mediaId ++ ". Setting featured image…") ;;
  setFeaturedImage postId mediaId ;;
  console_log "Featured image set." ;;
  ret (VObj [("ok", VBool true); ("postId", postId); ("mediaId", mediaId)]).

(** The states in which the stages are entered. *)
Definition at_start (m : machine) : machine :=
  logged m "Worker: loading latest post…".

Definition at_generation (m : machine) (postId title : value) : machine :=
  logged (logged m ("Post found: " ++ to_string postId ++ " - " ++ to_string title))
    "Calling OpenAI Images…".

Definition at_upload (m : machine) : machine :=
  logged (mkMachine (snd (world_now (ext m))) (res m) (exchanges m) (console m))
    ("Uploading " ++ filename_at (fst (world_now (ext m))) ++ " to WP…").

Definition at_featured (m : machine) (mediaId : value) : machine :=
  logged m ("Media uploaded: " ++ to_string mediaId ++ ". Setting featured image…").

Definition at_end (m : machine) : machine := logged m "Featured image set.".

(** [reaches_generation m post title postId m2]: from [m] the run fetched
    [post], read its title and id, and is about to call the image
    client in state [m2]. *)
Definition reaches_generation (m : machine) (post title postId : value)
    (m2 : machine) : Prop :=
  exists m1 m1',
    getLatestPost (at_start m) = (inr post, m1)
    /\ title_of post m1 = (inr title, m1')
    /\ get_prop post "id" = inr postId
    /\ m2 = at_generation m1' postId title.

(** [reaches_upload m postId image filename m4]: moreover the image
    client returned [image], the clock gave the file its name, and the
    run is about to upload it in state [m4]. *)
Definition reaches_upload (m : machine) (postId : value) (image : Buffer)
    (filename : string) (m4 : machine) : Prop :=
  exists post title m2 m3,
    reaches_generation m post title postId m2
    /\ callOpenAIImage (prompt_of title) m2 = (inr image, m3)
    /\ filename = filename_at (fst (world_now (ext m3)))
    /\ m4 = at_upload m3.

(** [reaches_featured m postId mediaId m6]: moreover the upload returned
    [mediaId] and the run is about to attach it in state [m6]. *)
Definition reaches_featured (m : machine) (postId mediaId : value)
    (m6 : machine) : Prop :=
  exists image filename m4 m5,
    reaches_upload m postId image filename m4
    /\ uploadImageToWP image filename m4 = (inr mediaId, m5)
    /\ m6 = at_featured m5 mediaId.

(** An error raised somewhere in the pipeline: by a collaborator call,
    or by reading the post's title or id. *)
Inductive raised (m : machine) (e : error) (m' : machine) : Prop :=
| raised_by_getLatestPost :
    getLatestPost (at_start m) = (inl e, m') -> raised m e m'
| raised_by_title post m1 :
    getLatestPost (at_start m) = (inr post, m1) ->
    title_of post m1 = (inl e, m') -> raised m e m'
| raised_by_id post m1 title :
    getLatestPost (at_start m) = (inr post, m1) ->
    title_of post m1 = (inr title, m') ->
    get_prop post "id" = inl e -> raised m e m'
| raised_by_callOpenAIImage post title postId m2 :
    reaches_generation m post title postId m2 ->
    callOpenAIImage (prompt_of title) m2 = (inl e, m') -> raised m e m'
| raised_by_uploadImageToWP postId image filename m4 :
    reaches_upload m postId image filename m4 ->
    uploadImageToWP image filename m4 = (inl e, m') -> raised m e m'
| raised_by_setFeaturedImage postId mediaId m6 :
    reaches_featured m postId mediaId m6 ->
    setFeaturedImage postId mediaId m6 = (inl e, m') -> raised m e m'.

(** All the collaborator calls succeed: the run reaches the last call
    and that call returns. *)
Definition all_succeed (m : machine) (postId mediaId : value) (m' : machine) : Prop :=
  exists m6 v m7,
    reaches_featured m postId mediaId m6
    /\ setFeaturedImage postId mediaId m6 = (inr v, m7)
    /\ m' = at_end m7.
End Orchestration.

(** The site URL without its trailing slashes, empty when it is unset (no
    request is built then). *)
Definition base_of (env : Env) : string :=
  match env_WP_SITE_URL env with
  | Some s => strip_trailing_slashes s
  | None => ""
  end.

(** The pipeline of [src/index.js]. *)
Definition IndexJs_pipeline {RT : Runtime} (env : Env) (prompt : string)
    (image : Buffer) (filename : string) (postId mediaId : value) : list request :=
  [posts_request env (base_of env);
   generate_b64_request env prompt;
   upload_request env (base_of env) image filename;
   featured_request env (base_of env) postId mediaId].

(** The pipeline of [src/unnamed/part_000]. *)
Definition Part000_pipeline {RT : Runtime} (env : Env) (prompt : string)
    (imageUrl : value) (image : Buffer) (filename : string)
    (postId mediaId : value) : list request :=
  [posts_request env (base_of env);
   generate_url_request env prompt;
   download_request imageUrl;
   upload_request env (base_of env) image filename;
   featured_request env (base_of env) postId mediaId].

(** The pipeline relations at the collaborators of each file. *)
Definition IndexJs_raised {RT : Runtime} {W : World} (env : Env) :
    machine -> error -> machine -> Prop :=
  raised (IndexJs.getLatestPost env) IndexJs.title_of IndexJs.prompt_of
    (IndexJs.callOpenAIImage env) (IndexJs.uploadImageToWP env)
    (IndexJs.setFeaturedImage env).

Definition IndexJs_all_succeed {RT : Runtime} {W : World} (env : Env) :
    machine -> value -> value -> machine -> Prop :=
  all_succeed (IndexJs.getLatestPost env) IndexJs.title_of IndexJs.prompt_of
    (IndexJs.callOpenAIImage env) (IndexJs.uploadImageToWP env)
    (IndexJs.setFeaturedImage env).

Definition Part000_raised {RT : Runtime} {W : World} (env : Env) :
    machine -> error -> machine -> Prop :=
  raised (Part000.getLatestPost env) Part000.title_of Part000.prompt_of
    (Part000.callOpenAIImage env) (Part000.uploadImageToWP env)
    (Part000.setFeaturedImage env).

Definition Part000_all_succeed {RT : Runtime} {W : World} (env : Env) :
    machine -> value -> value -> machine -> Prop :=
  all_succeed (Part000.getLatestPost env) Part000.title_of Part000.prompt_of
    (Part000.callOpenAIImage env) (Part000.uploadImageToWP env)
    (Part000.setFeaturedImage env).

(** The state after [console.error(e)]. *)
Definition error_logged {W : World} (m : machine) (e : error) : machine :=
  mkMachine (ext m) (res m) (exchanges m) (console m ++ [LogError e]).

(** A computation that leaves the response object alone. *)
Definition keeps_res {W : World} {A} (c : M A) : Prop :=
  forall m, res (snd (c m)) = res m.

(** ** Vocabulary for the further properties *)

(** The last character of a string, if it has one. *)
Fixpoint last_char (s : string) : option ascii :=
  match s with
  | EmptyString => None
  | String c EmptyString => Some c
  | String _ s' => last_char s'
  end.

(** [k] slashes. *)
Fixpoint slashes (k : nat) : string :=
  match k with
  | O => EmptyString
  | S k' => String "/" (slashes k')
  end.

(** The environment [env] with [WP_SITE_URL] set to [site]. *)
Definition with_site (env : Env) (site : string) : Env :=
  mkEnv (env_OPENAI_API_KEY env) (Some site) (env_WP_USERNAME env)
    (env_WP_APP_PASSWORD env) (env_WORKER_SECRET env).

(** The environment [env] with [WP_SITE_URL] unset. *)
Definition without_site (env : Env) : Env :=
  mkEnv (env_OPENAI_API_KEY env) None (env_WP_USERNAME env)
    (env_WP_APP_PASSWORD env) (env_WORKER_SECRET env).

(** ** Where a run stops *)

(** The stages of a run at which an error can be raised: fetching the
    post, reading its title and id, generating the image, uploading it,
    attaching it. *)
Inductive stage : Type :=
| AtPosts
| AtTitle
| AtGeneration
| AtUpload
| AtFeatured.

(** The pipeline up to and including the requests of stage [s]: [posts]
    is the posts request, [gen] the requests of the image client,
    [upload] and [featured] the last two. *)
Definition upto (s : stage) (posts : request) (gen : list request)
    (upload featured : request) : list request :=
  match s with
  | AtPosts | AtTitle => [posts]
  | AtGeneration => posts :: gen
  | AtUpload => posts :: (gen ++ [upload])%list
  | AtFeatured => posts :: (gen ++ [upload; featured])%list
  end.

Section StageFailures.
Context {W : World}.
Variable getLatestPost : M value.
Variable title_of : value -> M value.
Variable prompt_of : value -> string.
Variable callOpenAIImage : string -> M Buffer.
Variable uploadImageToWP : Buffer -> string -> M value.
Variable setFeaturedImage : value -> value -> M value.

(** [fails_at s m e m']: in the run from [m] the stages before [s]
  returned and stage [s] threw [e], leaving the state [m']. *)
Definition fails_at (s : stage) (m : machine) (e : error) (m' : machine) : Prop :=
match s with
| AtPosts => getLatestPost (at_start m) = (inl e, m')
| AtTitle =>
    exists post m1,
      getLatestPost (at_start m) = (inr post, m1)
      /\ (title_of post m1 = (inl e, m')
          \/ exists title,
               title_of post m1 = (inr title, m') /\ get_prop post "id" = inl e)
| AtGeneration =>
    exists post title postId m2,
      reaches_generation getLatestPost title_of m post title postId m2
      /\ callOpenAIImage (prompt_of title) m2 = (inl e, m')
| AtUpload =>
    exists postId image filename m4,
      reaches_upload getLatestPost title_of prompt_of callOpenAIImage
        m postId image filename m4
      /\ uploadImageToWP image filename m4 = (inl e, m')
| AtFeatured =>
    exists postId mediaId m6,
      reaches_featured getLatestPost title_of prompt_of callOpenAIImage uploadImageToWP
        m postId mediaId m6
      /\ setFeaturedImage postId mediaId m6 = (inl e, m')
end.
End StageFailures.

Definition IndexJs_fails_at {RT : Runtime} {W : World} (env : Env) :
    stage -> machine -> error -> machine -> Prop :=
  fails_at (IndexJs.getLatestPost env) IndexJs.title_of IndexJs.prompt_of
    (IndexJs.callOpenAIImage env) (IndexJs.uploadImageToWP env)
    (IndexJs.setFeaturedImage env).

Definition Part000_fails_at {RT : Runtime} {W : World} (env : Env) :
    stage -> machine -> error -> machine -> Prop :=
  fails_at (Part000.getLatestPost env) Part000.title_of Part000.prompt_of
    (Part000.callOpenAIImage env) (Part000.uploadImageToWP env)
    (Part000.setFeaturedImage env).

(** The pipeline of [src/index.js] cut after stage [s]. *)
Definition IndexJs_pipeline_upto {RT : Runtime} (s : stage) (env : Env) (prompt : string)
    (image : Buffer) (filename : string) (postId mediaId : value) : list request :=
  upto s (posts_request env (base_of env)) [generate_b64_request env prompt]
    (upload_request env (base_of env) image filename)
    (featured_request env (base_of env) postId mediaId).

(** The pipeline of [src/unnamed/part_000] cut after stage [s]. *)
Definition Part000_pipeline_upto {RT : Runtime} (s : stage) (env : Env) (prompt : string)
    (imageUrl : value) (image : Buffer) (filename : string)
    (postId mediaId : value) : list request :=
  upto s (posts_request env (base_of env))
    [generate_url_request env prompt; download_request imageUrl]
    (upload_request env (base_of env) image filename)
    (featured_request env (base_of env) postId mediaId).

(** * Properties *)

(** ** Values, strings and the secret comparison *)

Example to_string_42 : to_string (VNum 42) = "42".
Proof. reflexivity. Qed.
Example to_string_0 : to_string (VNum 0) = "0".
Proof. reflexivity. Qed.
Example to_string_neg : to_string (VNum (-7)) = "-7".
Proof. reflexivity. Qed.
Example to_string_arr : to_string (VArr [VNum 1; VNull; VStr "a"]) = "1,,a".
Proof. reflexivity. Qed.
Example strip_1 : strip_trailing_slashes "https://a.b/c//" = "https://a.b/c".
Proof. reflexivity. Qed.
Example strip_2 : strip_trailing_slashes "https://a.b" = "https://a.b".
Proof. reflexivity. Qed.
Example strip_3 : strip_trailing_slashes "///" = "".
Proof. reflexivity. Qed.
Example url_run : Mock.parse_url "/run?secret=s3cret" = inr (mkURL "/run" [("secret", "s3cret")]).
Proof. reflexivity. Qed.
Example url_no_query : Mock.parse_url "/run" = inr (mkURL "/run" []).
Proof. reflexivity. Qed.
Example secret_default : WORKER_SECRET (mkEnv None None None None None) = "changeme".
Proof. reflexivity. Qed.
Example secret_blank : WORKER_SECRET (mkEnv None None None None (Some "")) = "changeme".
Proof. reflexivity. Qed.

Lemma strict_not_equal_true secret s :
  secret <> Some s -> strict_not_equal secret s = true.
Proof.
  destruct secret as [s'|]; simpl; [|reflexivity].
  intros H. destruct (String.eqb_spec s' s); [subst; congruence | reflexivity].
Qed.

Lemma strict_not_equal_false s : strict_not_equal (Some s) s = false.
Proof. simpl. rewrite String.eqb_refl. reflexivity. Qed.

Lemma eqb_run_false p : p <> "/run" -> (p =? "/run")%string = false.
Proof. intros H. destruct (String.eqb_spec p "/run"); congruence. Qed.

(** ** How the monad runs *)

Section Running.
Context {W : World}.

Lemma run_ret {A} (a : A) (m : machine) : (ret a : M A) m = (inr a, m).
Proof. reflexivity. Qed.

Lemma run_raise {A} (e : error) (m : machine) : (raise e : M A) m = (inl e, m).
Proof. reflexivity. Qed.

Lemma run_bind {A B} (c : M A) (k : A -> M B) (m : machine) :
  bind c k m =
    match c m with
    | (inr a, m') => k a m'
    | (inl e, m') => (inl e, m')
    end.
Proof. reflexivity. Qed.

Lemma run_catch {A} (c : M A) (h : error -> M A) (m : machine) :
  catch c h m =
    match c m with
    | (inl e, m') => h e m'
    | (inr a, m') => (inr a, m')
    end.
Proof. reflexivity. Qed.

(** A thrown error skips the rest of a sequence and keeps the state it
    was thrown in. *)
Lemma bind_throws {A B} (c : M A) (k : A -> M B) m e m' :
  c m = (inl e, m') -> bind c k m = (inl e, m').
Proof. intros H. rewrite run_bind, H. reflexivity. Qed.

Lemma bind_returns {A B} (c : M A) (k : A -> M B) m a m' :
  c m = (inr a, m') -> bind c k m = k a m'.
Proof. intros H. rewrite run_bind, H. reflexivity. Qed.

(** A sequence that returns went through both of its parts. *)
Lemma bind_inr {A B} (c : M A) (k : A -> M B) m b m' :
  bind c k m = (inr b, m') ->
  exists a m1, c m = (inr a, m1) /\ k a m1 = (inr b, m').
Proof.
  rewrite run_bind. destruct (c m) as [[e|a] m1]; [discriminate|].
  intros H. exists a, m1. split; [reflexivity | exact H].
Qed.

Lemma run_console_log s m : console_log s m = (inr tt, logged m s).
Proof. reflexivity. Qed.

Lemma run_fetch input init m r w' :
  world_fetch input init (ext m) = (r, w') ->
  fetch input init m = (r, after_fetch m input init r w').
Proof. intros H. unfold fetch. rewrite H. reflexivity. Qed.
End Running.

(** ** The trigger listener *)

Section Listener.
Context {RT : Runtime} {W : World}.
Variable env : Env.

(** On [/run] with the right secret the listener is [runWorker] followed
    by the serialization of its result, or by the 500 answer. *)
Lemma IndexJs_server_runs req u m :
  URL_new (url req) = inr u ->
  pathname u = "/run" ->
  searchParams_get (searchParams u) "secret" = Some (WORKER_SECRET env) ->
  IndexJs.server env req m =
    match IndexJs.runWorker env m with
    | (inr result, m') =>
        (inr tt, answered m' (statusCode (res m'))
                   [("Content-Type", "application/json")] (JSON_stringify result))
    | (inl e, m') => (inr tt, answered m' 500 [] (message e))
    end.
Proof.
  intros Hu Hp Hs. unfold IndexJs.server.
  rewrite run_catch, run_bind. unfold lift at 1. rewrite Hu, Hp, Hs.
  rewrite strict_not_equal_false. change ("/run" =? "/run")%string with true.
  cbv iota. rewrite run_bind.
  destruct (IndexJs.runWorker env m) as [[e|result] m'].
  - unfold answered. rewrite app_nil_r. reflexivity.
  - reflexivity.
Qed.

Lemma Part000_server_runs req u m :
  URL_new (url req) = inr u ->
  pathname u = "/run" ->
  searchParams_get (searchParams u) "secret" = Some (WORKER_SECRET env) ->
  Part000.server env req m =
    match Part000.runWorker env m with
    | (inr result, m') =>
        (inr tt, answered m' (statusCode (res m'))
                   [("Content-Type", "application/json")] (JSON_stringify result))
    | (inl e, m') =>
        (inr tt, answered (mkMachine (ext m') (res m') (exchanges m')
                             (console m' ++ [LogError e])) 500 [] (message e))
    end.
Proof.
  intros Hu Hp Hs. unfold Part000.server.
  rewrite run_catch, run_bind. unfold lift at 1. rewrite Hu, Hp, Hs.
  rewrite strict_not_equal_false. change ("/run" =? "/run")%string with true.
  cbv iota. rewrite run_bind.
  destruct (Part000.runWorker env m) as [[e|result] m'].
  - unfold answered. cbn. rewrite app_nil_r. reflexivity.
  - reflexivity.
Qed.
End Listener.

(** C1. A request for [/run] whose [secret] parameter is missing or is not
    the configured secret is answered with status 403 and the text
    [Forbidden: bad secret]; the pipeline is not run: no [fetch] exchange
    is added to the log, and the world and the console are as they were.
    This holds for both implementations. *)
Theorem bad_secret_is_forbidden {RT : Runtime} {W : World} env req u m :
  URL_new (url req) = inr u ->
  pathname u = "/run" ->
  searchParams_get (searchParams u) "secret" <> Some (WORKER_SECRET env) ->
  IndexJs.server env req m = (inr tt, answered m 403 [] "Forbidden: bad secret")
  /\ Part000.server env req m = (inr tt, answered m 403 [] "Forbidden: bad secret")
  /\ exchanges (answered m 403 [] "Forbidden: bad secret") = exchanges m
  /\ ext (answered m 403 [] "Forbidden: bad secret") = ext m
  /\ console (answered m 403 [] "Forbidden: bad secret") = console m.
Proof.
  intros Hu Hp Hs.
  assert (Hne := strict_not_equal_true _ _ Hs).
  repeat split.
  - unfold IndexJs.server. rewrite run_catch, run_bind. unfold lift at 1.
    rewrite Hu, Hp, Hne. unfold answered. rewrite app_nil_r. reflexivity.
  - unfold Part000.server. rewrite run_catch, run_bind. unfold lift at 1.
    rewrite Hu, Hp, Hne. unfold answered. rewrite app_nil_r. reflexivity.
Qed.

Lemma bad_secret_is_forbidden_witness :
  let req := mkRequest "/run?secret=guess" in
  let m := Mock.arriving [Mock.ok200 "POSTS"] 1700 in
  @IndexJs.server Mock.rt Mock.scripted Mock.env req m
    = (inr tt, answered m 403 [] "Forbidden: bad secret")
  /\ res (answered m 403 [] "Forbidden: bad secret")
     = mkServerResponse 403 [] (Some "Forbidden: bad secret")
  /\ @IndexJs.server Mock.rt Mock.scripted Mock.env (mkRequest "/run") m
    = (inr tt, answered m 403 [] "Forbidden: bad secret").
Proof.
  intros req m. split; [|split].
  - apply (@bad_secret_is_forbidden Mock.rt Mock.scripted Mock.env req
             (mkURL "/run" [("secret", "guess")]) m);
      [reflexivity | reflexivity | discriminate].
  - reflexivity.
  - apply (@bad_secret_is_forbidden Mock.rt Mock.scripted Mock.env (mkRequest "/run")
             (mkURL "/run" []) m);
      [reflexivity | reflexivity | discriminate].
Defined.

(** C10. A request whose pathname is anything but exactly [/run] is
    answered with the banner as [text/plain] and the status left at its
    initial 200, whatever its query string holds: the secret is not looked
    at and the pipeline is not run.  This holds for both implementations. *)
Theorem other_paths_get_the_banner {RT : Runtime} {W : World} env req u m :
  URL_new (url req) = inr u ->
  pathname u <> "/run" ->
  statusCode (res m) = 200 ->
  IndexJs.server env req m
    = (inr tt, answered m 200 [("Content-Type", "text/plain")] banner)
  /\ Part000.server env req m
    = (inr tt, answered m 200 [("Content-Type", "text/plain")] banner)
  /\ exchanges (answered m 200 [("Content-Type", "text/plain")] banner) = exchanges m
  /\ ext (answered m 200 [("Content-Type", "text/plain")] banner) = ext m
  /\ console (answered m 200 [("Content-Type", "text/plain")] banner) = console m.
Proof.
  intros Hu Hp H200.
  assert (Hne := eqb_run_false _ Hp).
  repeat split.
  - unfold IndexJs.server. rewrite run_catch, run_bind. unfold lift at 1.
    rewrite Hu, Hne. unfold answered. rewrite <- H200. reflexivity.
  - unfold Part000.server. rewrite run_catch, run_bind. unfold lift at 1.
    rewrite Hu, Hne. unfold answered. rewrite <- H200. reflexivity.
Qed.

Lemma other_paths_get_the_banner_witness :
  let m := Mock.arriving [Mock.ok200 "POSTS"] 1700 in
  let done := answered m 200 [("Content-Type", "text/plain")] banner in
  @IndexJs.server Mock.rt Mock.scripted Mock.env (mkRequest "/run/?secret=s3cret") m
    = (inr tt, done)
  /\ @Part000.server Mock.rt Mock.scripted Mock.env (mkRequest "/RUN?secret=s3cret") m
    = (inr tt, done)
  /\ @IndexJs.server Mock.rt Mock.scripted Mock.env (mkRequest "/") m = (inr tt, done).
Proof.
  intros m done. split; [|split].
  - apply (@other_paths_get_the_banner Mock.rt Mock.scripted Mock.env
             (mkRequest "/run/?secret=s3cret") (mkURL "/run/" [("secret", "s3cret")]) m);
      [reflexivity | discriminate | reflexivity].
  - apply (@other_paths_get_the_banner Mock.rt Mock.scripted Mock.env
             (mkRequest "/RUN?secret=s3cret") (mkURL "/RUN" [("secret", "s3cret")]) m);
      [reflexivity | discriminate | reflexivity].
  - apply (@other_paths_get_the_banner Mock.rt Mock.scripted Mock.env
             (mkRequest "/") (mkURL "/" []) m);
      [reflexivity | discriminate | reflexivity].
Defined.

(** ** The content API client *)

(** Unfold the monad operations without touching strings or the world. *)
Ltac run := cbn [bind ret raise catch Monad_M Exception_M fst snd].

Section ContentApi.
Context {RT : Runtime} {W : World}.
Variable env : Env.

Lemma site_base_set site m :
  env_WP_SITE_URL env = Some site ->
  site_base env m = (inr (strip_trailing_slashes site), m).
Proof. intros H. unfold site_base. rewrite H. reflexivity. Qed.

Lemma site_base_unset m :
  env_WP_SITE_URL env = None ->
  site_base env m
    = (inl (TypeError "Cannot read properties of undefined (reading 'replace')"), m).
Proof. intros H. unfold site_base. rewrite H. reflexivity. Qed.

Lemma IndexJs_wpApiJson_run method endpoint body site m r w' :
  env_WP_SITE_URL env = Some site ->
  let input := VStr (strip_trailing_slashes site ++ endpoint) in
  let init := Some (wp_init env method
                      (if to_boolean body then BodyString (JSON_stringify body)
                       else BodyNull)) in
  world_fetch input init (ext m) = (r, w') ->
  IndexJs.wpApiJson env method endpoint body m
    = (wp_outcome method endpoint r, after_fetch m input init r w').
Proof.
  intros Hs input init Hw. unfold IndexJs.wpApiJson.
  run. rewrite (site_base_set _ _ Hs). run.
  erewrite run_fetch by exact Hw.
  unfold wp_outcome, text_then_parse, and_then, wp_complaint, lift. run.
  destruct r as [e|resp]; [reflexivity|].
  destruct (text resp) as [e|txt]; [reflexivity|].
  destruct (ok resp); reflexivity.
Qed.

Lemma IndexJs_wpApiJson_unset method endpoint body m :
  env_WP_SITE_URL env = None ->
  IndexJs.wpApiJson env method endpoint body m
    = (inl (TypeError "Cannot read properties of undefined (reading 'replace')"), m).
Proof.
  intros Hs. unfold IndexJs.wpApiJson. run.
  rewrite (site_base_unset _ Hs). reflexivity.
Qed.

(** The two files have the same [wpApiJson] and [setFeaturedImage]. *)
Lemma wpApiJson_same : Part000.wpApiJson env = IndexJs.wpApiJson env.
Proof. reflexivity. Qed.

Lemma setFeaturedImage_same : Part000.setFeaturedImage env = IndexJs.setFeaturedImage env.
Proof. reflexivity. Qed.

(** *** Fetch latest post *)

Lemma IndexJs_getLatestPost_after posts m m1 :
  IndexJs.wpApiJson env "GET" posts_endpoint VNull m = (inr posts, m1) ->
  IndexJs.getLatestPost env m = (IndexJs_latest posts, m1).
Proof.
  intros H. unfold IndexJs.getLatestPost. run.
  change "/wp-json/wp/v2/posts?per_page=1&orderby=date&order=desc" with posts_endpoint.
  rewrite H. unfold get, get_at, lift, IndexJs_latest, and_then.
  destruct (get_prop posts "length") as [e|len]; [reflexivity|].
  destruct (to_boolean len); reflexivity.
Qed.

Lemma Part000_getLatestPost_after posts m m1 :
  Part000.wpApiJson env "GET" posts_endpoint VNull m = (inr posts, m1) ->
  Part000.getLatestPost env m = (Part000_latest posts, m1).
Proof.
  intros H. unfold Part000.getLatestPost. run.
  change "/wp-json/wp/v2/posts?per_page=1&orderby=date&order=desc" with posts_endpoint.
  rewrite H. unfold get, get_at, lift, Part000_latest.
  destruct posts as [| |b|n|s|xs|fields]; try reflexivity.
  destruct xs as [|post rest]; reflexivity.
Qed.

Lemma IndexJs_getLatestPost_run site m r w' :
  env_WP_SITE_URL env = Some site ->
  world_fetch (fst (posts_request env (strip_trailing_slashes site)))
    (snd (posts_request env (strip_trailing_slashes site))) (ext m) = (r, w') ->
  IndexJs.getLatestPost env m
    = (and_then (wp_outcome "GET" posts_endpoint r) IndexJs_latest,
       after_fetch m (fst (posts_request env (strip_trailing_slashes site)))
         (snd (posts_request env (strip_trailing_slashes site))) r w').
Proof.
  intros Hs Hw.
  pose proof (IndexJs_wpApiJson_run "GET" posts_endpoint VNull site m r w' Hs Hw) as H.
  destruct (wp_outcome "GET" posts_endpoint r) as [e|posts] eqn:Ho.
  - unfold IndexJs.getLatestPost. run.
    change "/wp-json/wp/v2/posts?per_page=1&orderby=date&order=desc" with posts_endpoint.
    rewrite H. reflexivity.
  - rewrite (IndexJs_getLatestPost_after _ _ _ H). reflexivity.
Qed.

Lemma Part000_getLatestPost_run site m r w' :
  env_WP_SITE_URL env = Some site ->
  world_fetch (fst (posts_request env (strip_trailing_slashes site)))
    (snd (posts_request env (strip_trailing_slashes site))) (ext m) = (r, w') ->
  Part000.getLatestPost env m
    = (and_then (wp_outcome "GET" posts_endpoint r) Part000_latest,
       after_fetch m (fst (posts_request env (strip_trailing_slashes site)))
         (snd (posts_request env (strip_trailing_slashes site))) r w').
Proof.
  intros Hs Hw.
  pose proof (IndexJs_wpApiJson_run "GET" posts_endpoint VNull site m r w' Hs Hw) as H.
  rewrite <- wpApiJson_same in H.
  destruct (wp_outcome "GET" posts_endpoint r) as [e|posts] eqn:Ho.
  - unfold Part000.getLatestPost. run.
    change "/wp-json/wp/v2/posts?per_page=1&orderby=date&order=desc" with posts_endpoint.
    rewrite H. reflexivity.
  - rewrite (Part000_getLatestPost_after _ _ _ H). reflexivity.
Qed.

Lemma IndexJs_getLatestPost_unset m :
  env_WP_SITE_URL env = None ->
  IndexJs.getLatestPost env m
    = (inl (TypeError "Cannot read properties of undefined (reading 'replace')"), m).
Proof.
  intros Hs. unfold IndexJs.getLatestPost. run.
  rewrite (IndexJs_wpApiJson_unset _ _ _ _ Hs). reflexivity.
Qed.

Lemma Part000_getLatestPost_unset m :
  env_WP_SITE_URL env = None ->
  Part000.getLatestPost env m
    = (inl (TypeError "Cannot read properties of undefined (reading 'replace')"), m).
Proof.
  intros Hs. unfold Part000.getLatestPost. run. rewrite wpApiJson_same.
  rewrite (IndexJs_wpApiJson_unset _ _ _ _ Hs). reflexivity.
Qed.

(** In [src/unnamed/part_000] the operation does what is asked of it: once
    the content API has answered with the parsed body [posts], it throws
    [No posts found] when [posts] is not an array or is the empty array,
    and returns the first element otherwise. *)
Lemma Part000_getLatestPost_spec posts m m1 :
  Part000.wpApiJson env "GET" posts_endpoint VNull m = (inr posts, m1) ->
  (Array_isArray posts = false \/ posts = VArr [] ->
     Part000.getLatestPost env m = (inl (Error "No posts found"), m1))
  /\ (forall post rest, posts = VArr (post :: rest) ->
        Part000.getLatestPost env m = (inr post, m1)).
Proof.
  intros H. rewrite (Part000_getLatestPost_after _ _ _ H). split.
  - intros [Hn| ->]; [|reflexivity].
    destruct posts; try reflexivity. discriminate.
  - intros post rest ->. reflexivity.
Qed.

(** *** Upload media *)

Lemma IndexJs_uploadImageToWP_run buffer filename site m r w' :
  env_WP_SITE_URL env = Some site ->
  world_fetch (fst (upload_request env (strip_trailing_slashes site) buffer filename))
    (snd (upload_request env (strip_trailing_slashes site) buffer filename)) (ext m)
    = (r, w') ->
  IndexJs.uploadImageToWP env buffer filename m
    = (IndexJs_upload_outcome r,
       after_fetch m (fst (upload_request env (strip_trailing_slashes site) buffer filename))
         (snd (upload_request env (strip_trailing_slashes site) buffer filename)) r w').
Proof.
  intros Hs Hw. unfold IndexJs.uploadImageToWP.
  run. rewrite (site_base_set _ _ Hs). run.
  erewrite run_fetch by exact Hw.
  unfold IndexJs_upload_outcome, text_then_parse, and_then, media_complaint, get, lift. run.
  destruct r as [e|resp]; [reflexivity|].
  destruct (text resp) as [e|txt]; [reflexivity|].
  destruct (ok resp); [|reflexivity]. cbn [negb].
  destruct (JSON_parse txt) as [e|data]; reflexivity.
Qed.

Lemma Part000_uploadImageToWP_run buffer filename site m r w' :
  env_WP_SITE_URL env = Some site ->
  world_fetch (fst (upload_request env (strip_trailing_slashes site) buffer filename))
    (snd (upload_request env (strip_trailing_slashes site) buffer filename)) (ext m)
    = (r, w') ->
  Part000.uploadImageToWP env buffer filename m
    = (Part000_upload_outcome r,
       after_fetch m (fst (upload_request env (strip_trailing_slashes site) buffer filename))
         (snd (upload_request env (strip_trailing_slashes site) buffer filename)) r w').
Proof.
  intros Hs Hw. unfold Part000.uploadImageToWP.
  run. rewrite (site_base_set _ _ Hs). run.
  erewrite run_fetch by exact Hw.
  unfold Part000_upload_outcome, text_then_parse, and_then, media_complaint, get, lift. run.
  destruct r as [e|resp]; [reflexivity|].
  destruct (text resp) as [e|txt]; [reflexivity|].
  destruct (ok resp); [|reflexivity]. cbn [negb].
  destruct (JSON_parse txt) as [e|data]; [reflexivity|].
  destruct (get_prop data "id") as [e|id]; [reflexivity|].
  destruct (to_boolean id); reflexivity.
Qed.

Lemma IndexJs_uploadImageToWP_unset buffer filename m :
  env_WP_SITE_URL env = None ->
  IndexJs.uploadImageToWP env buffer filename m
    = (inl (TypeError "Cannot read properties of undefined (reading 'replace')"), m).
Proof.
  intros Hs. unfold IndexJs.uploadImageToWP. run.
  rewrite (site_base_unset _ Hs). reflexivity.
Qed.

Lemma Part000_uploadImageToWP_unset buffer filename m :
  env_WP_SITE_URL env = None ->
  Part000.uploadImageToWP env buffer filename m
    = (inl (TypeError "Cannot read properties of undefined (reading 'replace')"), m).
Proof.
  intros Hs. unfold Part000.uploadImageToWP. run.
  rewrite (site_base_unset _ Hs). reflexivity.
Qed.

(** In [src/unnamed/part_000] the upload does what is asked of it: it
    throws [WP media error ...] when the response is not successful and
    [Media upload missing id] when the parsed body is an object without
    an [id], and returns the identifier when the body carries a non-zero
    number as its [id]. *)
Lemma Part000_upload_outcome_spec resp txt :
  text resp = inr txt ->
  (ok resp = false ->
     Part000_upload_outcome (inr resp)
       = inl (Error ("WP media error " ++ string_of_Z (status resp) ++ ": " ++ txt)))
  /\ (forall fields, ok resp = true -> JSON_parse txt = inr (VObj fields) ->
        lookup "id" fields = VUndefined ->
        Part000_upload_outcome (inr resp) = inl (Error "Media upload missing id"))
  /\ (forall fields n, ok resp = true -> JSON_parse txt = inr (VObj fields) ->
        lookup "id" fields = VNum n -> n <> 0 ->
        Part000_upload_outcome (inr resp) = inr (VNum n)).
Proof.
  intros Ht. unfold Part000_upload_outcome, text_then_parse, and_then, media_complaint.
  rewrite Ht. repeat split.
  - intros ->. reflexivity.
  - intros fields -> -> Hid. cbn. rewrite Hid. reflexivity.
  - intros fields n -> -> Hid Hn. cbn. rewrite Hid. cbn.
    destruct (Z.eqb_spec n 0); [contradiction | reflexivity].
Qed.

(** *** Set featured image *)

Lemma IndexJs_setFeaturedImage_run postId mediaId site m r w' :
  env_WP_SITE_URL env = Some site ->
  world_fetch (fst (featured_request env (strip_trailing_slashes site) postId mediaId))
    (snd (featured_request env (strip_trailing_slashes site) postId mediaId)) (ext m)
    = (r, w') ->
  IndexJs.setFeaturedImage env postId mediaId m
    = (wp_outcome "POST" (featured_endpoint postId) r,
       after_fetch m (fst (featured_request env (strip_trailing_slashes site) postId mediaId))
         (snd (featured_request env (strip_trailing_slashes site) postId mediaId)) r w').
Proof.
  intros Hs Hw. unfold IndexJs.setFeaturedImage.
  exact (IndexJs_wpApiJson_run "POST" (featured_endpoint postId)
           (VObj [("featured_media", mediaId)]) site m r w' Hs Hw).
Qed.

Lemma IndexJs_setFeaturedImage_unset postId mediaId m :
  env_WP_SITE_URL env = None ->
  IndexJs.setFeaturedImage env postId mediaId m
    = (inl (TypeError "Cannot read properties of undefined (reading 'replace')"), m).
Proof. intros Hs. apply IndexJs_wpApiJson_unset. exact Hs. Qed.
End ContentApi.

(** ** The image-generation client *)

(** Close a goal [r = r' -> (r, m) = (r', m')] whose two states are
    convertible. *)
Ltac by_eq :=
  let H := fresh in
  intros H; first [discriminate H | injection H as <-; reflexivity].

Section ImageApi.
Context {RT : Runtime} {W : World}.
Variable env : Env.

(** Reading a property of a value that passed a truthiness test does
    not throw. *)
Lemma truthy_get_prop v k :
  to_boolean v = true -> exists x, get_prop v k = inr x.
Proof. destruct v; cbn; try discriminate; intros _; eauto; destruct (k =? "length")%string; eauto. Qed.

Lemma truthy_get_index v i :
  to_boolean v = true -> exists x, get_index v i = inr x.
Proof. destruct v; cbn; try discriminate; intros _; eauto. Qed.

(** Below a falsy value there is nothing truthy to read. *)
Lemma falsy_get_index v i x :
  to_boolean v = false -> get_index v i = inr x -> x = VUndefined.
Proof.
  destruct v; cbn; try discriminate; intros Hv Hx; try congruence.
  destruct s; [|discriminate]. destruct i; cbn in Hx; congruence.
Qed.

Lemma falsy_get_prop_url v x :
  to_boolean v = false -> get_prop v "url" = inr x -> x = VUndefined.
Proof. destruct v; cbn; try discriminate; intros Hv Hx; congruence. Qed.

Lemma nested_url_unfold data d d0 u :
  get_prop data "data" = inr d -> get_index d 0 = inr d0 -> get_prop d0 "url" = inr u ->
  nested_url data = u.
Proof. intros H1 H2 H3. unfold nested_url. rewrite H1, H2, H3. reflexivity. Qed.

(** The test [!data.data || !data.data[0] || !data.data[0].url] is the
    test that there is nothing truthy at [data.data[0].url]. *)
Lemma nested_url_falsy_cases data d :
  get_prop data "data" = inr d ->
  to_boolean (nested_url data) = false <->
    (to_boolean d = false
     \/ exists d0, get_index d 0 = inr d0
          /\ (to_boolean d0 = false
              \/ exists u, get_prop d0 "url" = inr u /\ to_boolean u = false)).
Proof.
  intros Hd. unfold nested_url. rewrite Hd. split.
  - intros H. destruct (to_boolean d) eqn:Td; [right | left; reflexivity].
    destruct (truthy_get_index d 0 Td) as [d0 H0]. rewrite H0 in H.
    exists d0. split; [exact H0|].
    destruct (to_boolean d0) eqn:T0; [right | left; reflexivity].
    destruct (truthy_get_prop d0 "url" T0) as [u Hu]. rewrite Hu in H.
    exists u. split; [exact Hu | exact H].
  - intros [Td | (d0 & H0 & [T0 | (u & Hu & Tu)])].
    + destruct (get_index d 0) as [e|d0] eqn:H0; [reflexivity|].
      rewrite (falsy_get_index _ _ _ Td H0). reflexivity.
    + rewrite H0. destruct (get_prop d0 "url") as [e|u] eqn:Hu; [reflexivity|].
      rewrite (falsy_get_prop_url _ _ T0 Hu). reflexivity.
    + rewrite H0, Hu. exact Tu.
Qed.

Lemma IndexJs_callOpenAIImage_run prompt m r w' :
  world_fetch (fst (generate_b64_request env prompt))
    (snd (generate_b64_request env prompt)) (ext m) = (r, w') ->
  IndexJs.callOpenAIImage env prompt m
    = (IndexJs_image_outcome r,
       after_fetch m (fst (generate_b64_request env prompt))
         (snd (generate_b64_request env prompt)) r w').
Proof.
  intros Hw. unfold IndexJs.callOpenAIImage. run.
  erewrite run_fetch by exact Hw.
  unfold IndexJs_image_outcome, openai_checked, and_then, get, get_at, lift. run.
  destruct r as [e|resp]; [reflexivity|].
  destruct (ok resp); cbn [negb].
  - destruct (json resp) as [e|data]; [reflexivity|].
    destruct (get_prop data "data") as [e|d]; [reflexivity|].
    destruct (get_index d 0) as [e|d0]; [reflexivity|].
    destruct (get_prop d0 "b64_json") as [e|b]; reflexivity.
  - destruct (text resp) as [e|t]; reflexivity.
Qed.

(** [src/unnamed/part_000]: the client stops after its first exchange
    when the status check or the URL check fails ... *)
Lemma Part000_callOpenAIImage_stops prompt m r w' e :
  world_fetch (fst (generate_url_request env prompt))
    (snd (generate_url_request env prompt)) (ext m) = (r, w') ->
  Part000_image_url r = inl e ->
  Part000.callOpenAIImage env prompt m
    = (inl e,
       after_fetch m (fst (generate_url_request env prompt))
         (snd (generate_url_request env prompt)) r w').
Proof.
  intros Hw Hu. unfold Part000.callOpenAIImage. run.
  erewrite run_fetch by exact Hw.
  revert Hu. unfold Part000_image_url, openai_checked, and_then, get, get_at, lift. run.
  destruct r as [e'|resp]. 1: by_eq.
  destruct (ok resp); cbn [negb].
  2:{ destruct (text resp) as [e'|t]; by_eq. }
  destruct (json resp) as [e'|data]; [by_eq|].
  destruct (to_boolean (nested_url data)) eqn:Tu; [discriminate|].
  unfold missing_url_error.
  destruct (get_prop data "data") as [e'|d] eqn:Hd; [by_eq|].
  apply (nested_url_falsy_cases data d Hd) in Tu.
  destruct Tu as [Td | (d0 & H0 & [T0 | (u & Hu & Tu)])].
  - rewrite Td. cbn [negb]. by_eq.
  - destruct (to_boolean d); cbn [negb]; [|by_eq].
    rewrite H0, T0. cbn [negb]. by_eq.
  - destruct (to_boolean d); cbn [negb]; [|by_eq].
    rewrite H0. destruct (to_boolean d0); cbn [negb]; [|by_eq].
    rewrite Hu, Tu. cbn [negb]. by_eq.
Qed.

(** ... and otherwise goes on to download the image from the URL. *)
Lemma Part000_callOpenAIImage_downloads prompt m r w1 imageUrl r2 w2 :
  world_fetch (fst (generate_url_request env prompt))
    (snd (generate_url_request env prompt)) (ext m) = (r, w1) ->
  Part000_image_url r = inr imageUrl ->
  world_fetch imageUrl None w1 = (r2, w2) ->
  Part000.callOpenAIImage env prompt m
    = (download_outcome r2,
       after_fetch
         (after_fetch m (fst (generate_url_request env prompt))
            (snd (generate_url_request env prompt)) r w1)
         imageUrl None r2 w2).
Proof.
  intros Hw Hu Hw2. unfold Part000.callOpenAIImage. run.
  erewrite run_fetch by exact Hw.
  revert Hu. unfold Part000_image_url, openai_checked, and_then, get, get_at, lift. run.
  destruct r as [e'|resp]; [discriminate|].
  destruct (ok resp); cbn [negb].
  2:{ destruct (text resp) as [e'|t]; discriminate. }
  destruct (json resp) as [e'|data]; [discriminate|].
  destruct (to_boolean (nested_url data)) eqn:Tu; [|discriminate].
  intros [= <-].
  (* every test on the way to the URL passed *)
  assert (exists d d0, get_prop data "data" = inr d /\ to_boolean d = true
                       /\ get_index d 0 = inr d0 /\ to_boolean d0 = true
                       /\ get_prop d0 "url" = inr (nested_url data)) as (d & d0 & Hd & Td & H0 & T0 & Hurl).
  { revert Tu. unfold nested_url.
    destruct (get_prop data "data") as [e'|d] eqn:Hd; [discriminate|].
    destruct (get_index d 0) as [e'|d0] eqn:H0; [discriminate|].
    destruct (get_prop d0 "url") as [e'|u] eqn:Hu; [discriminate|].
    intros Tu. exists d, d0.
    destruct (to_boolean d) eqn:Td.
    2:{ rewrite (falsy_get_index _ _ _ Td H0) in Hu. cbn in Hu.
        discriminate Hu. }
    destruct (to_boolean d0) eqn:T0.
    2:{ rewrite (falsy_get_prop_url _ _ T0 Hu) in Tu. discriminate. }
    repeat split; first [assumption | reflexivity]. }
  rewrite Hd, Td. cbn [negb]. rewrite H0, T0. cbn [negb]. rewrite Hurl, Tu. cbn [negb].
  unfold fetch at 1. cbn [ext after_fetch]. rewrite Hw2.
  unfold download_outcome, after_fetch. cbn.
  destruct r2 as [e'|imgRes]; [reflexivity|].
  destruct (ok imgRes); reflexivity.
Qed.
End ImageApi.

(** The URL-return client of [src/unnamed/part_000], after a first
    exchange that succeeded with a parsed body [data] other than [null]:
    - when there is nothing at [data.data[0].url] (the field or one of the
      levels above it is absent, or the value is null or empty), it throws
      [OpenAI response missing image URL] without a second exchange;
    - otherwise it makes a second [fetch] of that URL with no options (a
      GET) and ends in the state after it: a rejected download throws the
      rejection, a response that is not successful throws [Failed to
      download image from OpenAI URL: <status>], a successful one gives
      what reading its body gives, the bytes or the error of the read. *)
Lemma Part000_callOpenAIImage_spec {RT : Runtime} {W : World}
    env prompt m resp w1 data :
  let rq := generate_url_request env prompt in
  let m1 := after_fetch m (fst rq) (snd rq) (inr resp) w1 in
  world_fetch (fst rq) (snd rq) (ext m) = (inr resp, w1) ->
  ok resp = true ->
  json resp = inr data ->
  data <> VNull -> data <> VUndefined ->
  (to_boolean (nested_url data) = false ->
     Part000.callOpenAIImage env prompt m
       = (inl (Error "OpenAI response missing image URL"), m1))
  /\ (to_boolean (nested_url data) = true ->
      forall r2 w2,
        world_fetch (nested_url data) None w1 = (r2, w2) ->
        let m2 := after_fetch m1 (nested_url data) None r2 w2 in
        request_of (mkExchange (nested_url data) None r2)
          = download_request (nested_url data)
        /\ (forall e, r2 = inl e ->
              Part000.callOpenAIImage env prompt m = (inl e, m2))
        /\ (forall imgRes, r2 = inr imgRes -> ok imgRes = false ->
              Part000.callOpenAIImage env prompt m
                = (inl (Error ("Failed to download image from OpenAI URL: "
                                 ++ string_of_Z (status imgRes))), m2))
        /\ (forall imgRes, r2 = inr imgRes -> ok imgRes = true ->
              Part000.callOpenAIImage env prompt m = (arrayBuffer imgRes, m2))).
Proof.
  intros rq m1 Hw Hok Hj Hn Hu. split.
  - intros Tu.
    assert (missing_url_error data = Error "OpenAI response missing image URL") as <-.
    { unfold missing_url_error. destruct data; cbn; try reflexivity; contradiction. }
    apply Part000_callOpenAIImage_stops; [exact Hw|].
    unfold Part000_image_url, openai_checked, and_then. rewrite Hok, Hj, Tu. reflexivity.
  - intros Tu r2 w2 Hw2 m2.
    assert (Part000.callOpenAIImage env prompt m = (download_outcome r2, m2)) as H.
    { apply Part000_callOpenAIImage_downloads; [exact Hw| |exact Hw2].
      unfold Part000_image_url, openai_checked, and_then. rewrite Hok, Hj, Tu. reflexivity. }
    split; [reflexivity|]. split; [|split].
    + intros e ->. exact H.
    + intros imgRes -> Hbad. rewrite H. unfold download_outcome. rewrite Hbad. reflexivity.
    + intros imgRes -> Hgood. rewrite H. unfold download_outcome. rewrite Hgood.
      reflexivity.
Qed.

Example Part000_callOpenAIImage_runs :
  let m := Mock.arriving [Mock.ok200 "URL"; Mock.ok200 "PNG"] 1700 in
  let m' := Mock.arriving [Mock.ok200 "NOURL"; Mock.ok200 "PNG"] 1700 in
  let m'' := Mock.arriving [Mock.ok200 "URL"] 1700 in
  fst (@Part000.callOpenAIImage Mock.rt Mock.scripted Mock.env "a cab" m)
    = inr (list_byte_of_string "PNG")
  /\ fst (@Part000.callOpenAIImage Mock.rt Mock.scripted Mock.env "a cab" m')
     = inl (Error "OpenAI response missing image URL")
  /\ fst (@Part000.callOpenAIImage Mock.rt Mock.scripted Mock.env "a cab" m'')
     = inl (TypeError "fetch failed").
Proof. repeat split; reflexivity. Qed.

(** C7, as [src/unnamed/part_000] has it.  The guard
    [!data.data || !data.data[0] || !data.data[0].url] reads [data.data]
    without testing [data]: when the generation response succeeds with the
    JSON body [null], which carries no image URL, the client does not
    throw [OpenAI response missing image URL] but the [TypeError] of
    reading a property of [null], after that single exchange.  For every
    other body the client behaves as asked ([Part000_callOpenAIImage_spec]). *)
Theorem callOpenAIImage_null_body_is_a_TypeError {RT : Runtime} {W : World}
    env prompt m resp w1 :
  let rq := generate_url_request env prompt in
  world_fetch (fst rq) (snd rq) (ext m) = (inr resp, w1) ->
  ok resp = true ->
  json resp = inr VNull ->
  to_boolean (nested_url VNull) = false
  /\ Part000.callOpenAIImage env prompt m
     = (inl (TypeError "Cannot read properties of null (reading 'data')"),
        after_fetch m (fst rq) (snd rq) (inr resp) w1)
  /\ TypeError "Cannot read properties of null (reading 'data')"
     <> Error "OpenAI response missing image URL".
Proof.
  intros rq Hw Hok Hj. split; [reflexivity|]. split; [|discriminate].
  apply Part000_callOpenAIImage_stops; [exact Hw|].
  unfold Part000_image_url, openai_checked, and_then. rewrite Hok, Hj. reflexivity.
Qed.

Lemma callOpenAIImage_null_body_is_a_TypeError_witness :
  let m := Mock.arriving [Mock.ok200 "NULL"; Mock.ok200 "PNG"] 1700 in
  fst (@Part000.callOpenAIImage Mock.rt Mock.scripted Mock.env "a cab" m)
  = inl (TypeError "Cannot read properties of null (reading 'data')").
Proof.
  intros m.
  destruct (@callOpenAIImage_null_body_is_a_TypeError Mock.rt Mock.scripted Mock.env
              "a cab" m (Mock.response Mock.docs 200 "NULL") ([Mock.ok200 "PNG"], 1700)
              eq_refl eq_refl eq_refl) as (_ & H & _).
  rewrite H. reflexivity.
Defined.

(** ** The orchestrator *)

Section Orchestrator.
Context {W : World}.
Variable getLatestPost : M value.
Variable title_of : value -> M value.
Variable prompt_of : value -> string.
Variable callOpenAIImage : string -> M Buffer.
Variable uploadImageToWP : Buffer -> string -> M value.
Variable setFeaturedImage : value -> value -> M value.

#[local] Abbreviation worker :=
  (orchestrate getLatestPost title_of prompt_of callOpenAIImage uploadImageToWP
     setFeaturedImage).
#[local] Abbreviation thrown :=
  (raised getLatestPost title_of prompt_of callOpenAIImage uploadImageToWP
     setFeaturedImage).
#[local] Abbreviation succeed :=
  (all_succeed getLatestPost title_of prompt_of callOpenAIImage uploadImageToWP
     setFeaturedImage).
#[local] Abbreviation to_generation := (reaches_generation getLatestPost title_of).
#[local] Abbreviation to_upload :=
  (reaches_upload getLatestPost title_of prompt_of callOpenAIImage).
#[local] Abbreviation to_featured :=
  (reaches_featured getLatestPost title_of prompt_of callOpenAIImage uploadImageToWP).

Lemma run_Date_now m :
  Date_now m
    = (inr (fst (world_now (ext m))),
       mkMachine (snd (world_now (ext m))) (res m) (exchanges m) (console m)).
Proof. unfold Date_now. destruct (world_now (ext m)); reflexivity. Qed.

(** The sequence, stage by stage. *)
Lemma orchestrate_run m :
  worker m =
    match getLatestPost (at_start m) with
    | (inl e, m1) => (inl e, m1)
    | (inr post, m1) =>
    match title_of post m1 with
    | (inl e, m1') => (inl e, m1')
    | (inr title, m1') =>
    match get_prop post "id" with
    | inl e => (inl e, m1')
    | inr postId =>
    match callOpenAIImage (prompt_of title) (at_generation m1' postId title) with
    | (inl e, m3) => (inl e, m3)
    | (inr image, m3) =>
    match uploadImageToWP image (filename_at (fst (world_now (ext m3)))) (at_upload m3) with
    | (inl e, m5) => (inl e, m5)
    | (inr mediaId, m5) =>
    match setFeaturedImage postId mediaId (at_featured m5 mediaId) with
    | (inl e, m7) => (inl e, m7)
    | (inr _, m7) => (inr (run_result postId mediaId), at_end m7)
    end end end end end end.
Proof.
  unfold orchestrate. run. rewrite run_console_log. run.
  fold (at_start m).
  destruct (getLatestPost (at_start m)) as [[e|post] m1]; [reflexivity|].
  destruct (title_of post m1) as [[e|title] m1']; [reflexivity|].
  unfold get, lift. run.
  destruct (get_prop post "id") as [e|postId]; [reflexivity|].
  rewrite !run_console_log. run.
  fold (at_generation m1' postId title).
  destruct (callOpenAIImage (prompt_of title) (at_generation m1' postId title))
    as [[e|image] m3]; [reflexivity|].
  rewrite run_Date_now. run. rewrite run_console_log. run.
  fold (filename_at (fst (world_now (ext m3)))). fold (at_upload m3).
  destruct (uploadImageToWP image (filename_at (fst (world_now (ext m3)))) (at_upload m3))
    as [[e|mediaId] m5]; [reflexivity|].
  rewrite run_console_log. run. fold (at_featured m5 mediaId).
  destruct (setFeaturedImage postId mediaId (at_featured m5 mediaId))
    as [[e|v] m7]; reflexivity.
Qed.

(** The errors of a run are exactly the errors raised by its stages,
    each with the state it was raised in: nothing is caught, retried or
    wrapped on the way. *)
Lemma orchestrate_throws_iff m e m' :
  worker m = (inl e, m') <-> thrown m e m'.
Proof.
  rewrite orchestrate_run. split.
  - destruct (getLatestPost (at_start m)) as [[e1|post] m1] eqn:H1.
    { intros [= <- <-]. apply raised_by_getLatestPost. exact H1. }
    destruct (title_of post m1) as [[e2|title] m1'] eqn:H2.
    { intros [= <- <-]. eapply raised_by_title; eassumption. }
    destruct (get_prop post "id") as [e3|postId] eqn:H3.
    { intros [= <- <-]. eapply raised_by_id; eassumption. }
    assert (to_generation m post title postId (at_generation m1' postId title)) as R2.
    { exists m1, m1'. repeat split; assumption. }
    destruct (callOpenAIImage _ _) as [[e4|image] m3] eqn:H4.
    { intros [= <- <-]. eapply raised_by_callOpenAIImage; eassumption. }
    assert (to_upload m postId image (filename_at (fst (world_now (ext m3))))
              (at_upload m3)) as R4.
    { exists post, title, (at_generation m1' postId title), m3. repeat split; assumption. }
    destruct (uploadImageToWP _ _ _) as [[e5|mediaId] m5] eqn:H5.
    { intros [= <- <-]. eapply raised_by_uploadImageToWP; eassumption. }
    assert (to_featured m postId mediaId (at_featured m5 mediaId)) as R6.
    { exists image, (filename_at (fst (world_now (ext m3)))), (at_upload m3), m5.
      repeat split; assumption. }
    destruct (setFeaturedImage _ _ _) as [[e6|v] m7] eqn:H6.
    { intros [= <- <-]. eapply raised_by_setFeaturedImage; eassumption. }
    discriminate.
  - intros [H1 | post m1 H1 H2 | post m1 title H1 H2 H3
            | post title postId m2 R2 H4 | postId image filename m4 R4 H5
            | postId mediaId m6 R6 H6].
    + rewrite H1. reflexivity.
    + rewrite H1, H2. reflexivity.
    + rewrite H1, H2, H3. reflexivity.
    + destruct R2 as (m1 & m1' & H1 & H2 & H3 & ->).
      rewrite H1, H2, H3, H4. reflexivity.
    + destruct R4 as (post & title & m2 & m3 & R2 & H4 & -> & ->).
      destruct R2 as (m1 & m1' & H1 & H2 & H3 & ->).
      rewrite H1, H2, H3, H4, H5. reflexivity.
    + destruct R6 as (image & filename & m4 & m5 & R4 & H5 & ->).
      destruct R4 as (post & title & m2 & m3 & R2 & H4 & -> & ->).
      destruct R2 as (m1 & m1' & H1 & H2 & H3 & ->).
      rewrite H1, H2, H3, H4, H5, H6. reflexivity.
Qed.

(** A run returns exactly when all its calls succeed, and then with
    [{ ok: true, postId, mediaId }]. *)
Lemma orchestrate_returns_iff m r m' :
  worker m = (inr r, m') <->
  exists postId mediaId, succeed m postId mediaId m' /\ r = run_result postId mediaId.
Proof.
  rewrite orchestrate_run. split.
  - destruct (getLatestPost (at_start m)) as [[e1|post] m1] eqn:H1; [discriminate|].
    destruct (title_of post m1) as [[e2|title] m1'] eqn:H2; [discriminate|].
    destruct (get_prop post "id") as [e3|postId] eqn:H3; [discriminate|].
    destruct (callOpenAIImage _ _) as [[e4|image] m3] eqn:H4; [discriminate|].
    destruct (uploadImageToWP _ _ _) as [[e5|mediaId] m5] eqn:H5; [discriminate|].
    destruct (setFeaturedImage _ _ _) as [[e6|v] m7] eqn:H6; [discriminate|].
    intros [= <- <-]. exists postId, mediaId. split; [|reflexivity].
    exists (at_featured m5 mediaId), v, m7. split; [|split; [exact H6 | reflexivity]].
    exists image, (filename_at (fst (world_now (ext m3)))), (at_upload m3), m5.
    split; [|split; [exact H5 | reflexivity]].
    exists post, title, (at_generation m1' postId title), m3.
    split; [|split; [exact H4 | split; reflexivity]].
    exists m1, m1'. repeat split; assumption.
  - intros (postId & mediaId & (m6 & v & m7 & R6 & H6 & ->) & ->).
    destruct R6 as (image & filename & m4 & m5 & R4 & H5 & ->).
    destruct R4 as (post & title & m2 & m3 & R2 & H4 & -> & ->).
    destruct R2 as (m1 & m1' & H1 & H2 & H3 & ->).
    rewrite H1, H2, H3, H4, H5, H6. reflexivity.
Qed.
End Orchestrator.

(** ** Sequencing of the remote calls *)

Section Sequencing.
Context {W : World}.

(** A computation that throws without any exchange fits every pipeline. *)
Lemma seq_silent {A} p m (e : error) m' :
  exchanges m' = exchanges m ->
  strictly_sequenced p m (inl e : result A, m').
Proof.
  intros Hx. exists []. cbn [fst snd is_ok].
  split; [rewrite app_nil_r; exact Hx|].
  split; [exists p; reflexivity|].
  split; [discriminate|].
  intros i x H. destruct i; discriminate.
Qed.

(** A computation that makes one exchange and throws when it failed. *)
Lemma seq_one {A} m input init r w' (o : result A) :
  (ex_failed (mkExchange input init r) = true -> is_ok o = false) ->
  strictly_sequenced [(input, init)] m (o, after_fetch m input init r w').
Proof.
  intros Hf. exists [mkExchange input init r]. cbn [fst snd].
  split; [reflexivity|].
  split; [exists []; reflexivity|].
  split; [reflexivity|].
  intros i x H Hx. destruct i as [|i]; [|destruct i; discriminate].
  injection H as <-. split; [reflexivity | exact (Hf Hx)].
Qed.

(** The error of a stage is the error of the run: same exchanges. *)
Lemma seq_retype {A B} p m (e : error) m1 :
  strictly_sequenced p m (inl e : result A, m1) ->
  strictly_sequenced p m (inl e : result B, m1).
Proof.
  intros (xs & Hx & Hp & _ & Hg). exists xs. cbn [fst snd is_ok] in *.
  split; [exact Hx|]. split; [exact Hp|]. split; [discriminate | exact Hg].
Qed.

(** A pipeline cut short by an error is an initial segment of any longer one. *)
Lemma seq_stop {A B} p1 p2 m (e : error) m1 :
  strictly_sequenced p1 m (inl e : result A, m1) ->
  strictly_sequenced (p1 ++ p2) m (inl e : result B, m1).
Proof.
  intros (xs & Hx & (rest & Hp) & _ & Hg). exists xs. cbn [fst snd is_ok] in *.
  split; [exact Hx|].
  split; [exists (rest ++ p2)%list; rewrite Hp, app_assoc; reflexivity|].
  split; [discriminate | exact Hg].
Qed.

(** After a stage that returned, the rest of the run continues the pipeline. *)
Lemma seq_cont {A B} p1 p2 m (a : A) m1 m1' (out : result B * machine) :
  strictly_sequenced p1 m (inr a, m1) ->
  exchanges m1' = exchanges m1 ->
  strictly_sequenced p2 m1' out ->
  strictly_sequenced (p1 ++ p2) m out.
Proof.
  intros (xs1 & Hx1 & _ & Hok1 & Hg1) Hsame (xs2 & Hx2 & (rest & Hp2) & Hok2 & Hg2).
  cbn [fst snd is_ok] in *. specialize (Hok1 eq_refl).
  exists (xs1 ++ xs2)%list.
  split; [rewrite Hx2, Hsame, Hx1, app_assoc; reflexivity|].
  split; [exists rest; rewrite map_app, Hok1, Hp2, app_assoc; reflexivity|].
  split; [intros Hok; rewrite map_app, Hok1, (Hok2 Hok); reflexivity|].
  intros i x H Hf.
  destruct (Nat.lt_ge_cases i (List.length xs1)) as [Hlt|Hge].
  - rewrite nth_error_app1 in H by exact Hlt.
    destruct (Hg1 i x H Hf) as [_ Hno]. discriminate.
  - rewrite nth_error_app2 in H by exact Hge.
    destruct (Hg2 _ x H Hf) as [Hlen Hno].
    split; [rewrite length_app, Hlen; lia | exact Hno].
Qed.

(** Steps that leave the log of exchanges alone, before or after. *)
Lemma seq_from {A} p m m0 (out : result A * machine) :
  exchanges m0 = exchanges m ->
  strictly_sequenced p m0 out -> strictly_sequenced p m out.
Proof.
  intros Hsame (xs & Hx & Hrest). exists xs. rewrite <- Hsame. split; assumption.
Qed.

Lemma seq_to {A} p m (r : result A) m1 m1' :
  exchanges m1' = exchanges m1 ->
  strictly_sequenced p m (r, m1) -> strictly_sequenced p m (r, m1').
Proof.
  intros Hsame (xs & Hx & Hrest). exists xs. cbn [fst snd] in *.
  rewrite Hsame. split; assumption.
Qed.

(** A response that is not [ok] or a rejected call makes the text-first
    reader throw. *)
Lemma text_then_parse_gates {RT : Runtime} complain input init r :
  ex_failed (mkExchange input init r) = true ->
  is_ok (text_then_parse complain r) = false.
Proof.
  unfold ex_failed, text_then_parse, and_then. cbn [ex_result].
  destruct r as [e|resp]; [reflexivity|].
  destruct (ok resp); [discriminate|]. intros _.
  destruct (text resp); reflexivity.
Qed.

Lemma openai_checked_gates input init r :
  ex_failed (mkExchange input init r) = true -> is_ok (openai_checked r) = false.
Proof.
  unfold ex_failed, openai_checked, and_then. cbn [ex_result].
  destruct r as [e|resp]; [reflexivity|].
  destruct (ok resp); [discriminate|]. intros _.
  destruct (text resp); reflexivity.
Qed.

Lemma and_then_gates {A B} (r : result A) (k : A -> result B) :
  is_ok r = false -> is_ok (and_then r k) = false.
Proof. destruct r; [reflexivity | discriminate]. Qed.
End Sequencing.

Section OrchestratorSequencing.
Context {W : World}.
Variable getLatestPost : M value.
Variable title_of : value -> M value.
Variable prompt_of : value -> string.
Variable callOpenAIImage : string -> M Buffer.
Variable uploadImageToWP : Buffer -> string -> M value.
Variable setFeaturedImage : value -> value -> M value.

Variable posts_rq : request.
Variable generation : string -> list request -> Prop.
Variable upload_rq : Buffer -> string -> request.
Variable featured_rq : value -> value -> request.

Hypothesis getLatestPost_seq :
  forall m, strictly_sequenced [posts_rq] m (getLatestPost m).
Hypothesis title_of_pure :
  forall post m, snd (title_of post m) = m.
Hypothesis callOpenAIImage_seq :
  forall prompt m, exists p,
    generation prompt p /\ strictly_sequenced p m (callOpenAIImage prompt m).
Hypothesis uploadImageToWP_seq :
  forall image filename m,
    strictly_sequenced [upload_rq image filename] m (uploadImageToWP image filename m).
Hypothesis setFeaturedImage_seq :
  forall postId mediaId m,
    strictly_sequenced [featured_rq postId mediaId] m (setFeaturedImage postId mediaId m).

(** Whatever the world answers, the exchanges of a run are an initial
    segment of: posts, generation, upload, featured image. *)
Lemma orchestrate_sequenced m :
  exists prompt p image filename postId mediaId,
    generation prompt p
    /\ strictly_sequenced
         (posts_rq :: p ++ [upload_rq image filename; featured_rq postId mediaId])%list m
         (orchestrate getLatestPost title_of prompt_of callOpenAIImage uploadImageToWP
            setFeaturedImage m).
Proof.
  rewrite orchestrate_run.
  pose proof (getLatestPost_seq (at_start m)) as S1.
  destruct (getLatestPost (at_start m)) as [[e|post] m1].
  { destruct (callOpenAIImage_seq "" m) as (p & Hp & _).
    exists "", p, [], "", VUndefined, VUndefined. split; [exact Hp|].
    apply (seq_stop (A:=value) [posts_rq]). apply (seq_from _ _ _ _ eq_refl S1). }
  pose proof (title_of_pure post m1) as S2.
  destruct (title_of post m1) as [[e|title] m1']; cbn [snd] in S2; subst m1'.
  { destruct (callOpenAIImage_seq "" m) as (p & Hp & _).
    exists "", p, [], "", VUndefined, VUndefined. split; [exact Hp|].
    apply (seq_cont [posts_rq] _ _ post m1 m1 (inl e, m1));
      [exact (seq_from _ _ _ _ eq_refl S1) | reflexivity | apply seq_silent; reflexivity]. }
  destruct (get_prop post "id") as [e|postId].
  { destruct (callOpenAIImage_seq "" m) as (p & Hp & _).
    exists "", p, [], "", VUndefined, VUndefined. split; [exact Hp|].
    apply (seq_cont [posts_rq] _ _ post m1 m1 (inl e, m1));
      [exact (seq_from _ _ _ _ eq_refl S1) | reflexivity | apply seq_silent; reflexivity]. }
  destruct (callOpenAIImage_seq (prompt_of title) (at_generation m1 postId title))
    as (p & Hp & S3).
  destruct (callOpenAIImage (prompt_of title) (at_generation m1 postId title))
    as [[e|image] m3].
  { exists (prompt_of title), p, [], "", postId, VUndefined. split; [exact Hp|].
    apply (seq_cont [posts_rq] _ _ post m1 (at_generation m1 postId title));
      [exact (seq_from _ _ _ _ eq_refl S1) | reflexivity |].
    apply (seq_stop (A:=Buffer)). exact S3. }
  pose proof (uploadImageToWP_seq image (filename_at (fst (world_now (ext m3))))
                (at_upload m3)) as S4.
  destruct (uploadImageToWP image (filename_at (fst (world_now (ext m3)))) (at_upload m3))
    as [[e|mediaId] m5].
  { exists (prompt_of title), p, image, (filename_at (fst (world_now (ext m3)))),
      postId, VUndefined.
    split; [exact Hp|].
    apply (seq_cont [posts_rq] _ _ post m1 (at_generation m1 postId title));
      [exact (seq_from _ _ _ _ eq_refl S1) | reflexivity |].
    apply (seq_cont p _ _ image m3 (at_upload m3)); [exact S3 | reflexivity |].
    apply (seq_stop (A:=value) [upload_rq image (filename_at (fst (world_now (ext m3))))]).
    exact S4. }
  pose proof (setFeaturedImage_seq postId mediaId (at_featured m5 mediaId)) as S5.
  exists (prompt_of title), p, image, (filename_at (fst (world_now (ext m3)))),
    postId, mediaId.
  split; [exact Hp|].
  apply (seq_cont [posts_rq] _ _ post m1 (at_generation m1 postId title));
    [exact (seq_from _ _ _ _ eq_refl S1) | reflexivity |].
  apply (seq_cont p _ _ image m3 (at_upload m3)); [exact S3 | reflexivity |].
  apply (seq_cont [upload_rq image (filename_at (fst (world_now (ext m3))))] _ _
           mediaId m5 (at_featured m5 mediaId)); [exact S4 | reflexivity |].
  destruct (setFeaturedImage postId mediaId (at_featured m5 mediaId)) as [[e|v] m7].
  - exact (seq_stop (A:=value) [featured_rq postId mediaId] [] _ _ _ S5).
  - destruct S5 as (xs & Hx & Hp5 & Hok & Hg). exists xs. cbn [fst snd is_ok] in *.
    split; [exact Hx|]. split; [exact Hp5|]. split; [exact Hok | exact Hg].
Qed.

(** When the image client throws, the run ends with the exchanges made
    so far: the posts request and what the image client got to. *)
Lemma generation_failure_sequenced m post title postId m2 e m3 :
  reaches_generation getLatestPost title_of m post title postId m2 ->
  callOpenAIImage (prompt_of title) m2 = (inl e, m3) ->
  exists p,
    generation (prompt_of title) p
    /\ strictly_sequenced (posts_rq :: p) m
         (orchestrate getLatestPost title_of prompt_of callOpenAIImage uploadImageToWP
            setFeaturedImage m).
Proof.
  intros R2 H4.
  assert (orchestrate getLatestPost title_of prompt_of callOpenAIImage uploadImageToWP
            setFeaturedImage m = (inl e, m3)) as Hrun.
  { apply orchestrate_throws_iff. eapply raised_by_callOpenAIImage; eassumption. }
  rewrite Hrun.
  destruct R2 as (m1 & m1' & H1 & H2 & H3 & ->).
  pose proof (getLatestPost_seq (at_start m)) as S1. rewrite H1 in S1.
  pose proof (title_of_pure post m1) as P. rewrite H2 in P. cbn [snd] in P. subst m1'.
  destruct (callOpenAIImage_seq (prompt_of title) (at_generation m1 postId title))
    as (p & Hp & S3).
  rewrite H4 in S3. exists p. split; [exact Hp|].
  apply (seq_cont [posts_rq] p m post m1 (at_generation m1 postId title));
    [exact (seq_from _ _ _ _ eq_refl S1) | reflexivity |].
  exact (seq_retype (A:=Buffer) _ _ _ _ S3).
Qed.
End OrchestratorSequencing.

(** ** A failing stage ends the run *)

Section StageSequencing.
Context {W : World}.
Variable getLatestPost : M value.
Variable title_of : value -> M value.
Variable prompt_of : value -> string.
Variable callOpenAIImage : string -> M Buffer.
Variable uploadImageToWP : Buffer -> string -> M value.
Variable setFeaturedImage : value -> value -> M value.

Variable posts_rq : request.
Variable generation : string -> list request -> Prop.
Variable upload_rq : Buffer -> string -> request.
Variable featured_rq : value -> value -> request.

Hypothesis getLatestPost_seq :
forall m, strictly_sequenced [posts_rq] m (getLatestPost m).
Hypothesis title_of_pure :
forall post m, snd (title_of post m) = m.
Hypothesis callOpenAIImage_seq :
forall prompt m, exists p,
  generation prompt p /\ strictly_sequenced p m (callOpenAIImage prompt m).
Hypothesis uploadImageToWP_seq :
forall image filename m,
  strictly_sequenced [upload_rq image filename] m (uploadImageToWP image filename m).
Hypothesis setFeaturedImage_seq :
forall postId mediaId m,
  strictly_sequenced [featured_rq postId mediaId] m (setFeaturedImage postId mediaId m).

#[local] Abbreviation worker :=
(orchestrate getLatestPost title_of prompt_of callOpenAIImage uploadImageToWP
   setFeaturedImage).
#[local] Abbreviation failing :=
(fails_at getLatestPost title_of prompt_of callOpenAIImage uploadImageToWP
   setFeaturedImage).

(** Every throw of a run is the throw of one of its stages, and
  conversely. *)
Lemma raised_iff_fails_at m e m' :
raised getLatestPost title_of prompt_of callOpenAIImage uploadImageToWP
  setFeaturedImage m e m'
<-> exists s, failing s m e m'.
Proof.
split.
- intros [H1 | post m1 H1 H2 | post m1 title H1 H2 H3
          | post title postId m2 R2 H4 | postId image filename m4 R4 H5
          | postId mediaId m6 R6 H6].
  + exists AtPosts. exact H1.
  + exists AtTitle, post, m1. split; [exact H1 | left; exact H2].
  + exists AtTitle, post, m1. split; [exact H1 | right; eauto].
  + exists AtGeneration, post, title, postId, m2. split; assumption.
  + exists AtUpload, postId, image, filename, m4. split; assumption.
  + exists AtFeatured, postId, mediaId, m6. split; assumption.
- intros ([ | | | | ] & H); cbn in H.
  + apply raised_by_getLatestPost. exact H.
  + destruct H as (post & m1 & H1 & [H2 | (title & H2 & H3)]).
    * eapply raised_by_title; eassumption.
    * eapply raised_by_id; eassumption.
  + destruct H as (post & title & postId & m2 & R2 & H4).
    eapply raised_by_callOpenAIImage; eassumption.
  + destruct H as (postId & image & filename & m4 & R4 & H5).
    eapply raised_by_uploadImageToWP; eassumption.
  + destruct H as (postId & mediaId & m6 & R6 & H6).
    eapply raised_by_setFeaturedImage; eassumption.
Qed.

(** The exchanges made on the way to each stage. *)
Lemma seq_reaches_generation m post title postId m2 :
reaches_generation getLatestPost title_of m post title postId m2 ->
strictly_sequenced [posts_rq] m (inr post : result value, m2).
Proof.
intros (m1 & m1' & H1 & H2 & H3 & ->).
pose proof (getLatestPost_seq (at_start m)) as S1. rewrite H1 in S1.
pose proof (title_of_pure post m1) as P. rewrite H2 in P. cbn [snd] in P. subst m1'.
apply (seq_to _ _ _ m1); [reflexivity|].
exact (seq_from _ _ _ _ eq_refl S1).
Qed.

Lemma seq_reaches_upload m postId image filename m4 :
reaches_upload getLatestPost title_of prompt_of callOpenAIImage
  m postId image filename m4 ->
exists title p,
  generation (prompt_of title) p
  /\ strictly_sequenced (posts_rq :: p) m (inr image : result Buffer, m4).
Proof.
intros (post & title & m2 & m3 & R2 & H4 & _ & ->).
destruct (callOpenAIImage_seq (prompt_of title) m2) as (p & Hp & S3).
rewrite H4 in S3. exists title, p. split; [exact Hp|].
apply (seq_to _ _ _ m3); [reflexivity|].
exact (seq_cont [posts_rq] p m post m2 m2 _ (seq_reaches_generation _ _ _ _ _ R2)
         eq_refl S3).
Qed.

Lemma seq_reaches_featured m postId mediaId m6 :
reaches_featured getLatestPost title_of prompt_of callOpenAIImage uploadImageToWP
  m postId mediaId m6 ->
exists title p image filename m4,
  generation (prompt_of title) p
  /\ reaches_upload getLatestPost title_of prompt_of callOpenAIImage
       m postId image filename m4
  /\ strictly_sequenced (posts_rq :: p ++ [upload_rq image filename])%list m
       (inr mediaId : result value, m6).
Proof.
intros (image & filename & m4 & m5 & R4 & H5 & ->).
destruct (seq_reaches_upload _ _ _ _ _ R4) as (title & p & Hp & S4).
pose proof (uploadImageToWP_seq image filename m4) as S5. rewrite H5 in S5.
exists title, p, image, filename, m4. split; [exact Hp|]. split; [exact R4|].
apply (seq_to _ _ _ m5); [reflexivity|].
exact (seq_cont (posts_rq :: p) [upload_rq image filename] m image m4 m4 _ S4 eq_refl S5).
Qed.

(** A stage that throws ends the run there: the run throws the same
  error in the same state, and its exchanges are an initial segment of
  the pipeline cut after that stage.  No request of a later stage, and
  no other request, is made. *)
Lemma stage_failure_sequenced s m e m' :
failing s m e m' ->
worker m = (inl e, m')
/\ exists prompt p image filename postId mediaId,
     generation prompt p
     /\ strictly_sequenced
          (upto s posts_rq p (upload_rq image filename) (featured_rq postId mediaId))
          m (worker m).
Proof.
intros H.
assert (worker m = (inl e, m')) as Hrun.
{ apply orchestrate_throws_iff, raised_iff_fails_at. exists s. exact H. }
split; [exact Hrun|]. rewrite Hrun.
destruct (callOpenAIImage_seq "" m) as (p0 & Hp0 & _).
destruct s; cbn in H; cbn [upto].
- exists "", p0, [], "", VUndefined, VUndefined. split; [exact Hp0|].
  pose proof (getLatestPost_seq (at_start m)) as S1. rewrite H in S1.
  exact (seq_from _ _ _ _ eq_refl S1).
- exists "", p0, [], "", VUndefined, VUndefined. split; [exact Hp0|].
  destruct H as (post & m1 & H1 & Hthrow).
  pose proof (getLatestPost_seq (at_start m)) as S1. rewrite H1 in S1.
  assert (m' = m1) as ->.
  { destruct Hthrow as [H2 | (title & H2 & _)];
      pose proof (title_of_pure post m1) as P; rewrite H2 in P; exact P. }
  apply (seq_cont [posts_rq] [] m post m1 m1 (inl e, m1));
    [exact (seq_from _ _ _ _ eq_refl S1) | reflexivity | apply seq_silent; reflexivity].
- destruct H as (post & title & postId & m2 & R2 & H4).
  destruct (callOpenAIImage_seq (prompt_of title) m2) as (p & Hp & S3).
  rewrite H4 in S3.
  exists (prompt_of title), p, [], "", postId, VUndefined. split; [exact Hp|].
  apply (seq_cont [posts_rq] p m post m2 m2 _ (seq_reaches_generation _ _ _ _ _ R2)
           eq_refl).
  exact (seq_retype (A:=Buffer) _ _ _ _ S3).
- destruct H as (postId & image & filename & m4 & R4 & H5).
  destruct (seq_reaches_upload _ _ _ _ _ R4) as (title & p & Hp & S4).
  pose proof (uploadImageToWP_seq image filename m4) as S5. rewrite H5 in S5.
  exists (prompt_of title), p, image, filename, postId, VUndefined. split; [exact Hp|].
  exact (seq_cont (posts_rq :: p) [upload_rq image filename] m image m4 m4 _ S4 eq_refl S5).
- destruct H as (postId & mediaId & m6 & R6 & H6).
  destruct (seq_reaches_featured _ _ _ _ R6)
    as (title & p & image & filename & m4 & Hp & _ & S6).
  pose proof (setFeaturedImage_seq postId mediaId m6) as S7. rewrite H6 in S7.
  exists (prompt_of title), p, image, filename, postId, mediaId. split; [exact Hp|].
  replace (p ++ [upload_rq image filename; featured_rq postId mediaId])%list
    with ((p ++ [upload_rq image filename]) ++ [featured_rq postId mediaId])%list
    by (rewrite <- app_assoc; reflexivity).
  exact (seq_cont (posts_rq :: p ++ [upload_rq image filename])
           [featured_rq postId mediaId] m mediaId m6 m6 _ S6 eq_refl S7).
Qed.

(** A run that returns made exactly the requests of the pipeline, the
  upload under the name given by the clock reading taken after the
  image was generated. *)
Lemma success_sequenced m postId mediaId m' :
all_succeed getLatestPost title_of prompt_of callOpenAIImage uploadImageToWP
  setFeaturedImage m postId mediaId m' ->
exists post title m2 image m3 p xs,
  reaches_generation getLatestPost title_of m post title postId m2
  /\ callOpenAIImage (prompt_of title) m2 = (inr image, m3)
  /\ generation (prompt_of title) p
  /\ exchanges m' = (exchanges m ++ xs)%list
  /\ map request_of xs
     = (posts_rq :: p ++ [upload_rq image (filename_at (fst (world_now (ext m3))));
                          featured_rq postId mediaId])%list.
Proof.
intros (m6 & v & m7 & R6 & H6 & ->).
destruct R6 as (image & filename & m4 & m5 & R4 & H5 & ->).
destruct R4 as (post & title & m2 & m3 & R2 & H4 & -> & ->).
destruct (callOpenAIImage_seq (prompt_of title) m2) as (p & Hp & S3). rewrite H4 in S3.
pose proof (uploadImageToWP_seq image (filename_at (fst (world_now (ext m3))))
              (at_upload m3)) as S5. rewrite H5 in S5.
pose proof (setFeaturedImage_seq postId mediaId (at_featured m5 mediaId)) as S7.
rewrite H6 in S7.
pose proof (seq_cont [posts_rq] p m post m2 m2 _ (seq_reaches_generation _ _ _ _ _ R2)
              eq_refl S3) as S4.
pose proof (seq_cont (posts_rq :: p) _ m image m3 (at_upload m3) _ S4 eq_refl S5) as S6.
pose proof (seq_cont (posts_rq :: p ++ [upload_rq image (filename_at (fst (world_now (ext m3))))])
              _ m mediaId m5 (at_featured m5 mediaId) _ S6 eq_refl S7)
  as (xs & Hx & _ & Hok & _).
exists post, title, m2, image, m3, p, xs.
split; [exact R2|]. split; [exact H4|]. split; [exact Hp|].
split; [exact Hx|].
cbn [fst is_ok] in Hok. rewrite (Hok eq_refl). cbn [app]. f_equal.
rewrite <- app_assoc. reflexivity.
Qed.
End StageSequencing.

(** ** The stages of each file *)

Section Stages.
Context {RT : Runtime} {W : World}.
Variable env : Env.

Lemma IndexJs_runWorker_eq :
  IndexJs.runWorker env
  = orchestrate (IndexJs.getLatestPost env) IndexJs.title_of IndexJs.prompt_of
      (IndexJs.callOpenAIImage env) (IndexJs.uploadImageToWP env)
      (IndexJs.setFeaturedImage env).
Proof. reflexivity. Qed.

Lemma Part000_runWorker_eq :
  Part000.runWorker env
  = orchestrate (Part000.getLatestPost env) Part000.title_of Part000.prompt_of
      (Part000.callOpenAIImage env) (Part000.uploadImageToWP env)
      (Part000.setFeaturedImage env).
Proof. reflexivity. Qed.

Lemma IndexJs_title_of_run post m :
  IndexJs.title_of post m = (IndexJs_title post, m).
Proof.
  unfold IndexJs.title_of, IndexJs_title, and_then, get, lift. run.
  destruct (get_prop post "title") as [e|t]; [reflexivity|].
  destruct (get_prop t "rendered") as [e|r]; reflexivity.
Qed.

Lemma Part000_title_of_run post m :
  Part000.title_of post m = (Part000_title post, m).
Proof.
  unfold Part000.title_of, Part000_title, and_then, get, lift. run.
  destruct (get_prop post "title") as [e|t]; [reflexivity|].
  destruct (to_boolean t) eqn:Tt.
  - destruct (get_prop t "rendered") as [e|r]; [reflexivity|].
    destruct (to_boolean r); reflexivity.
  - rewrite Tt. reflexivity.
Qed.

(** *** Each client makes its exchanges in order and is gated by them *)

Lemma IndexJs_wpApiJson_sequenced method endpoint body m :
  strictly_sequenced
    [(VStr (base_of env ++ endpoint),
      Some (wp_init env method
              (if to_boolean body then BodyString (JSON_stringify body) else BodyNull)))]
    m (IndexJs.wpApiJson env method endpoint body m).
Proof.
  unfold base_of. destruct (env_WP_SITE_URL env) as [site|] eqn:Hs.
  - destruct (world_fetch (VStr (strip_trailing_slashes site ++ endpoint))
                (Some (wp_init env method
                   (if to_boolean body then BodyString (JSON_stringify body)
                    else BodyNull))) (ext m)) as [r w'] eqn:Hw.
    rewrite (IndexJs_wpApiJson_run env method endpoint body site m r w' Hs Hw).
    apply seq_one. apply text_then_parse_gates.
  - rewrite (IndexJs_wpApiJson_unset env _ _ _ _ Hs). apply seq_silent. reflexivity.
Qed.

Lemma IndexJs_getLatestPost_sequenced m :
  strictly_sequenced [posts_request env (base_of env)] m (IndexJs.getLatestPost env m).
Proof.
  unfold base_of. destruct (env_WP_SITE_URL env) as [site|] eqn:Hs.
  - destruct (world_fetch (fst (posts_request env (strip_trailing_slashes site)))
                (snd (posts_request env (strip_trailing_slashes site))) (ext m))
      as [r w'] eqn:Hw.
    rewrite (IndexJs_getLatestPost_run env site m r w' Hs Hw).
    apply seq_one. intros Hf. apply and_then_gates.
    exact (text_then_parse_gates _ _ _ _ Hf).
  - rewrite (IndexJs_getLatestPost_unset env _ Hs). apply seq_silent. reflexivity.
Qed.

Lemma Part000_getLatestPost_sequenced m :
  strictly_sequenced [posts_request env (base_of env)] m (Part000.getLatestPost env m).
Proof.
  unfold base_of. destruct (env_WP_SITE_URL env) as [site|] eqn:Hs.
  - destruct (world_fetch (fst (posts_request env (strip_trailing_slashes site)))
                (snd (posts_request env (strip_trailing_slashes site))) (ext m))
      as [r w'] eqn:Hw.
    rewrite (Part000_getLatestPost_run env site m r w' Hs Hw).
    apply seq_one. intros Hf. apply and_then_gates.
    exact (text_then_parse_gates _ _ _ _ Hf).
  - rewrite (Part000_getLatestPost_unset env _ Hs). apply seq_silent. reflexivity.
Qed.

Lemma IndexJs_uploadImageToWP_sequenced image filename m :
  strictly_sequenced [upload_request env (base_of env) image filename] m
    (IndexJs.uploadImageToWP env image filename m).
Proof.
  unfold base_of. destruct (env_WP_SITE_URL env) as [site|] eqn:Hs.
  - destruct (world_fetch
                (fst (upload_request env (strip_trailing_slashes site) image filename))
                (snd (upload_request env (strip_trailing_slashes site) image filename))
                (ext m)) as [r w'] eqn:Hw.
    rewrite (IndexJs_uploadImageToWP_run env image filename site m r w' Hs Hw).
    apply seq_one. intros Hf. apply and_then_gates.
    exact (text_then_parse_gates _ _ _ _ Hf).
  - rewrite (IndexJs_uploadImageToWP_unset env _ _ _ Hs). apply seq_silent. reflexivity.
Qed.

Lemma Part000_uploadImageToWP_sequenced image filename m :
  strictly_sequenced [upload_request env (base_of env) image filename] m
    (Part000.uploadImageToWP env image filename m).
Proof.
  unfold base_of. destruct (env_WP_SITE_URL env) as [site|] eqn:Hs.
  - destruct (world_fetch
                (fst (upload_request env (strip_trailing_slashes site) image filename))
                (snd (upload_request env (strip_trailing_slashes site) image filename))
                (ext m)) as [r w'] eqn:Hw.
    rewrite (Part000_uploadImageToWP_run env image filename site m r w' Hs Hw).
    apply seq_one. intros Hf. apply and_then_gates.
    exact (text_then_parse_gates _ _ _ _ Hf).
  - rewrite (Part000_uploadImageToWP_unset env _ _ _ Hs). apply seq_silent. reflexivity.
Qed.

Lemma IndexJs_setFeaturedImage_sequenced postId mediaId m :
  strictly_sequenced [featured_request env (base_of env) postId mediaId] m
    (IndexJs.setFeaturedImage env postId mediaId m).
Proof.
  exact (IndexJs_wpApiJson_sequenced "POST" (featured_endpoint postId)
           (VObj [("featured_media", mediaId)]) m).
Qed.

Lemma IndexJs_callOpenAIImage_sequenced prompt m :
  strictly_sequenced [generate_b64_request env prompt] m
    (IndexJs.callOpenAIImage env prompt m).
Proof.
  destruct (world_fetch (fst (generate_b64_request env prompt))
              (snd (generate_b64_request env prompt)) (ext m)) as [r w'] eqn:Hw.
  rewrite (IndexJs_callOpenAIImage_run env prompt m r w' Hw).
  apply seq_one. intros Hf. apply and_then_gates.
  exact (openai_checked_gates _ _ _ Hf).
Qed.

Lemma download_outcome_gates input init r :
  ex_failed (mkExchange input init r) = true -> is_ok (download_outcome r) = false.
Proof.
  unfold ex_failed, download_outcome. cbn [ex_result].
  destruct r as [e|resp]; [reflexivity|].
  destruct (ok resp); [discriminate | reflexivity].
Qed.

Lemma Part000_callOpenAIImage_sequenced prompt m :
  exists imageUrl,
    strictly_sequenced [generate_url_request env prompt; download_request imageUrl] m
      (Part000.callOpenAIImage env prompt m).
Proof.
  destruct (world_fetch (fst (generate_url_request env prompt))
              (snd (generate_url_request env prompt)) (ext m)) as [r w1] eqn:Hw.
  destruct (Part000_image_url r) as [e|imageUrl] eqn:Hu.
  - exists VUndefined.
    rewrite (Part000_callOpenAIImage_stops env prompt m r w1 e Hw Hu).
    apply (seq_stop (A:=Buffer) [generate_url_request env prompt]).
    apply seq_one. reflexivity.
  - exists imageUrl.
    destruct (world_fetch imageUrl None w1) as [r2 w2] eqn:Hw2.
    rewrite (Part000_callOpenAIImage_downloads env prompt m r w1 imageUrl r2 w2 Hw Hu Hw2).
    apply (seq_cont [generate_url_request env prompt] [download_request imageUrl] m
             imageUrl
             (after_fetch m (fst (generate_url_request env prompt))
                (snd (generate_url_request env prompt)) r w1)
             (after_fetch m (fst (generate_url_request env prompt))
                (snd (generate_url_request env prompt)) r w1));
      [|reflexivity|].
    + apply seq_one. intros Hf.
      pose proof (openai_checked_gates _ _ _ Hf) as Hno.
      unfold Part000_image_url in Hu.
      destruct (openai_checked r); [discriminate Hu | discriminate Hno].
    + apply seq_one. apply download_outcome_gates.
Qed.
End Stages.

(** ** The pipeline never writes to the response *)

Section KeepsRes.
Context {W : World}.
Variable getLatestPost : M value.
Variable title_of : value -> M value.
Variable prompt_of : value -> string.
Variable callOpenAIImage : string -> M Buffer.
Variable uploadImageToWP : Buffer -> string -> M value.
Variable setFeaturedImage : value -> value -> M value.

Hypothesis getLatestPost_res : keeps_res getLatestPost.
Hypothesis title_of_res : forall post, keeps_res (title_of post).
Hypothesis callOpenAIImage_res : forall prompt, keeps_res (callOpenAIImage prompt).
Hypothesis uploadImageToWP_res :
  forall image filename, keeps_res (uploadImageToWP image filename).
Hypothesis setFeaturedImage_res :
  forall postId mediaId, keeps_res (setFeaturedImage postId mediaId).

Lemma orchestrate_keeps_res :
  keeps_res (orchestrate getLatestPost title_of prompt_of callOpenAIImage
               uploadImageToWP setFeaturedImage).
Proof.
  intros m. rewrite orchestrate_run.
  pose proof (getLatestPost_res (at_start m)) as H1.
  destruct (getLatestPost (at_start m)) as [[e|post] m1]; cbn [snd] in *; [exact H1|].
  pose proof (title_of_res post m1) as H2.
  destruct (title_of post m1) as [[e|title] m1']; cbn [snd] in *;
    [exact (eq_trans H2 H1)|].
  destruct (get_prop post "id") as [e|postId]; cbn [snd]; [exact (eq_trans H2 H1)|].
  pose proof (callOpenAIImage_res (prompt_of title) (at_generation m1' postId title)) as H3.
  destruct (callOpenAIImage (prompt_of title) (at_generation m1' postId title))
    as [[e|image] m3]; cbn [snd] in *;
    [exact (eq_trans H3 (eq_trans H2 H1))|].
  pose proof (uploadImageToWP_res image (filename_at (fst (world_now (ext m3))))
                (at_upload m3)) as H4.
  destruct (uploadImageToWP image (filename_at (fst (world_now (ext m3)))) (at_upload m3))
    as [[e|mediaId] m5]; cbn [snd] in *;
    [exact (eq_trans H4 (eq_trans H3 (eq_trans H2 H1)))|].
  pose proof (setFeaturedImage_res postId mediaId (at_featured m5 mediaId)) as H5.
  destruct (setFeaturedImage postId mediaId (at_featured m5 mediaId)) as [[e|v] m7];
    cbn [snd] in *;
    exact (eq_trans H5 (eq_trans H4 (eq_trans H3 (eq_trans H2 H1)))).
Qed.
End KeepsRes.

Section StagesKeepRes.
Context {RT : Runtime} {W : World}.
Variable env : Env.

Lemma IndexJs_wpApiJson_keeps_res method endpoint body :
  keeps_res (IndexJs.wpApiJson env method endpoint body).
Proof.
  intros m. destruct (env_WP_SITE_URL env) as [site|] eqn:Hs.
  - destruct (world_fetch (VStr (strip_trailing_slashes site ++ endpoint))
                (Some (wp_init env method
                   (if to_boolean body then BodyString (JSON_stringify body)
                    else BodyNull))) (ext m)) as [r w'] eqn:Hw.
    rewrite (IndexJs_wpApiJson_run env method endpoint body site m r w' Hs Hw).
    reflexivity.
  - rewrite (IndexJs_wpApiJson_unset env _ _ _ _ Hs). reflexivity.
Qed.

Lemma IndexJs_getLatestPost_keeps_res : keeps_res (IndexJs.getLatestPost env).
Proof.
  intros m. destruct (env_WP_SITE_URL env) as [site|] eqn:Hs.
  - destruct (world_fetch (fst (posts_request env (strip_trailing_slashes site)))
                (snd (posts_request env (strip_trailing_slashes site))) (ext m))
      as [r w'] eqn:Hw.
    rewrite (IndexJs_getLatestPost_run env site m r w' Hs Hw). reflexivity.
  - rewrite (IndexJs_getLatestPost_unset env _ Hs). reflexivity.
Qed.

Lemma Part000_getLatestPost_keeps_res : keeps_res (Part000.getLatestPost env).
Proof.
  intros m. destruct (env_WP_SITE_URL env) as [site|] eqn:Hs.
  - destruct (world_fetch (fst (posts_request env (strip_trailing_slashes site)))
                (snd (posts_request env (strip_trailing_slashes site))) (ext m))
      as [r w'] eqn:Hw.
    rewrite (Part000_getLatestPost_run env site m r w' Hs Hw). reflexivity.
  - rewrite (Part000_getLatestPost_unset env _ Hs). reflexivity.
Qed.

Lemma IndexJs_uploadImageToWP_keeps_res image filename :
  keeps_res (IndexJs.uploadImageToWP env image filename).
Proof.
  intros m. destruct (env_WP_SITE_URL env) as [site|] eqn:Hs.
  - destruct (world_fetch
                (fst (upload_request env (strip_trailing_slashes site) image filename))
                (snd (upload_request env (strip_trailing_slashes site) image filename))
                (ext m)) as [r w'] eqn:Hw.
    rewrite (IndexJs_uploadImageToWP_run env image filename site m r w' Hs Hw).
    reflexivity.
  - rewrite (IndexJs_uploadImageToWP_unset env _ _ _ Hs). reflexivity.
Qed.

Lemma Part000_uploadImageToWP_keeps_res image filename :
  keeps_res (Part000.uploadImageToWP env image filename).
Proof.
  intros m. destruct (env_WP_SITE_URL env) as [site|] eqn:Hs.
  - destruct (world_fetch
                (fst (upload_request env (strip_trailing_slashes site) image filename))
                (snd (upload_request env (strip_trailing_slashes site) image filename))
                (ext m)) as [r w'] eqn:Hw.
    rewrite (Part000_uploadImageToWP_run env image filename site m r w' Hs Hw).
    reflexivity.
  - rewrite (Part000_uploadImageToWP_unset env _ _ _ Hs). reflexivity.
Qed.

Lemma IndexJs_callOpenAIImage_keeps_res prompt :
  keeps_res (IndexJs.callOpenAIImage env prompt).
Proof.
  intros m.
  destruct (world_fetch (fst (generate_b64_request env prompt))
              (snd (generate_b64_request env prompt)) (ext m)) as [r w'] eqn:Hw.
  rewrite (IndexJs_callOpenAIImage_run env prompt m r w' Hw). reflexivity.
Qed.

Lemma Part000_callOpenAIImage_keeps_res prompt :
  keeps_res (Part000.callOpenAIImage env prompt).
Proof.
  intros m.
  destruct (world_fetch (fst (generate_url_request env prompt))
              (snd (generate_url_request env prompt)) (ext m)) as [r w1] eqn:Hw.
  destruct (Part000_image_url r) as [e|imageUrl] eqn:Hu.
  - rewrite (Part000_callOpenAIImage_stops env prompt m r w1 e Hw Hu). reflexivity.
  - destruct (world_fetch imageUrl None w1) as [r2 w2] eqn:Hw2.
    rewrite (Part000_callOpenAIImage_downloads env prompt m r w1 imageUrl r2 w2 Hw Hu Hw2).
    reflexivity.
Qed.

Lemma IndexJs_runWorker_keeps_res : keeps_res (IndexJs.runWorker env).
Proof.
  rewrite IndexJs_runWorker_eq. apply orchestrate_keeps_res.
  - apply IndexJs_getLatestPost_keeps_res.
  - intros post m. rewrite IndexJs_title_of_run. reflexivity.
  - apply IndexJs_callOpenAIImage_keeps_res.
  - apply IndexJs_uploadImageToWP_keeps_res.
  - intros postId mediaId. apply IndexJs_wpApiJson_keeps_res.
Qed.

Lemma Part000_runWorker_keeps_res : keeps_res (Part000.runWorker env).
Proof.
  rewrite Part000_runWorker_eq. apply orchestrate_keeps_res.
  - apply Part000_getLatestPost_keeps_res.
  - intros post m. rewrite Part000_title_of_run. reflexivity.
  - apply Part000_callOpenAIImage_keeps_res.
  - apply Part000_uploadImageToWP_keeps_res.
  - intros postId mediaId. apply IndexJs_wpApiJson_keeps_res.
Qed.
End StagesKeepRes.

(** ** End-to-end properties of a run *)

(** C2. On [/run] with the right secret, when all the collaborator calls
    succeed ([all_succeed]: the latest post is fetched, its title and id
    are read, the image is generated, uploaded and attached), the listener
    answers 200 with the JSON serialization of
    [{ ok: true, postId, mediaId }], where [postId] is the [id] of the
    post that [getLatestPost] returned and [mediaId] is what
    [uploadImageToWP] returned.  This holds for both implementations. *)
Theorem run_answers_with_the_ids {RT : Runtime} {W : World} env req u m :
  URL_new (url req) = inr u ->
  pathname u = "/run" ->
  searchParams_get (searchParams u) "secret" = Some (WORKER_SECRET env) ->
  statusCode (res m) = 200 ->
  (forall postId mediaId m',
     IndexJs_all_succeed env m postId mediaId m' ->
     IndexJs.server env req m
       = (inr tt, answered m' 200 [("Content-Type", "application/json")]
                    (JSON_stringify (run_result postId mediaId))))
  /\ (forall postId mediaId m',
        Part000_all_succeed env m postId mediaId m' ->
        Part000.server env req m
          = (inr tt, answered m' 200 [("Content-Type", "application/json")]
                       (JSON_stringify (run_result postId mediaId)))).
Proof.
  intros Hu Hp Hs H200. split; intros postId mediaId m' Hall.
  - rewrite (IndexJs_server_runs env req u m Hu Hp Hs).
    pose proof (IndexJs_runWorker_keeps_res env m) as Hres.
    assert (IndexJs.runWorker env m = (inr (run_result postId mediaId), m')) as Hrun.
    { rewrite IndexJs_runWorker_eq. apply orchestrate_returns_iff.
      exists postId, mediaId. split; [exact Hall | reflexivity]. }
    rewrite Hrun in *. cbn [snd] in Hres. rewrite Hres, H200. reflexivity.
  - rewrite (Part000_server_runs env req u m Hu Hp Hs).
    pose proof (Part000_runWorker_keeps_res env m) as Hres.
    assert (Part000.runWorker env m = (inr (run_result postId mediaId), m')) as Hrun.
    { rewrite Part000_runWorker_eq. apply orchestrate_returns_iff.
      exists postId, mediaId. split; [exact Hall | reflexivity]. }
    rewrite Hrun in *. cbn [snd] in Hres. rewrite Hres, H200. reflexivity.
Qed.

(** C9. A result returned by [runWorker] is [{ ok: true, postId, mediaId }]:
    its [ok] field is [true] in both implementations; a failed run throws
    and returns no result. *)
Theorem run_result_is_ok {RT : Runtime} {W : World} env m r m' :
  IndexJs.runWorker env m = (inr r, m') \/ Part000.runWorker env m = (inr r, m') ->
  get_prop r "ok" = inr (VBool true)
  /\ exists postId mediaId, r = run_result postId mediaId.
Proof.
  intros [H|H].
  - rewrite IndexJs_runWorker_eq in H. apply orchestrate_returns_iff in H.
    destruct H as (postId & mediaId & _ & ->). split; [reflexivity | eauto].
  - rewrite Part000_runWorker_eq in H. apply orchestrate_returns_iff in H.
    destruct H as (postId & mediaId & _ & ->). split; [reflexivity | eauto].
Qed.

(** C8. An error raised by any stage of the pipeline ([raised]: by one of
    the four collaborator calls, or by reading the post's title or id) is
    the error [runWorker] throws, in the state it was raised in, and
    conversely [runWorker] throws nothing else; the listener then answers
    500 with the error's message as the body.  Nothing is retried: the
    final state is the state of the throw with the answer written (and, in
    [src/unnamed/part_000], the error logged). *)
Theorem errors_surface_as_500 {RT : Runtime} {W : World} env req u m e m' :
  URL_new (url req) = inr u ->
  pathname u = "/run" ->
  searchParams_get (searchParams u) "secret" = Some (WORKER_SECRET env) ->
  (IndexJs_raised env m e m' <-> IndexJs.runWorker env m = (inl e, m'))
  /\ (IndexJs_raised env m e m' ->
        IndexJs.server env req m = (inr tt, answered m' 500 [] (message e)))
  /\ (Part000_raised env m e m' <-> Part000.runWorker env m = (inl e, m'))
  /\ (Part000_raised env m e m' ->
        Part000.server env req m
          = (inr tt, answered (error_logged m' e) 500 [] (message e))).
Proof.
  intros Hu Hp Hs.
  assert (IndexJs_raised env m e m' <-> IndexJs.runWorker env m = (inl e, m')) as HI.
  { rewrite IndexJs_runWorker_eq. symmetry. apply orchestrate_throws_iff. }
  assert (Part000_raised env m e m' <-> Part000.runWorker env m = (inl e, m')) as HP.
  { rewrite Part000_runWorker_eq. symmetry. apply orchestrate_throws_iff. }
  split; [exact HI|]. split; [|split; [exact HP|]].
  - intros Hr. apply HI in Hr.
    rewrite (IndexJs_server_runs env req u m Hu Hp Hs), Hr. reflexivity.
  - intros Hr. apply HP in Hr.
    rewrite (Part000_server_runs env req u m Hu Hp Hs), Hr. reflexivity.
Qed.

(** Each file's stage lemmas, put together. *)
Lemma IndexJs_stage_failure {RT : Runtime} {W : World} env s (m : machine) e m' :
  IndexJs_fails_at env s m e m' ->
  IndexJs.runWorker env m = (inl e, m')
  /\ exists prompt image filename postId mediaId,
       strictly_sequenced (IndexJs_pipeline_upto s env prompt image filename postId mediaId)
         m (IndexJs.runWorker env m).
Proof.
  intros H.
  destruct (stage_failure_sequenced
              (IndexJs.getLatestPost env) IndexJs.title_of IndexJs.prompt_of
              (IndexJs.callOpenAIImage env) (IndexJs.uploadImageToWP env)
              (IndexJs.setFeaturedImage env)
              (posts_request env (base_of env))
              (fun prompt p => p = [generate_b64_request env prompt])
              (upload_request env (base_of env))
              (featured_request env (base_of env))
              (IndexJs_getLatestPost_sequenced env)
              (fun post m0 => f_equal snd (IndexJs_title_of_run post m0))
              (fun prompt m0 =>
                 ex_intro (fun p => p = [generate_b64_request env prompt]
                                    /\ strictly_sequenced p m0
                                         (IndexJs.callOpenAIImage env prompt m0))
                   _ (conj eq_refl (IndexJs_callOpenAIImage_sequenced env prompt m0)))
              (IndexJs_uploadImageToWP_sequenced env)
              (IndexJs_setFeaturedImage_sequenced env) s m e m' H)
    as (Hrun & prompt & p & image & filename & postId & mediaId & -> & Hseq).
  split; [exact Hrun|].
  exists prompt, image, filename, postId, mediaId. exact Hseq.
Qed.

Lemma Part000_stage_failure {RT : Runtime} {W : World} env s (m : machine) e m' :
  Part000_fails_at env s m e m' ->
  Part000.runWorker env m = (inl e, m')
  /\ exists prompt imageUrl image filename postId mediaId,
       strictly_sequenced
         (Part000_pipeline_upto s env prompt imageUrl image filename postId mediaId)
         m (Part000.runWorker env m).
Proof.
  intros H.
  destruct (stage_failure_sequenced
              (Part000.getLatestPost env) Part000.title_of Part000.prompt_of
              (Part000.callOpenAIImage env) (Part000.uploadImageToWP env)
              (Part000.setFeaturedImage env)
              (posts_request env (base_of env))
              (fun prompt p =>
                 exists imageUrl,
                   p = [generate_url_request env prompt; download_request imageUrl])
              (upload_request env (base_of env))
              (featured_request env (base_of env))
              (Part000_getLatestPost_sequenced env)
              (fun post m0 => f_equal snd (Part000_title_of_run post m0))) with
    (s := s) (m := m) (e := e) (m' := m')
    as (Hrun & prompt & p & image & filename & postId & mediaId & (imageUrl & ->) & Hseq).
  - intros prompt m0.
    destruct (Part000_callOpenAIImage_sequenced env prompt m0) as (imageUrl & Hs).
    exists [generate_url_request env prompt; download_request imageUrl].
    split; [exists imageUrl; reflexivity | exact Hs].
  - apply Part000_uploadImageToWP_sequenced.
  - apply IndexJs_setFeaturedImage_sequenced.
  - exact H.
  - split; [exact Hrun|].
    exists prompt, imageUrl, image, filename, postId, mediaId. exact Hseq.
Qed.

(** C3. The pipeline is a strict sequence in which each step gates the
    next.
    - Whatever the world answers, the exchanges of one run of
      [runWorker] are an initial segment of the pipeline (posts,
      generation, [download in part_000,] upload, featured image), all
      of it when the run returns, and an exchange that failed (rejected,
      or answered with a status outside 200-299) is the last exchange of
      the run.
    - When a stage throws, for whatever reason (a failed exchange, or a
      successful answer that is then refused: [No posts found], an
      unreadable body, a missing title, URL or id), the run throws that
      error in the state of the throw, and its exchanges are an initial
      segment of the pipeline cut after that stage: no later step is
      taken and no other request, such as a clean-up of an uploaded
      image, is made.  Every throw of a run is the throw of a stage.
    - In [src/unnamed/part_000], when the generation answer yields no
      image URL, the download is skipped as well. *)
Theorem pipeline_is_strictly_sequenced {RT : Runtime} {W : World} env (m : machine) :
  (exists prompt image filename postId mediaId,
     strictly_sequenced (IndexJs_pipeline env prompt image filename postId mediaId) m
       (IndexJs.runWorker env m))
  /\ (exists prompt imageUrl image filename postId mediaId,
        strictly_sequenced
          (Part000_pipeline env prompt imageUrl image filename postId mediaId) m
          (Part000.runWorker env m))
  /\ (forall s e m',
        IndexJs_fails_at env s m e m' ->
        IndexJs.runWorker env m = (inl e, m')
        /\ exists prompt image filename postId mediaId,
             strictly_sequenced
               (IndexJs_pipeline_upto s env prompt image filename postId mediaId)
               m (IndexJs.runWorker env m))
  /\ (forall s e m',
        Part000_fails_at env s m e m' ->
        Part000.runWorker env m = (inl e, m')
        /\ exists prompt imageUrl image filename postId mediaId,
             strictly_sequenced
               (Part000_pipeline_upto s env prompt imageUrl image filename postId mediaId)
               m (Part000.runWorker env m))
  /\ (forall e m',
        IndexJs.runWorker env m = (inl e, m') -> exists s, IndexJs_fails_at env s m e m')
  /\ (forall e m',
        Part000.runWorker env m = (inl e, m') -> exists s, Part000_fails_at env s m e m')
  /\ (forall post title postId m2 r w1 e,
        reaches_generation (Part000.getLatestPost env) Part000.title_of m post title postId m2 ->
        world_fetch (fst (generate_url_request env (Part000.prompt_of title)))
          (snd (generate_url_request env (Part000.prompt_of title))) (ext m2) = (r, w1) ->
        Part000_image_url r = inl e ->
        Part000.runWorker env m
          = (inl e, after_fetch m2 (fst (generate_url_request env (Part000.prompt_of title)))
                      (snd (generate_url_request env (Part000.prompt_of title))) r w1)
        /\ strictly_sequenced
             [posts_request env (base_of env);
              generate_url_request env (Part000.prompt_of title)] m
             (Part000.runWorker env m)).
Proof.
  pose proof (fun prompt m0 =>
                ex_intro (fun p => p = [generate_b64_request env prompt]
                                   /\ strictly_sequenced p m0
                                        (IndexJs.callOpenAIImage env prompt m0))
                  _ (conj eq_refl (IndexJs_callOpenAIImage_sequenced env prompt m0)))
    as HgenI.
  assert (forall prompt m0, exists p,
             (exists imageUrl,
                 p = [generate_url_request env prompt; download_request imageUrl])
             /\ strictly_sequenced p m0 (Part000.callOpenAIImage env prompt m0)) as HgenP.
  { intros prompt m0.
    destruct (Part000_callOpenAIImage_sequenced env prompt m0) as (imageUrl & H).
    exists [generate_url_request env prompt; download_request imageUrl].
    split; [exists imageUrl; reflexivity | exact H]. }
  split; [|split; [|split; [|split; [|split; [|split]]]]].
  - destruct (orchestrate_sequenced
                (IndexJs.getLatestPost env) IndexJs.title_of IndexJs.prompt_of
                (IndexJs.callOpenAIImage env) (IndexJs.uploadImageToWP env)
                (IndexJs.setFeaturedImage env)
                (posts_request env (base_of env))
                (fun prompt p => p = [generate_b64_request env prompt])
                (upload_request env (base_of env))
                (featured_request env (base_of env))
                (IndexJs_getLatestPost_sequenced env)
                (fun post m0 => f_equal snd (IndexJs_title_of_run post m0))
                HgenI
                (IndexJs_uploadImageToWP_sequenced env)
                (IndexJs_setFeaturedImage_sequenced env) m)
      as (prompt & p & image & filename & postId & mediaId & -> & H).
    exists prompt, image, filename, postId, mediaId. exact H.
  - destruct (orchestrate_sequenced
                (Part000.getLatestPost env) Part000.title_of Part000.prompt_of
                (Part000.callOpenAIImage env) (Part000.uploadImageToWP env)
                (Part000.setFeaturedImage env)
                (posts_request env (base_of env))
                (fun prompt p =>
                   exists imageUrl,
                     p = [generate_url_request env prompt; download_request imageUrl])
                (upload_request env (base_of env))
                (featured_request env (base_of env))
                (Part000_getLatestPost_sequenced env)
                (fun post m0 => f_equal snd (Part000_title_of_run post m0))
                HgenP
                (Part000_uploadImageToWP_sequenced env)
                (IndexJs_setFeaturedImage_sequenced env) m)
      as (prompt & p & image & filename & postId & mediaId & (imageUrl & ->) & H).
    exists prompt, imageUrl, image, filename, postId, mediaId. exact H.
  - intros s e m'. apply IndexJs_stage_failure.
  - intros s e m'. apply Part000_stage_failure.
  - intros e m' H. rewrite IndexJs_runWorker_eq in H.
    apply orchestrate_throws_iff, raised_iff_fails_at in H. exact H.
  - intros e m' H. rewrite Part000_runWorker_eq in H.
    apply orchestrate_throws_iff, raised_iff_fails_at in H. exact H.
  - intros post title postId m2 r w1 e R2 Hw Hu.
    pose proof (Part000_callOpenAIImage_stops env (Part000.prompt_of title) m2 r w1 e Hw Hu)
      as Hstop.
    assert (Part000.runWorker env m
            = (inl e, after_fetch m2
                        (fst (generate_url_request env (Part000.prompt_of title)))
                        (snd (generate_url_request env (Part000.prompt_of title))) r w1))
      as Hrun.
    { rewrite Part000_runWorker_eq. apply orchestrate_throws_iff.
      eapply raised_by_callOpenAIImage; eassumption. }
    split; [exact Hrun|]. rewrite Hrun.
    apply (seq_cont [posts_request env (base_of env)]
             [generate_url_request env (Part000.prompt_of title)] m post m2 m2).
    + exact (seq_reaches_generation (Part000.getLatestPost env) Part000.title_of
               (posts_request env (base_of env))
               (Part000_getLatestPost_sequenced env)
               (fun post m0 => f_equal snd (Part000_title_of_run post m0))
               m post title postId m2 R2).
    + reflexivity.
    + apply seq_one. reflexivity.
Qed.

(** *** The scenario of the specification: post 42, media 900 *)

Lemma run_answers_with_the_ids_witness :
  let req := mkRequest "/run?secret=s3cret" in
  let body := @JSON_stringify Mock.rt (run_result (VNum 42) (VNum 900)) in
  (exists m',
     @IndexJs.server Mock.rt Mock.scripted Mock.env req
       (Mock.arriving [Mock.ok200 "POSTS"; Mock.ok200 "B64"; Mock.ok200 "MEDIA";
                       Mock.ok200 "POST"] 1700)
     = (inr tt, answered m' 200 [("Content-Type", "application/json")] body))
  /\ (exists m',
        @Part000.server Mock.rt Mock.scripted Mock.env req
          (Mock.arriving [Mock.ok200 "POSTS"; Mock.ok200 "URL"; Mock.ok200 "PNG";
                          Mock.ok200 "MEDIA"; Mock.ok200 "POST"] 1700)
        = (inr tt, answered m' 200 [("Content-Type", "application/json")] body)).
Proof.
  intros req body. split.
  - eexists.
    refine (proj1 (@run_answers_with_the_ids Mock.rt Mock.scripted Mock.env req
                     (mkURL "/run" [("secret", "s3cret")])
                     (Mock.arriving [Mock.ok200 "POSTS"; Mock.ok200 "B64";
                                     Mock.ok200 "MEDIA"; Mock.ok200 "POST"] 1700)
                     eq_refl eq_refl eq_refl eq_refl)
              (VNum 42) (VNum 900) _ _).
    unfold IndexJs_all_succeed, all_succeed, reaches_featured, reaches_upload,
      reaches_generation.
    eexists. eexists. eexists. split; [|split].
    + eexists. eexists. eexists. eexists. split; [|split].
      * eexists. eexists. eexists. eexists. split; [|split; [|split]].
        -- eexists. eexists. split; [lazy; reflexivity|].
           split; [lazy; reflexivity|]. split; reflexivity.
        -- lazy. reflexivity.
        -- reflexivity.
        -- reflexivity.
      * lazy. reflexivity.
      * reflexivity.
    + lazy. reflexivity.
    + reflexivity.
  - eexists.
    refine (proj2 (@run_answers_with_the_ids Mock.rt Mock.scripted Mock.env req
                     (mkURL "/run" [("secret", "s3cret")])
                     (Mock.arriving [Mock.ok200 "POSTS"; Mock.ok200 "URL"; Mock.ok200 "PNG";
                                     Mock.ok200 "MEDIA"; Mock.ok200 "POST"] 1700)
                     eq_refl eq_refl eq_refl eq_refl)
              (VNum 42) (VNum 900) _ _).
    unfold Part000_all_succeed, all_succeed, reaches_featured, reaches_upload,
      reaches_generation.
    eexists. eexists. eexists. split; [|split].
    + eexists. eexists. eexists. eexists. split; [|split].
      * eexists. eexists. eexists. eexists. split; [|split; [|split]].
        -- eexists. eexists. split; [lazy; reflexivity|].
           split; [lazy; reflexivity|]. split; reflexivity.
        -- lazy. reflexivity.
        -- reflexivity.
        -- reflexivity.
      * lazy. reflexivity.
      * reflexivity.
    + lazy. reflexivity.
    + reflexivity.
Defined.

Lemma run_result_is_ok_witness :
  let m1 := Mock.arriving [Mock.ok200 "POSTS"; Mock.ok200 "B64"; Mock.ok200 "MEDIA";
                           Mock.ok200 "POST"] 1700 in
  let m2 := Mock.arriving [Mock.ok200 "POSTS"; Mock.ok200 "URL"; Mock.ok200 "PNG";
                           Mock.ok200 "MEDIA"; Mock.ok200 "POST"] 1700 in
  (exists r m',
     @IndexJs.runWorker Mock.rt Mock.scripted Mock.env m1 = (inr r, m')
     /\ get_prop r "ok" = inr (VBool true))
  /\ (exists r m',
        @Part000.runWorker Mock.rt Mock.scripted Mock.env m2 = (inr r, m')
        /\ get_prop r "ok" = inr (VBool true)).
Proof.
  intros m1 m2. split.
  - eexists. eexists. split; [lazy; reflexivity|].
    eapply (@run_result_is_ok Mock.rt Mock.scripted Mock.env m1). left. lazy. reflexivity.
  - eexists. eexists. split; [lazy; reflexivity|].
    eapply (@run_result_is_ok Mock.rt Mock.scripted Mock.env m2). right. lazy. reflexivity.
Defined.

(** *** The image API answers 500 *)

Lemma errors_surface_as_500_witness :
  let req := mkRequest "/run?secret=s3cret" in
  let script := [Mock.ok200 "POSTS"; inr (Mock.response Mock.docs 500 "overloaded");
                 Mock.ok200 "MEDIA"; Mock.ok200 "POST"] in
  (exists m',
     @IndexJs.server Mock.rt Mock.scripted Mock.env req (Mock.arriving script 1700)
       = (inr tt, answered m' 500 [] "OpenAI error 500: overloaded")
     /\ List.length (exchanges m') = 2%nat)
  /\ (exists m',
        @Part000.server Mock.rt Mock.scripted Mock.env req (Mock.arriving script 1700)
          = (inr tt, answered m' 500 [] "OpenAI error 500: overloaded")
        /\ List.length (exchanges m') = 2%nat).
Proof.
  intros req script. split.
  - eexists. split.
    + refine (proj1 (proj2 (@errors_surface_as_500 Mock.rt Mock.scripted Mock.env req
                              (mkURL "/run" [("secret", "s3cret")])
                              (Mock.arriving script 1700)
                              (Error "OpenAI error 500: overloaded") _
                              eq_refl eq_refl eq_refl)) _).
      eapply raised_by_callOpenAIImage.
      * eexists. eexists. split; [lazy; reflexivity|]. split; [lazy; reflexivity|].
        split; reflexivity.
      * lazy. reflexivity.
    + lazy. reflexivity.
  - eexists. split.
    + refine (proj2 (proj2 (proj2 (@errors_surface_as_500 Mock.rt Mock.scripted Mock.env req
                              (mkURL "/run" [("secret", "s3cret")])
                              (Mock.arriving script 1700)
                              (Error "OpenAI error 500: overloaded") _
                              eq_refl eq_refl eq_refl))) _).
      eapply raised_by_callOpenAIImage.
      * eexists. eexists. split; [lazy; reflexivity|]. split; [lazy; reflexivity|].
        split; reflexivity.
      * lazy. reflexivity.
    + lazy. reflexivity.
Defined.

(** With the image API answering 500, the run stops after two exchanges:
    the media and post endpoints are never called. *)
Example generation_failure_stops_the_run :
  let script := [Mock.ok200 "POSTS"; inr (Mock.response Mock.docs 500 "overloaded");
                 Mock.ok200 "MEDIA"; Mock.ok200 "POST"] in
  map ex_input
    (exchanges (snd (@Part000.runWorker Mock.rt Mock.scripted Mock.env
                       (Mock.arriving script 1700))))
  = [VStr "https://blog.example/wp-json/wp/v2/posts?per_page=1&orderby=date&order=desc";
     VStr "https://api.openai.com/v1/images/generations"]
  /\ fst (ext (snd (@Part000.runWorker Mock.rt Mock.scripted Mock.env
                      (Mock.arriving script 1700))))
     = [Mock.ok200 "MEDIA"; Mock.ok200 "POST"].
Proof. split; reflexivity. Qed.

(** When the featured-image update fails after a successful upload, the
    run ends there: five exchanges in [src/unnamed/part_000], the last one
    the failed update, and nothing after it. *)
Example featured_failure_leaves_the_media :
  let script := [Mock.ok200 "POSTS"; Mock.ok200 "URL"; Mock.ok200 "PNG"; Mock.ok200 "MEDIA";
                 inr (Mock.response Mock.docs 403 "forbidden"); Mock.ok200 "POST"] in
  let out := @Part000.runWorker Mock.rt Mock.scripted Mock.env (Mock.arriving script 1700) in
  fst out = inl (Error "WP API POST /wp-json/wp/v2/posts/42 403: forbidden")
  /\ List.length (exchanges (snd out)) = 5%nat
  /\ fst (ext (snd out)) = [Mock.ok200 "POST"].
Proof. repeat split; reflexivity. Qed.

Lemma pipeline_is_strictly_sequenced_witness :
  let script := [Mock.ok200 "POSTS"; inr (Mock.response Mock.docs 500 "overloaded");
                 Mock.ok200 "MEDIA"; Mock.ok200 "POST"] in
  let m := Mock.arriving script 1700 in
  let empty := Mock.arriving [Mock.ok200 "EMPTY"; Mock.ok200 "B64"; Mock.ok200 "MEDIA";
                              Mock.ok200 "POST"] 1700 in
  (exists xs,
     exchanges (snd (@IndexJs.runWorker Mock.rt Mock.scripted Mock.env m))
       = (exchanges m ++ xs)%list
     /\ (List.length xs <= 2)%nat)
  /\ (exists xs,
        exchanges (snd (@Part000.runWorker Mock.rt Mock.scripted Mock.env m))
          = (exchanges m ++ xs)%list
        /\ (List.length xs <= 3)%nat)
  /\ (exists xs,
        fst (@IndexJs.runWorker Mock.rt Mock.scripted Mock.env empty)
          = inl (Error "No posts found")
        /\ exchanges (snd (@IndexJs.runWorker Mock.rt Mock.scripted Mock.env empty))
           = (exchanges empty ++ xs)%list
        /\ (List.length xs <= 1)%nat).
Proof.
  intros script m empty.
  destruct (@pipeline_is_strictly_sequenced Mock.rt Mock.scripted Mock.env m)
    as (_ & _ & HI & HP & _).
  destruct (@pipeline_is_strictly_sequenced Mock.rt Mock.scripted Mock.env empty)
    as (_ & _ & HE & _).
  split; [|split].
  - edestruct (HI AtGeneration)
      as (_ & prompt & image & filename & postId & mediaId & xs & Hx & (rest & Hp) & _).
    + eexists. eexists. eexists. eexists. split.
      * eexists. eexists. split; [lazy; reflexivity|]. split; [lazy; reflexivity|].
        split; reflexivity.
      * lazy. reflexivity.
    + exists xs. split; [exact Hx|].
      apply (f_equal (@List.length request)) in Hp.
      rewrite length_app, length_map in Hp. cbn in Hp. lia.
  - edestruct (HP AtGeneration)
      as (_ & prompt & imageUrl & image & filename & postId & mediaId & xs & Hx
          & (rest & Hp) & _).
    + eexists. eexists. eexists. eexists. split.
      * eexists. eexists. split; [lazy; reflexivity|]. split; [lazy; reflexivity|].
        split; reflexivity.
      * lazy. reflexivity.
    + exists xs. split; [exact Hx|].
      apply (f_equal (@List.length request)) in Hp.
      rewrite length_app, length_map in Hp. cbn in Hp. lia.
  - edestruct (HE AtPosts)
      as (Hrun & prompt & image & filename & postId & mediaId & xs & Hx & (rest & Hp) & _).
    + lazy. reflexivity.
    + exists xs. split; [rewrite Hrun; reflexivity|]. split; [exact Hx|].
      apply (f_equal (@List.length request)) in Hp.
      rewrite length_app, length_map in Hp. cbn in Hp. lia.
Defined.

(** ** Where [src/index.js] is laxer than [src/unnamed/part_000] *)

(** C4, as [src/index.js] has it.  [getLatestPost] tests [!posts.length]
    where [src/unnamed/part_000] tests
    [!Array.isArray(posts) || posts.length === 0]: a parsed body that is
    not an array is not always refused.  A non-empty string is accepted
    and its first character returned as the post; an object with a truthy
    [length] is accepted and its property [0] returned; [null] throws a
    [TypeError] rather than [No posts found].  ([Part000_getLatestPost_spec]
    is the property for [src/unnamed/part_000].) *)
Theorem IndexJs_getLatestPost_accepts_non_arrays {RT : Runtime} {W : World}
    env m posts m1 :
  IndexJs.wpApiJson env "GET" posts_endpoint VNull m = (inr posts, m1) ->
  Array_isArray posts = false ->
  (forall c s, posts = VStr (String c s) ->
     IndexJs.getLatestPost env m = (inr (VStr (String c "")), m1))
  /\ (forall fields, posts = VObj fields -> to_boolean (lookup "length" fields) = true ->
        IndexJs.getLatestPost env m = (inr (lookup "0" fields), m1))
  /\ (posts = VNull ->
        IndexJs.getLatestPost env m
          = (inl (TypeError "Cannot read properties of null (reading 'length')"), m1))
  /\ Part000.getLatestPost env m = (inl (Error "No posts found"), m1).
Proof.
  intros H Hna. rewrite (IndexJs_getLatestPost_after env posts m m1 H).
  split; [|split; [|split]].
  - intros c s ->. reflexivity.
  - intros fields -> Hlen. unfold IndexJs_latest, and_then. cbn [get_prop].
    rewrite Hlen. reflexivity.
  - intros ->. reflexivity.
  - rewrite <- wpApiJson_same in H.
    apply (proj1 (Part000_getLatestPost_spec env posts m m1 H)). left. exact Hna.
Qed.

Lemma IndexJs_getLatestPost_accepts_non_arrays_witness :
  let m := Mock.arriving [Mock.ok200 "STRING"] 1700 in
  fst (@IndexJs.getLatestPost Mock.rt Mock.scripted Mock.env m) = inr (VStr "a")
  /\ fst (@Part000.getLatestPost Mock.rt Mock.scripted Mock.env m)
     = inl (Error "No posts found").
Proof.
  intros m.
  destruct (@IndexJs_getLatestPost_accepts_non_arrays Mock.rt Mock.scripted Mock.env m
              (VStr "abc")
              (after_fetch m
                 (fst (@posts_request Mock.rt Mock.env "https://blog.example"))
                 (snd (@posts_request Mock.rt Mock.env "https://blog.example"))
                 (Mock.ok200 "STRING") ([], 1700))
              eq_refl eq_refl) as (Hs & _ & _ & Hp).
  split.
  - rewrite (Hs "a"%char "bc" eq_refl). reflexivity.
  - rewrite Hp. reflexivity.
Defined.

(** C5, as [src/index.js] has it.  [uploadImageToWP] returns [data.id]
    without the test [if (!data.id) throw ...] that
    [src/unnamed/part_000] makes: for a successful response whose parsed
    body is an object without an [id], it returns [undefined] where
    [src/unnamed/part_000] throws [Media upload missing id].
    ([Part000_upload_outcome_spec] is the property for
    [src/unnamed/part_000].) *)
Theorem IndexJs_uploadImageToWP_returns_undefined {RT : Runtime} {W : World}
    env image filename site m resp w' txt fields :
  let rq := upload_request env (strip_trailing_slashes site) image filename in
  env_WP_SITE_URL env = Some site ->
  world_fetch (fst rq) (snd rq) (ext m) = (inr resp, w') ->
  ok resp = true ->
  text resp = inr txt ->
  JSON_parse txt = inr (VObj fields) ->
  lookup "id" fields = VUndefined ->
  IndexJs.uploadImageToWP env image filename m
    = (inr VUndefined, after_fetch m (fst rq) (snd rq) (inr resp) w')
  /\ Part000.uploadImageToWP env image filename m
     = (inl (Error "Media upload missing id"), after_fetch m (fst rq) (snd rq) (inr resp) w').
Proof.
  intros rq Hs Hw Hok Ht Hj Hid. split.
  - rewrite (IndexJs_uploadImageToWP_run env image filename site m _ w' Hs Hw).
    unfold IndexJs_upload_outcome, text_then_parse, and_then.
    rewrite Ht, Hok, Hj. cbn [get_prop]. rewrite Hid. reflexivity.
  - rewrite (Part000_uploadImageToWP_run env image filename site m _ w' Hs Hw).
    unfold Part000_upload_outcome, text_then_parse, and_then.
    rewrite Ht, Hok, Hj. cbn [get_prop]. rewrite Hid. reflexivity.
Qed.

Lemma IndexJs_uploadImageToWP_returns_undefined_witness :
  let m := Mock.arriving [Mock.ok200 "NOID"] 1700 in
  fst (@IndexJs.uploadImageToWP Mock.rt Mock.scripted Mock.env [] "ai-taxi-1700.png" m)
    = inr VUndefined
  /\ fst (@Part000.uploadImageToWP Mock.rt Mock.scripted Mock.env [] "ai-taxi-1700.png" m)
     = inl (Error "Media upload missing id").
Proof.
  intros m.
  destruct (@IndexJs_uploadImageToWP_returns_undefined Mock.rt Mock.scripted Mock.env
              [] "ai-taxi-1700.png" "https://blog.example/" m
              (Mock.response Mock.docs 200 "NOID") ([], 1700) "NOID" []
              eq_refl eq_refl eq_refl eq_refl eq_refl eq_refl) as [Hi Hp].
  split.
  - rewrite Hi. reflexivity.
  - rewrite Hp. reflexivity.
Defined.

(** The title expression of [src/unnamed/part_000] does what is asked of
    it: the placeholder for a post without a [title], or whose
    [title.rendered] is absent or empty, and the title itself otherwise;
    the prompt carries that text between quotes. *)
Lemma Part000_title_substitution fields :
  (lookup "title" fields = VUndefined ->
     Part000_title (VObj fields) = inr (VStr "(no title)"))
  /\ (forall tf, lookup "title" fields = VObj tf ->
        lookup "rendered" tf = VUndefined \/ lookup "rendered" tf = VStr "" ->
        Part000_title (VObj fields) = inr (VStr "(no title)"))
  /\ (forall tf s, lookup "title" fields = VObj tf ->
        lookup "rendered" tf = VStr s -> s <> "" ->
        Part000_title (VObj fields) = inr (VStr s))
  /\ (forall s, Part000.prompt_of (VStr s)
        = "Photo-realistic daytime image for a blog post titled " ++ dquote ++ s ++ dquote
            ++ ". Show a modern private hire (PHV) saloon (Toyota Prius, Skoda Octavia, Kia Ceed), right-hand drive, on a real Manchester UK street. No text, no people, no logos.").
Proof.
  unfold Part000_title, and_then. cbn [get_prop]. split; [|split; [|split]].
  - intros ->. reflexivity.
  - intros tf -> [Hr|Hr]; cbn; rewrite Hr; reflexivity.
  - intros tf s -> Hr Hs. cbn. rewrite Hr. cbn.
    destruct (String.eqb_spec s ""); [contradiction | reflexivity].
  - intros s. reflexivity.
Qed.

(** C6, as [src/index.js] has it.  The title is read as
    [post.title.rendered || '(no title)'], without the guard
    [post.title && ...] of [src/unnamed/part_000]: for a post without a
    [title] field no placeholder is substituted, reading [rendered]
    throws a [TypeError] and no prompt is built, where
    [src/unnamed/part_000] yields the placeholder.  An empty or absent
    [rendered] inside an existing [title] does give the placeholder in
    both files.  ([Part000_title_substitution] is the property for
    [src/unnamed/part_000].) *)
Theorem IndexJs_title_of_needs_a_title_field {W : World} fields (m : machine) :
  lookup "title" fields = VUndefined ->
  IndexJs.title_of (VObj fields) m
    = (inl (TypeError "Cannot read properties of undefined (reading 'rendered')"), m)
  /\ Part000.title_of (VObj fields) m = (inr (VStr "(no title)"), m).
Proof.
  intros Ht. rewrite IndexJs_title_of_run, Part000_title_of_run.
  unfold IndexJs_title, Part000_title, and_then. cbn [get_prop]. rewrite Ht.
  split; reflexivity.
Qed.

Lemma IndexJs_title_of_needs_a_title_field_witness :
  let m := Mock.arriving [] 1700 in
  @IndexJs.title_of Mock.scripted (VObj [("id", VNum 42)]) m
    = (inl (TypeError "Cannot read properties of undefined (reading 'rendered')"), m)
  /\ @Part000.title_of Mock.scripted (VObj [("id", VNum 42)]) m
     = (inr (VStr "(no title)"), m).
Proof.
  intros m.
  exact (@IndexJs_title_of_needs_a_title_field Mock.scripted [("id", VNum 42)] m eq_refl).
Defined.

(** The same post through the listener: [src/index.js] answers 500 after
    the single posts exchange, [src/unnamed/part_000] completes the run. *)
Example untitled_post_through_the_listener :
  let req := mkRequest "/run?secret=s3cret" in
  let out1 := @IndexJs.server Mock.rt Mock.scripted Mock.env req
                (Mock.arriving [Mock.ok200 "UNTITLED"; Mock.ok200 "B64"; Mock.ok200 "MEDIA";
                                Mock.ok200 "POST"] 1700) in
  let out2 := @Part000.server Mock.rt Mock.scripted Mock.env req
                (Mock.arriving [Mock.ok200 "UNTITLED"; Mock.ok200 "URL"; Mock.ok200 "PNG";
                                Mock.ok200 "MEDIA"; Mock.ok200 "POST"] 1700) in
  res (snd out1)
    = mkServerResponse 500 []
        (Some "Cannot read properties of undefined (reading 'rendered')")
  /\ List.length (exchanges (snd out1)) = 1%nat
  /\ statusCode (res (snd out2)) = 200
  /\ List.length (exchanges (snd out2)) = 5%nat.
Proof. repeat split; reflexivity. Qed.

(** An empty rendered title gives the placeholder in both files. *)
Example blank_title_gets_the_placeholder (W : World) (m : machine) :
  let post := VObj [("id", VNum 42); ("title", VObj [("rendered", VStr "")])] in
  IndexJs.title_of post m = (inr (VStr "(no title)"), m)
  /\ Part000.title_of post m = (inr (VStr "(no title)"), m).
Proof. split; reflexivity. Qed.

(** * Further properties of the code *)

(** ** The site URL and the file name *)

Lemma strip_trailing_slashes_cons c s :
  strip_trailing_slashes (String c s)
  = if (Ascii.eqb c "/" && (strip_trailing_slashes s =? "")%string)%bool
    then EmptyString else String c (strip_trailing_slashes s).
Proof. reflexivity. Qed.

Lemma append_slashes_assoc s k :
  (s ++ slashes (S k))%string = ((s ++ "/") ++ slashes k)%string.
Proof. induction s as [|c s IH]; cbn; [reflexivity | rewrite <- IH; reflexivity]. Qed.

(** X1. [WP_SITE_URL.replace(/\/+$/, '')] removes exactly the slashes at
    the end of the site URL: the URL is the result followed by slashes
    only, the result does not end with a slash, and a URL that does not
    end with a slash is left as it is. *)
Theorem strip_trailing_slashes_spec (s : string) :
  (exists k, s = (strip_trailing_slashes s ++ slashes k)%string)
  /\ last_char (strip_trailing_slashes s) <> Some "/"%char
  /\ (last_char s <> Some "/"%char -> strip_trailing_slashes s = s).
Proof.
  induction s as [|c s (( k & Hk) & Hlast & Hfix)].
  - split; [exists 0%nat; reflexivity|]. split; [discriminate | reflexivity].
  - rewrite strip_trailing_slashes_cons.
    destruct (Ascii.eqb_spec c "/") as [->|Hc]; cbn [andb].
    + destruct (String.eqb_spec (strip_trailing_slashes s) "") as [He|Hne].
      * split; [|split].
        -- exists (S k). rewrite He in Hk. cbn in Hk. cbn. rewrite <- Hk. reflexivity.
        -- discriminate.
        -- intros Hl. exfalso. apply Hl. rewrite He in Hk. cbn in Hk. rewrite Hk.
           clear. induction k as [|k IH]; [reflexivity|].
           cbn [slashes]. destruct k; [reflexivity | exact IH].
      * split; [|split].
        -- exists k. cbn. rewrite <- Hk. reflexivity.
        -- cbn. destruct (strip_trailing_slashes s); [contradiction | exact Hlast].
        -- intros Hl. f_equal. apply Hfix.
           cbn in Hl. destruct s; [discriminate | exact Hl].
    + split; [|split].
      * exists k. cbn. rewrite <- Hk. reflexivity.
      * cbn. destruct (strip_trailing_slashes s) eqn:E;
          [intros [= ->]; contradiction | exact Hlast].
      * intros Hl. f_equal. apply Hfix.
        cbn in Hl. destruct s; [discriminate | exact Hl].
Qed.

Lemma strip_trailing_slashes_app_slash s :
  strip_trailing_slashes (s ++ "/") = strip_trailing_slashes s.
Proof.
  induction s as [|c s IH]; [reflexivity|].
  cbn [append]. rewrite !strip_trailing_slashes_cons, IH. reflexivity.
Qed.

Lemma strip_trailing_slashes_app_slashes s k :
  strip_trailing_slashes (s ++ slashes k) = strip_trailing_slashes s.
Proof.
  revert s. induction k as [|k IH]; intros s.
  - cbn [slashes].
    replace (s ++ "")%string with s; [reflexivity|].
    induction s as [|c s IHs]; cbn; [reflexivity | rewrite <- IHs; reflexivity].
  - rewrite append_slashes_assoc, IH. apply strip_trailing_slashes_app_slash.
Qed.

(** X2. Slashes at the end of [WP_SITE_URL] make no difference: the
    listener of either file behaves the same, request for request, when
    the site URL is given with any number of trailing slashes. *)
Theorem trailing_slashes_on_the_site_url_are_ignored {RT : Runtime} {W : World}
    (env : Env) (site : string) (k : nat) :
  IndexJs.server (with_site env (site ++ slashes k)) = IndexJs.server (with_site env site)
  /\ Part000.server (with_site env (site ++ slashes k)) = Part000.server (with_site env site)
  /\ base_of (with_site env (site ++ slashes k)) = strip_trailing_slashes site.
Proof.
  split; [|split].
  - unfold IndexJs.server, IndexJs.runWorker, IndexJs.getLatestPost,
      IndexJs.setFeaturedImage, IndexJs.uploadImageToWP, IndexJs.wpApiJson,
      IndexJs.callOpenAIImage, site_base, with_site.
    cbn [env_WP_SITE_URL]. rewrite strip_trailing_slashes_app_slashes. reflexivity.
  - unfold Part000.server, Part000.runWorker, Part000.getLatestPost,
      Part000.setFeaturedImage, Part000.uploadImageToWP, Part000.wpApiJson,
      Part000.callOpenAIImage, site_base, with_site.
    cbn [env_WP_SITE_URL]. rewrite strip_trailing_slashes_app_slashes. reflexivity.
  - unfold base_of, with_site. cbn [env_WP_SITE_URL].
    apply strip_trailing_slashes_app_slashes.
Qed.

Lemma append_length x s : String.length (x ++ s) = (String.length x + String.length s)%nat.
Proof. induction x as [|c x IH]; cbn; [reflexivity | rewrite IH; reflexivity]. Qed.

Lemma append_inj_l s x y : (s ++ x)%string = (s ++ y)%string -> x = y.
Proof. induction s as [|c s IH]; cbn; [trivial | intros [= H]; exact (IH H)]. Qed.

Lemma append_inj_r x y s : (x ++ s)%string = (y ++ s)%string -> x = y.
Proof.
  revert y. induction x as [|c x IH]; intros [|d y] H; cbn in H.
  - reflexivity.
  - apply (f_equal String.length) in H. cbn in H. rewrite append_length in H. lia.
  - apply (f_equal String.length) in H. cbn in H. rewrite append_length in H. lia.
  - injection H as -> H. f_equal. exact (IH y H).
Qed.

(** The decimal text of a number reads back as that number. *)
Lemma string_of_Z_reads_back z :
  option_map Z.of_int (NilZero.int_of_string (string_of_Z z)) = Some z.
Proof.
  unfold string_of_Z. rewrite NilZero.isi.
  - cbn. rewrite DecimalZ.of_to. reflexivity.
  - destruct z; cbn; try discriminate. intros [= H].
    exact (DecimalPos.Unsigned.to_uint_nonnil _ H).
  - destruct z; cbn; try discriminate. intros [= H].
    exact (DecimalPos.Unsigned.to_uint_nonnil _ H).
Qed.

Lemma string_of_Z_inj a b : string_of_Z a = string_of_Z b -> a = b.
Proof.
  intros H. pose proof (string_of_Z_reads_back a) as Ha.
  rewrite H, string_of_Z_reads_back in Ha. congruence.
Qed.

(** File names built from different clock readings are different, and so
    are the upload requests that carry them in their
    [Content-Disposition] header. *)
Theorem filenames_differ_with_the_clock {RT : Runtime} env base image (a b : Z) :
  a <> b ->
  filename_at a <> filename_at b
  /\ upload_request env base image (filename_at a)
     <> upload_request env base image (filename_at b).
Proof.
  intros Hab.
  assert (filename_at a <> filename_at b) as Hf.
  { unfold filename_at. intros H. apply append_inj_l, append_inj_r in H.
    exact (Hab (string_of_Z_inj _ _ H)). }
  split; [exact Hf|].
  unfold upload_request, upload_init. intros [= H].
  apply append_inj_r, append_inj_r in H. exact (Hab (string_of_Z_inj _ _ H)).
Qed.

Lemma filenames_differ_with_the_clock_witness :
  filename_at 1700 = "ai-taxi-1700.png"
  /\ filename_at 1700 <> filename_at 1701.
Proof.
  split; [reflexivity|].
  apply (@filenames_differ_with_the_clock Mock.rt Mock.env "" [] 1700 1701). discriminate.
Defined.

(** ** The generic JSON call *)

(** X4. [wpApiJson] reads the body as text before anything else: for a
    response that is not successful it throws an error whose message
    carries the method, the endpoint, the status and the raw body text,
    whether or not that text is JSON; for a successful one it returns what
    [JSON.parse] gives for the text (or throws its error).  The function
    is the same in the two files. *)
Theorem wpApiJson_reads_text_first {RT : Runtime} {W : World}
    env method endpoint body site m resp w' txt :
  let input := VStr (strip_trailing_slashes site ++ endpoint) in
  let init := Some (wp_init env method
                      (if to_boolean body then BodyString (JSON_stringify body)
                       else BodyNull)) in
  let m1 := after_fetch m input init (inr resp) w' in
  env_WP_SITE_URL env = Some site ->
  world_fetch input init (ext m) = (inr resp, w') ->
  text resp = inr txt ->
  (ok resp = false ->
     IndexJs.wpApiJson env method endpoint body m
       = (inl (Error ("WP API " ++ method ++ " " ++ endpoint ++ " "
                        ++ string_of_Z (status resp) ++ ": " ++ txt)), m1))
  /\ (ok resp = true ->
        IndexJs.wpApiJson env method endpoint body m = (JSON_parse txt, m1))
  /\ Part000.wpApiJson env method endpoint body m
     = IndexJs.wpApiJson env method endpoint body m.
Proof.
  intros input init m1 Hs Hw Ht.
  pose proof (IndexJs_wpApiJson_run env method endpoint body site m _ w' Hs Hw) as H.
  unfold wp_outcome, text_then_parse, and_then, wp_complaint in H. rewrite Ht in H.
  split; [|split].
  - intros Hok. rewrite Hok in H. exact H.
  - intros Hok. rewrite Hok in H. exact H.
  - reflexivity.
Qed.

Lemma wpApiJson_reads_text_first_witness :
  let m := Mock.arriving [inr (Mock.response Mock.docs 404 "Not Found")] 1700 in
  fst (@IndexJs.wpApiJson Mock.rt Mock.scripted Mock.env "GET" "/wp-json/x" VNull m)
  = inl (Error "WP API GET /wp-json/x 404: Not Found").
Proof.
  intros m.
  destruct (@wpApiJson_reads_text_first Mock.rt Mock.scripted Mock.env "GET" "/wp-json/x"
              VNull "https://blog.example/" m (Mock.response Mock.docs 404 "Not Found")
              ([], 1700) "Not Found" eq_refl eq_refl eq_refl) as (H & _ & _).
  rewrite (H eq_refl). reflexivity.
Defined.

(** ** The listener on its other paths *)

(** X5. When [WP_SITE_URL] is not set, a run fails before any request is
    sent: [WP_SITE_URL.replace] throws, and the listener answers 500 with
    that [TypeError]'s message after the first log line, without a single
    [fetch]. *)
Theorem missing_site_url_fails_before_any_request {RT : Runtime} {W : World}
    env req u m :
  let e := TypeError "Cannot read properties of undefined (reading 'replace')" in
  env_WP_SITE_URL env = None ->
  URL_new (url req) = inr u ->
  pathname u = "/run" ->
  searchParams_get (searchParams u) "secret" = Some (WORKER_SECRET env) ->
  IndexJs.server env req m = (inr tt, answered (at_start m) 500 [] (message e))
  /\ Part000.server env req m
     = (inr tt, answered (error_logged (at_start m) e) 500 [] (message e))
  /\ exchanges (at_start m) = exchanges m
  /\ ext (at_start m) = ext m.
Proof.
  intros e Hs Hu Hp Hsec. split; [|split; [|split; reflexivity]].
  - rewrite (IndexJs_server_runs env req u m Hu Hp Hsec).
    assert (IndexJs.runWorker env m = (inl e, at_start m)) as ->; [|reflexivity].
    rewrite IndexJs_runWorker_eq. apply orchestrate_throws_iff.
    apply raised_by_getLatestPost. apply IndexJs_getLatestPost_unset. exact Hs.
  - rewrite (Part000_server_runs env req u m Hu Hp Hsec).
    assert (Part000.runWorker env m = (inl e, at_start m)) as ->; [|reflexivity].
    rewrite Part000_runWorker_eq. apply orchestrate_throws_iff.
    apply raised_by_getLatestPost. apply Part000_getLatestPost_unset. exact Hs.
Qed.

Lemma missing_site_url_fails_before_any_request_witness :
  let m := Mock.arriving [Mock.ok200 "POSTS"] 1700 in
  let out := @IndexJs.server Mock.rt Mock.scripted (without_site Mock.env)
               (mkRequest "/run?secret=s3cret") m in
  res (snd out)
    = mkServerResponse 500 [] (Some "Cannot read properties of undefined (reading 'replace')")
  /\ exchanges (snd out) = [].
Proof.
  intros m out.
  destruct (@missing_site_url_fails_before_any_request Mock.rt Mock.scripted
              (without_site Mock.env) (mkRequest "/run?secret=s3cret")
              (mkURL "/run" [("secret", "s3cret")]) m eq_refl eq_refl eq_refl eq_refl)
    as (H & _).
  unfold out. rewrite H. split; reflexivity.
Defined.

(** X6. A request target that [new URL] refuses is answered 500 with the
    message of that error: the constructor is called inside the [try], so
    its exception reaches the [catch] like any other, and nothing else
    happens. *)
Theorem unparsable_url_is_answered_500 {RT : Runtime} {W : World} env req e m :
  URL_new (url req) = inl e ->
  IndexJs.server env req m = (inr tt, answered m 500 [] (message e))
  /\ Part000.server env req m = (inr tt, answered (error_logged m e) 500 [] (message e)).
Proof.
  intros Hu. split.
  - unfold IndexJs.server. rewrite run_catch, run_bind. unfold lift at 1. rewrite Hu.
    unfold answered. rewrite app_nil_r. reflexivity.
  - unfold Part000.server. rewrite run_catch, run_bind. unfold lift at 1. rewrite Hu.
    unfold answered. cbn. rewrite app_nil_r. reflexivity.
Qed.

Lemma unparsable_url_is_answered_500_witness :
  let m := Mock.arriving [] 1700 in
  @IndexJs.server Mock.rt Mock.scripted Mock.env (mkRequest "http://[") m
  = (inr tt, answered m 500 [] "Invalid URL").
Proof.
  intros m.
  apply (@unparsable_url_is_answered_500 Mock.rt Mock.scripted Mock.env
           (mkRequest "http://[") (TypeError "Invalid URL") m).
  reflexivity.
Defined.

(** X7. The listener never lets an exception escape and always ends the
    response: whatever the request, the configuration and the answers of
    the world, it returns normally with a body written and the status
    200, 403 or 500 (on a response that started at 200). *)
Theorem listener_always_answers {RT : Runtime} {W : World} env req m :
  statusCode (res m) = 200 ->
  (exists m' data,
     IndexJs.server env req m = (inr tt, m')
     /\ sent_body (res m') = Some data
     /\ (statusCode (res m') = 200 \/ statusCode (res m') = 403
         \/ statusCode (res m') = 500))
  /\ (exists m' data,
        Part000.server env req m = (inr tt, m')
        /\ sent_body (res m') = Some data
        /\ (statusCode (res m') = 200 \/ statusCode (res m') = 403
            \/ statusCode (res m') = 500)).
Proof.
  intros H200. split.
  - unfold IndexJs.server. rewrite run_catch, run_bind. unfold lift at 1.
    destruct (URL_new (url req)) as [e|u].
    { eexists. eexists. split; [reflexivity|]. split; [reflexivity|]. right. right. reflexivity. }
    destruct (pathname u =? "/run")%string.
    2:{ eexists. eexists. split; [reflexivity|]. split; [reflexivity|]. left. exact H200. }
    destruct (strict_not_equal _ _).
    { eexists. eexists. split; [reflexivity|]. split; [reflexivity|]. right. left. reflexivity. }
    rewrite run_bind. pose proof (IndexJs_runWorker_keeps_res env m) as Hres.
    destruct (IndexJs.runWorker env m) as [[e|r] m1]; cbn [snd] in Hres.
    + eexists. eexists. split; [reflexivity|]. split; [reflexivity|]. right. right. reflexivity.
    + eexists. eexists. split; [reflexivity|]. split; [reflexivity|]. left.
      cbn. rewrite Hres. exact H200.
  - unfold Part000.server. rewrite run_catch, run_bind. unfold lift at 1.
    destruct (URL_new (url req)) as [e|u].
    { eexists. eexists. split; [reflexivity|]. split; [reflexivity|]. right. right. reflexivity. }
    destruct (pathname u =? "/run")%string.
    2:{ eexists. eexists. split; [reflexivity|]. split; [reflexivity|]. left. exact H200. }
    destruct (strict_not_equal _ _).
    { eexists. eexists. split; [reflexivity|]. split; [reflexivity|]. right. left. reflexivity. }
    rewrite run_bind. pose proof (Part000_runWorker_keeps_res env m) as Hres.
    destruct (Part000.runWorker env m) as [[e|r] m1]; cbn [snd] in Hres.
    + eexists. eexists. split; [reflexivity|]. split; [reflexivity|]. right. right. reflexivity.
    + eexists. eexists. split; [reflexivity|]. split; [reflexivity|]. left.
      cbn. rewrite Hres. exact H200.
Qed.

Lemma listener_always_answers_witness :
  exists m' data,
    @Part000.server Mock.rt Mock.scripted Mock.env (mkRequest "/run?secret=s3cret")
      (Mock.arriving [] 1700) = (inr tt, m')
    /\ sent_body (res m') = Some data.
Proof.
  destruct (@listener_always_answers Mock.rt Mock.scripted Mock.env
              (mkRequest "/run?secret=s3cret") (Mock.arriving [] 1700) eq_refl)
    as (_ & m' & data & H & Hb & _).
  exists m', data. split; assumption.
Defined.

(** X8. The configured secret is never empty: [WORKER_SECRET] falls back
    to ['changeme'] when the variable is unset or empty.  So a request with
    an empty [secret] parameter is refused under every configuration. *)
Theorem empty_secret_is_always_refused {RT : Runtime} {W : World} env req u m :
  URL_new (url req) = inr u ->
  pathname u = "/run" ->
  searchParams_get (searchParams u) "secret" = Some "" ->
  WORKER_SECRET env <> ""
  /\ (env_WORKER_SECRET env = None \/ env_WORKER_SECRET env = Some "" ->
        WORKER_SECRET env = "changeme")
  /\ IndexJs.server env req m = (inr tt, answered m 403 [] "Forbidden: bad secret")
  /\ Part000.server env req m = (inr tt, answered m 403 [] "Forbidden: bad secret").
Proof.
  intros Hu Hp Hs.
  assert (WORKER_SECRET env <> "") as Hne.
  { unfold WORKER_SECRET. destruct (env_WORKER_SECRET env) as [s|]; [|discriminate].
    destruct (String.eqb_spec s ""); [discriminate | assumption]. }
  assert (strict_not_equal (Some "") (WORKER_SECRET env) = true) as Hbad.
  { apply strict_not_equal_true. intros [= H]. exact (Hne (eq_sym H)). }
  split; [exact Hne|]. split; [|split].
  - unfold WORKER_SECRET. intros [-> | ->]; reflexivity.
  - unfold IndexJs.server. rewrite run_catch, run_bind. unfold lift at 1.
    rewrite Hu, Hp, Hs, Hbad. unfold answered. rewrite app_nil_r. reflexivity.
  - unfold Part000.server. rewrite run_catch, run_bind. unfold lift at 1.
    rewrite Hu, Hp, Hs, Hbad. unfold answered. rewrite app_nil_r. reflexivity.
Qed.

Lemma empty_secret_is_always_refused_witness :
  let m := Mock.arriving [Mock.ok200 "POSTS"] 1700 in
  @IndexJs.server Mock.rt Mock.scripted (mkEnv None None None None None)
    (mkRequest "/run?secret=") m
  = (inr tt, answered m 403 [] "Forbidden: bad secret").
Proof.
  intros m.
  apply (@empty_secret_is_always_refused Mock.rt Mock.scripted (mkEnv None None None None None)
           (mkRequest "/run?secret=") (mkURL "/run" [("secret", "")]) m);
    reflexivity.
Defined.

(** ** The two files side by side *)

(** X9. On an array, which is what the posts endpoint returns, the two
    [getLatestPost] agree: the empty array throws [No posts found] and any
    other array gives its first element. *)
Theorem getLatestPost_files_agree_on_arrays {RT : Runtime} {W : World} env m xs m1 :
  IndexJs.wpApiJson env "GET" posts_endpoint VNull m = (inr (VArr xs), m1) ->
  IndexJs.getLatestPost env m = Part000.getLatestPost env m
  /\ IndexJs.getLatestPost env m
     = (match xs with
        | [] => inl (Error "No posts found")
        | post :: _ => inr post
        end, m1).
Proof.
  intros H.
  rewrite (IndexJs_getLatestPost_after env _ m m1 H).
  rewrite <- wpApiJson_same in H. rewrite (Part000_getLatestPost_after env _ m m1 H).
  assert (IndexJs_latest (VArr xs) = Part000_latest (VArr xs)) as E.
  { destruct xs as [|post rest]; reflexivity. }
  rewrite E. split; [reflexivity|]. destruct xs; reflexivity.
Qed.

Lemma getLatestPost_files_agree_on_arrays_witness :
  let m := Mock.arriving [Mock.ok200 "EMPTY"] 1700 in
  fst (@IndexJs.getLatestPost Mock.rt Mock.scripted Mock.env m)
  = inl (Error "No posts found").
Proof.
  intros m.
  destruct (@getLatestPost_files_agree_on_arrays Mock.rt Mock.scripted Mock.env m []
              (after_fetch m
                 (fst (@posts_request Mock.rt Mock.env "https://blog.example"))
                 (snd (@posts_request Mock.rt Mock.env "https://blog.example"))
                 (Mock.ok200 "EMPTY") ([], 1700))
              eq_refl) as [_ H].
  rewrite H. reflexivity.
Defined.

(** X10. [uploadImageToWP] of [src/unnamed/part_000] never returns a falsy
    identifier (no [undefined], [null], [0] or empty string), and whenever
    it returns, [src/index.js] returns the same identifier in the same
    state. *)
Theorem uploaded_id_is_truthy {RT : Runtime} {W : World} env image filename m id m' :
  Part000.uploadImageToWP env image filename m = (inr id, m') ->
  to_boolean id = true
  /\ IndexJs.uploadImageToWP env image filename m = (inr id, m').
Proof.
  intros H. destruct (env_WP_SITE_URL env) as [site|] eqn:Hs.
  2:{ rewrite (Part000_uploadImageToWP_unset env _ _ _ Hs) in H. discriminate. }
  destruct (world_fetch
              (fst (upload_request env (strip_trailing_slashes site) image filename))
              (snd (upload_request env (strip_trailing_slashes site) image filename))
              (ext m)) as [r w'] eqn:Hw.
  rewrite (Part000_uploadImageToWP_run env image filename site m r w' Hs Hw) in H.
  rewrite (IndexJs_uploadImageToWP_run env image filename site m r w' Hs Hw).
  injection H as Ho <-. revert Ho.
  unfold Part000_upload_outcome, IndexJs_upload_outcome, and_then.
  destruct (text_then_parse media_complaint r) as [e|data]; [discriminate|].
  destruct (get_prop data "id") as [e|v]; [discriminate|].
  destruct (to_boolean v) eqn:Tv; [|discriminate].
  intros [= <-]. split; [exact Tv | reflexivity].
Qed.

Lemma uploaded_id_is_truthy_witness :
  let m := Mock.arriving [Mock.ok200 "MEDIA"] 1700 in
  fst (@IndexJs.uploadImageToWP Mock.rt Mock.scripted Mock.env [] "ai-taxi-1700.png" m)
  = inr (VNum 900).
Proof.
  intros m.
  destruct (@uploaded_id_is_truthy Mock.rt Mock.scripted Mock.env [] "ai-taxi-1700.png" m
              (VNum 900)
              (after_fetch m
                 (fst (@upload_request Mock.rt Mock.env "https://blog.example" []
                         "ai-taxi-1700.png"))
                 (snd (@upload_request Mock.rt Mock.env "https://blog.example" []
                         "ai-taxi-1700.png"))
                 (Mock.ok200 "MEDIA") ([], 1700))
              eq_refl) as [_ H].
  rewrite H. reflexivity.
Defined.

(** The title value is truthy in either file, and reading it changes no
    state; whenever [src/index.js] finds a title, [src/unnamed/part_000]
    finds the same. *)
Theorem title_is_never_empty {W : World} post title (m m' : machine) :
  (IndexJs.title_of post m = (inr title, m') ->
     to_boolean title = true /\ m' = m
     /\ Part000.title_of post m = (inr title, m))
  /\ (Part000.title_of post m = (inr title, m') ->
        to_boolean title = true /\ m' = m).
Proof.
  rewrite IndexJs_title_of_run, Part000_title_of_run.
  unfold IndexJs_title, Part000_title, and_then. split.
  - destruct (get_prop post "title") as [e|t]; [discriminate|].
    destruct (get_prop t "rendered") as [e|r] eqn:Hr; [discriminate|].
    intros [= <- <-].
    assert (to_boolean (if to_boolean r then r else VStr "(no title)") = true) as Ht.
    { destruct (to_boolean r) eqn:Tr; [exact Tr | reflexivity]. }
    split; [exact Ht|]. split; [reflexivity|].
    destruct (to_boolean t) eqn:Tt; [reflexivity|].
    (* a falsy title object has no [rendered] *)
    destruct t; cbn in Tt; try discriminate; cbn in Hr.
    + injection Hr as <-. reflexivity.
    + injection Hr as <-. reflexivity.
    + destruct ("rendered" =? "length")%string; injection Hr as <-; reflexivity.
  - destruct (get_prop post "title") as [e|t]; [discriminate|].
    destruct (to_boolean t).
    + destruct (get_prop t "rendered") as [e|r]; [discriminate|].
      intros [= <- <-]. split; [|reflexivity].
      destruct (to_boolean r) eqn:Tr; [exact Tr | reflexivity].
    + intros [= <- <-]. split; reflexivity.
Qed.

Lemma title_is_never_empty_witness :
  let post := VObj [("id", VNum 42); ("title", VObj [("rendered", VStr "")])] in
  let m := Mock.arriving [] 1700 in
  @Part000.title_of Mock.scripted post m = (inr (VStr "(no title)"), m).
Proof.
  intros post m.
  exact (proj2 (proj2 (proj1 (@title_is_never_empty Mock.scripted post (VStr "(no title)")
                                m m) eq_refl))).
Defined.

(** ** The image clients *)

(** X12. Both [callOpenAIImage] answer a generation response that is not
    successful in the same way: they throw
    [OpenAI error <status>: <body text>] after that single exchange; the
    URL variant does not go on to download anything. *)
Theorem openai_error_carries_status_and_body {RT : Runtime} {W : World}
    env prompt m resp w' t :
  ok resp = false ->
  text resp = inr t ->
  let e := Error ("OpenAI error " ++ string_of_Z (status resp) ++ ": " ++ t) in
  (world_fetch (fst (generate_b64_request env prompt))
     (snd (generate_b64_request env prompt)) (ext m) = (inr resp, w') ->
   IndexJs.callOpenAIImage env prompt m
     = (inl e, after_fetch m (fst (generate_b64_request env prompt))
                 (snd (generate_b64_request env prompt)) (inr resp) w'))
  /\ (world_fetch (fst (generate_url_request env prompt))
        (snd (generate_url_request env prompt)) (ext m) = (inr resp, w') ->
      Part000.callOpenAIImage env prompt m
        = (inl e, after_fetch m (fst (generate_url_request env prompt))
                    (snd (generate_url_request env prompt)) (inr resp) w')).
Proof.
  intros Hok Ht e. split; intros Hw.
  - rewrite (IndexJs_callOpenAIImage_run env prompt m _ w' Hw).
    unfold IndexJs_image_outcome, openai_checked, and_then. rewrite Hok, Ht. reflexivity.
  - apply Part000_callOpenAIImage_stops; [exact Hw|].
    unfold Part000_image_url, openai_checked, and_then. rewrite Hok, Ht. reflexivity.
Qed.

Lemma openai_error_carries_status_and_body_witness :
  let m := Mock.arriving [inr (Mock.response Mock.docs 429 "slow down"); Mock.ok200 "PNG"]
             1700 in
  let out := @Part000.callOpenAIImage Mock.rt Mock.scripted Mock.env "a cab" m in
  fst out = inl (Error "OpenAI error 429: slow down")
  /\ List.length (exchanges (snd out)) = 1%nat.
Proof.
  intros m out.
  destruct (@openai_error_carries_status_and_body Mock.rt Mock.scripted Mock.env "a cab" m
              (Mock.response Mock.docs 429 "slow down") ([Mock.ok200 "PNG"], 1700)
              "slow down" eq_refl eq_refl) as [_ H].
  unfold out. rewrite (H eq_refl). split; reflexivity.
Defined.

(** X13. The inline-payload client of [src/index.js], after a successful
    generation response with parsed body [data]: it returns
    [Buffer.from(data.data[0].b64_json, 'base64')] after that single
    exchange, with no second request; but it checks nothing on the way, so
    a body without [data] makes it throw the [TypeError] of reading index
    [0] of [undefined]. *)
Theorem callOpenAIImage_decodes_inline {RT : Runtime} {W : World}
    env prompt m resp w' data :
  let rq := generate_b64_request env prompt in
  let m1 := after_fetch m (fst rq) (snd rq) (inr resp) w' in
  world_fetch (fst rq) (snd rq) (ext m) = (inr resp, w') ->
  ok resp = true ->
  json resp = inr data ->
  (forall d d0 b64,
     get_prop data "data" = inr d -> get_index d 0 = inr d0 ->
     get_prop d0 "b64_json" = inr b64 ->
     IndexJs.callOpenAIImage env prompt m = (Buffer_from_base64 b64, m1))
  /\ (forall fields, data = VObj fields -> lookup "data" fields = VUndefined ->
        IndexJs.callOpenAIImage env prompt m
          = (inl (TypeError "Cannot read properties of undefined (reading '0')"), m1)).
Proof.
  intros rq m1 Hw Hok Hj.
  pose proof (IndexJs_callOpenAIImage_run env prompt m _ w' Hw) as H.
  unfold IndexJs_image_outcome, openai_checked, and_then in H. rewrite Hok, Hj in H.
  split.
  - intros d d0 b64 Hd H0 Hb. rewrite Hd, H0, Hb in H. exact H.
  - intros fields -> Hd. cbn [get_prop] in H. rewrite Hd in H. exact H.
Qed.

Lemma callOpenAIImage_decodes_inline_witness :
  let m := Mock.arriving [Mock.ok200 "B64"; Mock.ok200 "PNG"] 1700 in
  let m' := Mock.arriving [Mock.ok200 "NOID"] 1700 in
  (fst (@IndexJs.callOpenAIImage Mock.rt Mock.scripted Mock.env "a cab" m)
     = inr (list_byte_of_string "UE5H")
   /\ List.length
        (exchanges (snd (@IndexJs.callOpenAIImage Mock.rt Mock.scripted Mock.env "a cab" m)))
      = 1%nat)
  /\ fst (@IndexJs.callOpenAIImage Mock.rt Mock.scripted Mock.env "a cab" m')
     = inl (TypeError "Cannot read properties of undefined (reading '0')").
Proof.
  intros m m'. split.
  - destruct (@callOpenAIImage_decodes_inline Mock.rt Mock.scripted Mock.env "a cab" m
                (Mock.response Mock.docs 200 "B64") ([Mock.ok200 "PNG"], 1700)
                (VObj [("data", VArr [VObj [("b64_json", VStr "UE5H")]])])
                eq_refl eq_refl eq_refl) as [H _].
    rewrite (H (VArr [VObj [("b64_json", VStr "UE5H")]])
               (VObj [("b64_json", VStr "UE5H")]) (VStr "UE5H") eq_refl eq_refl eq_refl).
    split; reflexivity.
  - destruct (@callOpenAIImage_decodes_inline Mock.rt Mock.scripted Mock.env "a cab" m'
                (Mock.response Mock.docs 200 "NOID") ([], 1700) (VObj [])
                eq_refl eq_refl eq_refl) as [_ H].
    rewrite (H [] eq_refl eq_refl). reflexivity.
Defined.

(** ** Whole runs *)

(** X14. When the posts endpoint answers successfully with an empty
    array, the run ends there: the listener answers 500 with
    [No posts found] after that single exchange, and neither the image API
    nor the media endpoint is called. *)
Theorem no_posts_is_answered_500 {RT : Runtime} {W : World}
    env req u site m resp w' txt :
  let rq := posts_request env (strip_trailing_slashes site) in
  let m1 := after_fetch (at_start m) (fst rq) (snd rq) (inr resp) w' in
  URL_new (url req) = inr u ->
  pathname u = "/run" ->
  searchParams_get (searchParams u) "secret" = Some (WORKER_SECRET env) ->
  env_WP_SITE_URL env = Some site ->
  world_fetch (fst rq) (snd rq) (ext m) = (inr resp, w') ->
  ok resp = true ->
  text resp = inr txt ->
  JSON_parse txt = inr (VArr []) ->
  IndexJs.server env req m = (inr tt, answered m1 500 [] "No posts found")
  /\ Part000.server env req m
     = (inr tt, answered (error_logged m1 (Error "No posts found")) 500 [] "No posts found")
  /\ exchanges m1 = (exchanges m ++ [mkExchange (fst rq) (snd rq) (inr resp)])%list.
Proof.
  intros rq m1 Hu Hp Hsec Hs Hw Hok Ht Hj. split; [|split; [|reflexivity]].
  - rewrite (IndexJs_server_runs env req u m Hu Hp Hsec).
    assert (IndexJs.runWorker env m = (inl (Error "No posts found"), m1)) as ->;
      [|reflexivity].
    rewrite IndexJs_runWorker_eq. apply orchestrate_throws_iff.
    apply raised_by_getLatestPost.
    rewrite (IndexJs_getLatestPost_run env site (at_start m) (inr resp) w' Hs Hw).
    unfold wp_outcome, text_then_parse, and_then. rewrite Ht, Hok, Hj. reflexivity.
  - rewrite (Part000_server_runs env req u m Hu Hp Hsec).
    assert (Part000.runWorker env m = (inl (Error "No posts found"), m1)) as ->;
      [|reflexivity].
    rewrite Part000_runWorker_eq. apply orchestrate_throws_iff.
    apply raised_by_getLatestPost.
    rewrite (Part000_getLatestPost_run env site (at_start m) (inr resp) w' Hs Hw).
    unfold wp_outcome, text_then_parse, and_then. rewrite Ht, Hok, Hj. reflexivity.
Qed.

Lemma no_posts_is_answered_500_witness :
  let m := Mock.arriving [Mock.ok200 "EMPTY"; Mock.ok200 "B64"; Mock.ok200 "MEDIA"] 1700 in
  let out := @IndexJs.server Mock.rt Mock.scripted Mock.env
               (mkRequest "/run?secret=s3cret") m in
  res (snd out) = mkServerResponse 500 [] (Some "No posts found")
  /\ List.length (exchanges (snd out)) = 1%nat.
Proof.
  intros m out.
  destruct (@no_posts_is_answered_500 Mock.rt Mock.scripted Mock.env
              (mkRequest "/run?secret=s3cret") (mkURL "/run" [("secret", "s3cret")])
              "https://blog.example/" m (Mock.response Mock.docs 200 "EMPTY")
              ([Mock.ok200 "B64"; Mock.ok200 "MEDIA"], 1700) "EMPTY"
              eq_refl eq_refl eq_refl eq_refl eq_refl eq_refl eq_refl eq_refl) as (H & _).
  unfold out. rewrite H. split; reflexivity.
Defined.

(** X15. The pipeline never writes to the HTTP response: whatever the
    world answers and however the run ends, [runWorker] leaves the status,
    the headers and the body as they were; only the listener writes them. *)
Theorem pipeline_leaves_the_response_alone {RT : Runtime} {W : World} env (m : machine) :
  res (snd (IndexJs.runWorker env m)) = res m
  /\ res (snd (Part000.runWorker env m)) = res m.
Proof.
  split.
  - apply IndexJs_runWorker_keeps_res.
  - apply Part000_runWorker_keeps_res.
Qed.

(** X16. When the upload has succeeded and the featured-image update is
    then answered with a status outside 200-299, the run throws
    [WP API POST /wp-json/wp/v2/posts/<id> <status>: <body text>] in the
    state right after that exchange: the update is the last request, the
    uploaded media is not removed, and the listener answers 500 with that
    message. *)
Theorem failed_update_leaves_the_media {RT : Runtime} {W : World}
    env req u site m postId mediaId m6 resp w' txt :
  let rq := featured_request env (strip_trailing_slashes site) postId mediaId in
  let m7 := after_fetch m6 (fst rq) (snd rq) (inr resp) w' in
  let e := Error ("WP API POST " ++ featured_endpoint postId ++ " "
                    ++ string_of_Z (status resp) ++ ": " ++ txt) in
  URL_new (url req) = inr u ->
  pathname u = "/run" ->
  searchParams_get (searchParams u) "secret" = Some (WORKER_SECRET env) ->
  env_WP_SITE_URL env = Some site ->
  world_fetch (fst rq) (snd rq) (ext m6) = (inr resp, w') ->
  ok resp = false ->
  text resp = inr txt ->
  (reaches_featured (IndexJs.getLatestPost env) IndexJs.title_of IndexJs.prompt_of
     (IndexJs.callOpenAIImage env) (IndexJs.uploadImageToWP env) m postId mediaId m6 ->
   IndexJs.runWorker env m = (inl e, m7)
   /\ IndexJs.server env req m = (inr tt, answered m7 500 [] (message e)))
  /\ (reaches_featured (Part000.getLatestPost env) Part000.title_of Part000.prompt_of
        (Part000.callOpenAIImage env) (Part000.uploadImageToWP env) m postId mediaId m6 ->
      Part000.runWorker env m = (inl e, m7)
      /\ Part000.server env req m
         = (inr tt, answered (error_logged m7 e) 500 [] (message e))).
Proof.
  intros rq m7 e Hu Hp Hsec Hs Hw Hok Ht.
  assert (IndexJs.setFeaturedImage env postId mediaId m6 = (inl e, m7)) as Hfeat.
  { rewrite (IndexJs_setFeaturedImage_run env postId mediaId site m6 _ w' Hs Hw).
    unfold wp_outcome, text_then_parse, and_then, wp_complaint. rewrite Ht, Hok.
    reflexivity. }
  split; intros R6.
  - assert (IndexJs.runWorker env m = (inl e, m7)) as Hrun.
    { rewrite IndexJs_runWorker_eq. apply orchestrate_throws_iff.
      eapply raised_by_setFeaturedImage; eassumption. }
    split; [exact Hrun|].
    rewrite (IndexJs_server_runs env req u m Hu Hp Hsec), Hrun. reflexivity.
  - assert (Part000.runWorker env m = (inl e, m7)) as Hrun.
    { rewrite Part000_runWorker_eq. apply orchestrate_throws_iff.
      eapply raised_by_setFeaturedImage; [eassumption|].
      rewrite setFeaturedImage_same. exact Hfeat. }
    split; [exact Hrun|].
    rewrite (Part000_server_runs env req u m Hu Hp Hsec), Hrun. reflexivity.
Qed.

Lemma failed_update_leaves_the_media_witness :
  let script := [Mock.ok200 "POSTS"; Mock.ok200 "B64"; Mock.ok200 "MEDIA";
                 inr (Mock.response Mock.docs 403 "forbidden"); Mock.ok200 "POST"] in
  let out := @IndexJs.server Mock.rt Mock.scripted Mock.env
               (mkRequest "/run?secret=s3cret") (Mock.arriving script 1700) in
  exists m7,
    out = (inr tt, answered m7 500 [] "WP API POST /wp-json/wp/v2/posts/42 403: forbidden")
    /\ List.length (exchanges m7) = 4%nat
    /\ fst (ext m7) = [Mock.ok200 "POST"].
Proof.
  intros script out. eexists. split; [|split].
  - refine (proj2 (proj1 (@failed_update_leaves_the_media Mock.rt Mock.scripted Mock.env
                     (mkRequest "/run?secret=s3cret") (mkURL "/run" [("secret", "s3cret")])
                     "https://blog.example/" (Mock.arriving script 1700)
                     (VNum 42) (VNum 900) _ (Mock.response Mock.docs 403 "forbidden")
                     ([Mock.ok200 "POST"], 1701) "forbidden"
                     eq_refl eq_refl eq_refl eq_refl _ eq_refl eq_refl) _)).
    + shelve.
    + unfold reaches_featured, reaches_upload, reaches_generation.
      eexists. eexists. eexists. eexists. split; [|split].
      * eexists. eexists. eexists. eexists. split; [|split; [|split]].
        -- eexists. eexists. split; [lazy; reflexivity|].
           split; [lazy; reflexivity|]. split; reflexivity.
        -- lazy. reflexivity.
        -- reflexivity.
        -- reflexivity.
      * lazy. reflexivity.
      * reflexivity.
  - lazy. reflexivity.
  - lazy. reflexivity.
  Unshelve. lazy. reflexivity.
Defined.

(** X17. Of a request the listener reads only the pathname and the first
    [secret] parameter: two requests that agree on these are handled
    identically, whatever else their query strings hold. *)
Theorem listener_reads_only_path_and_secret {RT : Runtime} {W : World}
    env req1 req2 u1 u2 (m : machine) :
  URL_new (url req1) = inr u1 ->
  URL_new (url req2) = inr u2 ->
  pathname u1 = pathname u2 ->
  searchParams_get (searchParams u1) "secret" = searchParams_get (searchParams u2) "secret" ->
  IndexJs.server env req1 m = IndexJs.server env req2 m
  /\ Part000.server env req1 m = Part000.server env req2 m.
Proof.
  intros H1 H2 Hp Hs. split.
  - unfold IndexJs.server. rewrite !run_catch, !run_bind. unfold lift.
    rewrite H1, H2, Hp, Hs. reflexivity.
  - unfold Part000.server. rewrite !run_catch, !run_bind. unfold lift.
    rewrite H1, H2, Hp, Hs. reflexivity.
Qed.

Lemma listener_reads_only_path_and_secret_witness :
  let m := Mock.arriving [Mock.ok200 "EMPTY"] 1700 in
  @IndexJs.server Mock.rt Mock.scripted Mock.env
    (mkRequest "/run?secret=s3cret&dry=1&secret=other") m
  = @IndexJs.server Mock.rt Mock.scripted Mock.env (mkRequest "/run?secret=s3cret") m.
Proof.
  intros m.
  apply (@listener_reads_only_path_and_secret Mock.rt Mock.scripted Mock.env
           (mkRequest "/run?secret=s3cret&dry=1&secret=other")
           (mkRequest "/run?secret=s3cret")
           (mkURL "/run" [("secret", "s3cret"); ("dry", "1"); ("secret", "other")])
           (mkURL "/run" [("secret", "s3cret")]) m); reflexivity.
Defined.


(** ** The file name and the title, in the runs themselves *)

(** X3. A run that returns made exactly the requests of the pipeline, and
    its upload request carries the name [ai-taxi-<t>.png] where [t] is
    what [Date.now()] returned in the state the image client left, the
    one reading of the clock the run takes.  Upload requests named after
    different readings are different. *)
Theorem upload_is_named_after_the_clock {RT : Runtime} {W : World} env (m : machine) r m' :
  (IndexJs.runWorker env m = (inr r, m') ->
   exists post title postId m2 image m3 mediaId xs,
     reaches_generation (IndexJs.getLatestPost env) IndexJs.title_of m post title postId m2
     /\ IndexJs.callOpenAIImage env (IndexJs.prompt_of title) m2 = (inr image, m3)
     /\ exchanges m' = (exchanges m ++ xs)%list
     /\ map request_of xs
        = IndexJs_pipeline env (IndexJs.prompt_of title) image
            (filename_at (fst (world_now (ext m3)))) postId mediaId)
  /\ (Part000.runWorker env m = (inr r, m') ->
      exists post title postId m2 imageUrl image m3 mediaId xs,
        reaches_generation (Part000.getLatestPost env) Part000.title_of m post title postId m2
        /\ Part000.callOpenAIImage env (Part000.prompt_of title) m2 = (inr image, m3)
        /\ exchanges m' = (exchanges m ++ xs)%list
        /\ map request_of xs
           = Part000_pipeline env (Part000.prompt_of title) imageUrl image
               (filename_at (fst (world_now (ext m3)))) postId mediaId)
  /\ (forall base image a b,
        a <> b ->
        upload_request env base image (filename_at a)
        <> upload_request env base image (filename_at b)).
Proof.
  split; [|split].
  - intros H. rewrite IndexJs_runWorker_eq in H. apply orchestrate_returns_iff in H.
    destruct H as (postId & mediaId & Hall & _).
    destruct (success_sequenced
                (IndexJs.getLatestPost env) IndexJs.title_of IndexJs.prompt_of
                (IndexJs.callOpenAIImage env) (IndexJs.uploadImageToWP env)
                (IndexJs.setFeaturedImage env)
                (posts_request env (base_of env))
                (fun prompt p => p = [generate_b64_request env prompt])
                (upload_request env (base_of env))
                (featured_request env (base_of env))
                (IndexJs_getLatestPost_sequenced env)
                (fun post m0 => f_equal snd (IndexJs_title_of_run post m0))
                (fun prompt m0 =>
                   ex_intro (fun p => p = [generate_b64_request env prompt]
                                      /\ strictly_sequenced p m0
                                           (IndexJs.callOpenAIImage env prompt m0))
                     _ (conj eq_refl (IndexJs_callOpenAIImage_sequenced env prompt m0)))
                (IndexJs_uploadImageToWP_sequenced env)
                (IndexJs_setFeaturedImage_sequenced env) m postId mediaId m' Hall)
      as (post & title & m2 & image & m3 & p & xs & R2 & H4 & -> & Hx & Hm).
    exists post, title, postId, m2, image, m3, mediaId, xs.
    split; [exact R2|]. split; [exact H4|]. split; [exact Hx | exact Hm].
  - intros H. rewrite Part000_runWorker_eq in H. apply orchestrate_returns_iff in H.
    destruct H as (postId & mediaId & Hall & _).
    destruct (success_sequenced
                (Part000.getLatestPost env) Part000.title_of Part000.prompt_of
                (Part000.callOpenAIImage env) (Part000.uploadImageToWP env)
                (Part000.setFeaturedImage env)
                (posts_request env (base_of env))
                (fun prompt p =>
                   exists imageUrl,
                     p = [generate_url_request env prompt; download_request imageUrl])
                (upload_request env (base_of env))
                (featured_request env (base_of env))
                (Part000_getLatestPost_sequenced env)
                (fun post m0 => f_equal snd (Part000_title_of_run post m0))) with
      (m := m) (postId := postId) (mediaId := mediaId) (m' := m')
      as (post & title & m2 & image & m3 & p & xs & R2 & H4 & (imageUrl & ->) & Hx & Hm).
    + intros prompt m0.
      destruct (Part000_callOpenAIImage_sequenced env prompt m0) as (imageUrl & Hs).
      exists [generate_url_request env prompt; download_request imageUrl].
      split; [exists imageUrl; reflexivity | exact Hs].
    + apply Part000_uploadImageToWP_sequenced.
    + apply IndexJs_setFeaturedImage_sequenced.
    + exact Hall.
    + exists post, title, postId, m2, imageUrl, image, m3, mediaId, xs.
      split; [exact R2|]. split; [exact H4|]. split; [exact Hx | exact Hm].
  - intros base image a b Hab.
    exact (proj2 (filenames_differ_with_the_clock env base image a b Hab)).
Qed.

Lemma upload_is_named_after_the_clock_witness :
  let m := Mock.arriving [Mock.ok200 "POSTS"; Mock.ok200 "B64"; Mock.ok200 "MEDIA";
                          Mock.ok200 "POST"] 1700 in
  exists m3 xs prompt image postId mediaId,
    exchanges (snd (@IndexJs.runWorker Mock.rt Mock.scripted Mock.env m))
      = (exchanges m ++ xs)%list
    /\ map request_of xs
       = @IndexJs_pipeline Mock.rt Mock.env prompt image
           (filename_at (fst (@world_now Mock.scripted (ext m3)))) postId mediaId.
Proof.
  intros m.
  eassert (@IndexJs.runWorker Mock.rt Mock.scripted Mock.env m = (inr _, _)) as Hrun
    by (lazy; reflexivity).
  destruct (proj1 (@upload_is_named_after_the_clock Mock.rt Mock.scripted Mock.env m _ _)
              Hrun)
    as (post & title & postId & m2 & image & m3 & mediaId & xs & _ & _ & Hx & Hm).
  exists m3, xs, (IndexJs.prompt_of title), image, postId, mediaId.
  rewrite Hrun. split; [exact Hx | exact Hm].
Defined.

(** The same run at two clock readings: the names in the upload requests
    are those of the readings. *)
Example upload_names_at_1700_and_1701 :
  let script := [Mock.ok200 "POSTS"; Mock.ok200 "B64"; Mock.ok200 "MEDIA"; Mock.ok200 "POST"] in
  let upload_of clock :=
    nth_error
      (map request_of
         (exchanges (snd (@IndexJs.runWorker Mock.rt Mock.scripted Mock.env
                            (Mock.arriving script clock))))) 2 in
  upload_of 1700
    = Some (@upload_request Mock.rt Mock.env "https://blog.example"
              (list_byte_of_string "UE5H") "ai-taxi-1700.png")
  /\ upload_of 1701
     = Some (@upload_request Mock.rt Mock.env "https://blog.example"
               (list_byte_of_string "UE5H") "ai-taxi-1701.png").
Proof. split; reflexivity. Qed.


